(** * HMFI business-loan scorecard: the scoring and decision engine

    A shallow embedding of [calculate_scorecard] and its helpers ([pmt],
    [safe_divide], [risk_band]) from [src/app.py], with the properties the
    specification states about them.

    Numbers.  Python floats are modelled as rationals ([Q]); Python's
    [==], [<=], ... on numbers are the boolean tests of [QArith].  The
    arithmetic of [calculate_scorecard] itself is taken as exact.  The
    amortization formula is not: whether [pmt] raises depends on how
    binary64 rounds, so [pmt] and [math.pow] round every operation to
    binary64 ([round64], nearest with ties to even).  Infinities and NaN
    are outside the model.  Python's [/] raises [ZeroDivisionError] on a
    zero divisor and [math.pow] raises [ValueError] outside its domain and
    [OverflowError] beyond the binary64 range, so fallible code lives in
    the error monad [PyResult].  [math.pow] is taken as correctly rounded
    on integer exponents; on a positive base and a fractional exponent the
    value it rounds is a parameter ([libm_pow]).

    Dictionaries with a fixed key set ([inputs], [lookups], the result) are
    records; [sector_stress] and the sector-bonus table are finite maps. *)

From Stdlib Require Import QArith Qabs Qpower Qround ZArith String List Lia Lqa Bool.
From Stdlib Require Import Ascii DecimalString DecimalN DecimalZ.
From stdpp Require Import base strings gmap.

Open Scope Q_scope.
Open Scope string_scope.

(** ** Python values and exceptions *)

Inductive PyExn : Type :=
| ValueError
| ZeroDivisionError
| OverflowError.

Inductive PyResult (A : Type) : Type :=
| Ok (a : A)
| Raise (e : PyExn).

Arguments Ok {A} a.
Arguments Raise {A} e.

Definition py_bind {A B : Type} (c : PyResult A) (k : A -> PyResult B) : PyResult B :=
  match c with
  | Ok a => k a
  | Raise e => Raise e
  end.

Notation "'let!' x ':=' c 'in' k" := (py_bind c (fun x => k))
  (at level 10, x name, c at level 100, k at level 200).

Definition py_map {A B : Type} (f : A -> B) (c : PyResult A) : PyResult B :=
  let! a := c in Ok (f a).

(** Comparisons of Python numbers. *)
Definition py_eq (a b : Q) : bool := Qeq_bool a b.
Definition py_le (a b : Q) : bool := Qle_bool a b.
Definition py_lt (a b : Q) : bool := negb (Qle_bool b a).
Definition py_ge (a b : Q) : bool := py_le b a.
Definition py_gt (a b : Q) : bool := py_lt b a.

(** [a / b]: true division, [ZeroDivisionError] on a zero divisor. *)
Definition py_div (a b : Q) : PyResult Q :=
  if py_eq b 0 then Raise ZeroDivisionError else Ok (a / b).

(** [min(a, b)] and [max(a, b)] of two arguments: the first one is kept
    unless the second is strictly smaller (resp. larger). *)
Definition py_min (a b : Q) : Q := if py_lt b a then b else a.
Definition py_max (a b : Q) : Q := if py_gt b a then b else a.

(** Truthiness of a string: non-empty. *)
Definition py_truthy (s : string) : bool := negb (s =? "").

(** Numeric equality lifted to nullable metrics. *)
Definition opt_Qeq (a b : option Q) : Prop :=
  match a, b with
  | Some x, Some y => x == y
  | None, None => True
  | _, _ => False
  end.

Infix "=?=" := opt_Qeq (at level 70, no associativity).

(** [is_integral y] tells whether the rational [y] is an integer, and
    [integral_part y] is that integer (used by [math.pow] below). *)
Definition is_integral (y : Q) : bool :=
  (Z.rem (Qnum y) (Z.pos (Qden y)) =? 0)%Z.

Definition integral_part (y : Q) : Z :=
  (Z.quot (Qnum y) (Z.pos (Qden y)))%Z.

(** ** Binary64

    The float operations of the amortization formula.  Each is the exact
    operation followed by rounding to the nearest binary64 number, as
    IEEE 754 defines [+], [-], [*] and [/]. *)

(** The integer [e] with [2^e <= q < 2^(e+1)], for a positive [q]. *)
Definition floor_log2 (q : Q) : Z :=
  let e := (Z.log2 (Qnum q) - Z.log2 (Z.pos (Qden q)))%Z in
  if Qle_bool (2 ^ e) q then e else (e - 1)%Z.

(** The nearest integer, the even one of the two at a tie. *)
Definition round_half_even (r : Q) : Z :=
  let f := Qfloor r in
  match Qcompare (r - inject_Z f) (1 # 2) with
  | Lt => f
  | Gt => (f + 1)%Z
  | Eq => if Z.even f then f else (f + 1)%Z
  end.

(** The exponent of the last of the 53 bits of [q]; subnormal numbers
    stop at [-1074]. *)
Definition ulp_exponent (q : Q) : Z :=
  Z.max (floor_log2 (Qabs q) - 52) (-1074).

(** The binary64 number nearest to [q].  Beyond the binary64 range Python
    has an infinity; the model keeps rounding to 53 bits there. *)
Definition round64 (q : Q) : Q :=
  if Qeq_bool q 0 then 0
  else
    let ulp := 2 ^ ulp_exponent q in
    inject_Z (round_half_even (q / ulp)) * ulp.

(** [q] rounds to an infinity: it is at least half a unit in the last
    place above the largest binary64 number. *)
Definition overflows64 (q : Q) : bool :=
  Qle_bool (2 ^ 1024 - 2 ^ 970) (Qabs q).

(** Float [a + b], [a - b] and [a * b]. *)
Definition float_add (a b : Q) : Q := round64 (a + b).
Definition float_sub (a b : Q) : Q := round64 (a - b).
Definition float_mul (a b : Q) : Q := round64 (a * b).

(** Float [a / b]: [ZeroDivisionError] on a zero divisor. *)
Definition float_div (a b : Q) : PyResult Q :=
  let! q := py_div a b in Ok (round64 q).

(** What [math.pow] makes of the value [v] of the power: [OverflowError]
    ("math range error") when it is beyond the binary64 range, the rounded
    value otherwise. *)
Definition math_range (v : Q) : PyResult Q :=
  if overflows64 v then Raise OverflowError else Ok (round64 v).

(** ** Module-level helpers of [app.py] *)

(** [safe_divide(numerator, denominator)], lines 138-141. *)
Definition safe_divide (numerator denominator : option Q) : PyResult (option Q) :=
  match numerator, denominator with
  | Some n, Some d =>
      if py_eq d 0 then Ok None
      else let! v := py_div n d in Ok (Some v)
  | _, _ => Ok None
  end.

(** [RISK_BANDS], lines 82-88. *)
Definition RISK_BANDS : list (Q * string) :=
  [ (85, "Very Low Risk");
    (70, "Low Risk");
    (55, "Moderate Risk");
    (40, "High Risk");
    (1, "Very High Risk") ].

(** The [for threshold, band in ...] loop of [risk_band]: first entry whose
    threshold the score reaches. *)
Fixpoint risk_band_scan (bands : list (Q * string)) (score : Q) : option string :=
  match bands with
  | [] => None
  | (threshold, band) :: rest =>
      if py_ge score threshold then Some band else risk_band_scan rest score
  end.

(** [risk_band(score)], lines 144-148. *)
Definition risk_band (score : Q) : string :=
  match risk_band_scan RISK_BANDS score with
  | Some band => band
  | None => "Very High Risk"
  end.

(** ** The data model *)

(** [date] values of [application_date]. *)
Record PyDate : Type := mkDate { year : Z; month : Z; day : Z }.

(** The [inputs] dictionary built by [build_inputs_from_state], lines
    832-877: one field per key.  Text fields are strings, numeric fields
    parsed by [parse_optional_float] are nullable numbers, and
    [site_visit_assessment] is an [int]. *)
Record ApplicationInput : Type := mkInput {
  credit_officer_id : string;
  credit_officer_name : string;
  applicant_name : string;
  applicant_id : string;
  sex : string;
  age_years : option Q;
  marital_status : string;
  literacy : string;
  repeat_borrower : string;
  loan_series : option Q;
  prior_default : string;
  branch : string;
  application_date : PyDate;
  requested_loan_amount : option Q;
  monthly_installment_override : option Q;
  term_months : option Q;
  annual_interest_rate : option Q;
  business_name : string;
  ownership : string;
  site_visit_assessment : Z;
  sector : string;
  training_certification : string;
  is_business_seasonal : string;
  business_type : string;
  years_in_business_months : option Q;
  character_references : string;
  loan_purpose : string;
  stability_months : option Q;
  stated_revenue : option Q;
  verified_revenue : option Q;
  cogs_inventory : option Q;
  other_monthly_income : option Q;
  rent : option Q;
  household_expenses : option Q;
  utilities : option Q;
  owner_withdrawals : option Q;
  wages : option Q;
  transport : option Q;
  other_operating_costs : option Q;
  total_capital : option Q;
  additional_savings_equity : option Q;
  collateral_type : string;
  collateral_insured : string;
  market_value : option Q
}.

(** The [lookups] dictionary, keys of [DEFAULT_LOOKUP_VALUES], lines 7-24. *)
Record PolicyConfig : Type := mkPolicy {
  STRESS_FACTOR : Q;
  DSCR_TARGET : Q;
  CASHFLOW_DEFICIT_REPAY_SHARE_MAX : Q;
  LTV_MAX_MOVABLE : Q;
  LTV_MAX_IMMOVABLE : Q;
  EQUITY_MIN_RATIO : Q;
  DATA_VARIANCE_MAX : Q;
  BUSINESS_AGE_MIN : Q;
  AGE_MAX : Q;
  BRANCH_APPROVAL_LIMIT_ETB : Q;
  BUSINESS_LOAN_HARD_MAX_ETB : Q;
  W_CHARACTER : Q;
  W_CAPACITY : Q;
  W_CAPITAL : Q;
  W_COLLATERAL : Q;
  W_CONDITION : Q
}.

(** The local [flags] dictionary of [calculate_scorecard], lines 429-474. *)
Record Flags : Type := mkFlags {
  Age_Flag : bool;
  CFDeficit_Flag : bool;
  Income_Var_Flag : bool;
  Equity_Flag : bool;
  Training_Flag : bool;
  LTV_Flag : bool;
  Collateral_Flag : bool;
  Branch_Limit_Flag : bool;
  Loan_Max_Flag : bool;
  Default_Flag : bool
}.

(** The dictionary returned by [calculate_scorecard], lines 518-544. *)
Record ScorecardResult : Type := mkResult {
  stress_factor : option Q;
  monthly_installment_used : option Q;
  total_operating_expenses : option Q;
  business_surplus_unstressed : option Q;
  business_surplus_stressed : option Q;
  total_monthly_surplus_stressed : option Q;
  total_monthly_surplus_unstressed : option Q;
  stressed_dscr : option Q;
  dscr : option Q;
  repayment_share : option Q;
  income_variance : option Q;
  equity_ratio : option Q;
  liquidity_coverage : option Q;
  haircut : Q;
  collateral_coverage : option Q;
  ltv : option Q;
  score_character : Q;
  score_capacity : Q;
  score_capital : Q;
  score_collateral : Q;
  score_conditions : Q;
  total_score : Q;
  result_risk_band : string;
  triggered_flags : list string;
  recommendation : string
}.

(** One evaluation: the returned dictionary together with the local
    [flags] it was decided from (the flags themselves are not returned by
    the source, only their messages). *)
Record Run : Type := mkRun {
  run_flags : Flags;
  run_result : ScorecardResult
}.

(** [DEFAULT_LOOKUP_VALUES], lines 7-24. *)
Definition DEFAULT_LOOKUP_VALUES : PolicyConfig := {|
  STRESS_FACTOR := 0.85;
  DSCR_TARGET := 1.3;
  CASHFLOW_DEFICIT_REPAY_SHARE_MAX := 0.5;
  LTV_MAX_MOVABLE := 1.25;
  LTV_MAX_IMMOVABLE := 1.1;
  EQUITY_MIN_RATIO := 0.1;
  DATA_VARIANCE_MAX := 0.2;
  BUSINESS_AGE_MIN := 6;
  AGE_MAX := 99;
  BRANCH_APPROVAL_LIMIT_ETB := 50000;
  BUSINESS_LOAN_HARD_MAX_ETB := 3000000;
  W_CHARACTER := 30;
  W_CAPACITY := 39;
  W_CAPITAL := 10;
  W_COLLATERAL := 10;
  W_CONDITION := 10
|}.

(** [DEFAULT_SECTOR_STRESS], lines 26-32. *)
Definition DEFAULT_SECTOR_STRESS : gmap string Q :=
  list_to_map
    [ ("Trade", 0.85); ("Service", 0.8); ("Manufacturing", 0.7);
      ("Agriculture", 0.6); ("Other", 0.55) ].

Section Engine.

(** The value of [math.pow x y] on a positive base and a fractional
    exponent is in general irrational; the value the C library computes
    there, before the range check and the rounding, is a parameter of the
    development.  Everything proved below holds for every such function. *)
Variable libm_pow : Q -> Q -> Q.

(** [math.pow(x, y)] on finite arguments: [ValueError] ("math domain
    error") for a zero base with a negative exponent and for a negative
    base with a fractional exponent; otherwise the power, rounded to
    binary64, or [OverflowError] when it is out of range. *)
Definition math_pow (x y : Q) : PyResult Q :=
  if is_integral y then
    if py_eq x 0 && (integral_part y <? 0)%Z then Raise ValueError
    else math_range (Qpower x (integral_part y))
  else if py_lt x 0 then Raise ValueError
  else if py_eq x 0 then
    if py_lt y 0 then Raise ValueError else Ok 0
  else math_range (libm_pow x y).

(** [pmt(rate, periods, present_value)], lines 128-135, in binary64. *)
Definition pmt (rate periods present_value : Q) : PyResult (option Q) :=
  if py_eq rate 0 then
    if py_eq periods 0 then Ok None
    else let! v := float_div present_value periods in Ok (Some v)
  else if py_eq periods 0 then Ok None
  else
    let! w := math_pow (float_add 1 rate) (- periods) in
    let! v := float_div (float_mul rate present_value) (float_sub 1 w) in
    Ok (Some v).

(** ** [calculate_scorecard], lines 157-544

    Each block of the function body is a definition named after the local
    variable it assigns. *)

(** [stress_factor], line 159. *)
Definition stress_factor_of (inputs : ApplicationInput) (sector_stress : gmap string Q)
  : option Q :=
  if py_truthy (sector inputs) then sector_stress !! sector inputs else None.

(** [monthly_installment_used], lines 161-173. *)
Definition monthly_installment_of (inputs : ApplicationInput) : PyResult (option Q) :=
  match monthly_installment_override inputs with
  | Some v => Ok (Some v)
  | None =>
      match requested_loan_amount inputs, term_months inputs,
            annual_interest_rate inputs with
      | Some amount, Some term, Some annual =>
          let! percent := py_div annual 100 in
          let! monthly_rate := py_div percent 12 in
          pmt monthly_rate term amount
      | _, _, _ => Ok None
      end
  end.

(** [total_operating_expenses], lines 175-192. *)
Definition total_operating_expenses_of (inputs : ApplicationInput) : option Q :=
  match rent inputs, utilities inputs, wages inputs, transport inputs,
        other_operating_costs inputs with
  | Some r, Some u, Some w, Some t, Some o => Some (r + u + w + t + o)
  | _, _, _, _, _ => None
  end.

(** [business_surplus_unstressed], lines 194-204. *)
Definition business_surplus_unstressed_of (inputs : ApplicationInput)
    (opex : option Q) : option Q :=
  match verified_revenue inputs, cogs_inventory inputs, opex with
  | Some v, Some c, Some o => Some (v - c - o)
  | _, _, _ => None
  end.

(** [business_surplus_stressed], lines 206-208. *)
Definition business_surplus_stressed_of (unstressed factor : option Q) : option Q :=
  match unstressed, factor with
  | Some b, Some f => Some (b * f)
  | _, _ => None
  end.

(** [total_monthly_surplus_stressed] and [total_monthly_surplus_unstressed],
    lines 210-242: the same block on the stressed and on the unstressed
    business surplus. *)
Definition total_monthly_surplus_of (inputs : ApplicationInput)
    (business_surplus : option Q) : option Q :=
  match business_surplus, other_monthly_income inputs, household_expenses inputs,
        owner_withdrawals inputs with
  | Some b, Some i, Some h, Some w => Some (b + i - h - w)
  | _, _, _, _ => None
  end.

(** [repayment_share], lines 247-252. *)
Definition repayment_share_of (installment surplus : option Q) : PyResult (option Q) :=
  match installment, surplus with
  | Some m, Some s =>
      if py_le s 0 then Ok (Some 1)
      else let! v := py_div m s in Ok (Some v)
  | _, _ => Ok None
  end.

(** [income_variance], lines 254-262. *)
Definition income_variance_of (inputs : ApplicationInput) : PyResult (option Q) :=
  match stated_revenue inputs, verified_revenue inputs with
  | Some st, Some v =>
      if py_eq v 0 then Ok None
      else let! x := py_div (Qabs (st - v)) v in Ok (Some x)
  | _, _ => Ok None
  end.

(** [equity_ratio], lines 264-275. *)
Definition equity_ratio_of (inputs : ApplicationInput) : PyResult (option Q) :=
  match requested_loan_amount inputs, total_capital inputs,
        additional_savings_equity inputs with
  | Some amount, Some capital, Some savings =>
      if negb (py_eq amount 0) then
        let! x := py_div (capital + savings) amount in Ok (Some x)
      else Ok None
  | _, _, _ => Ok None
  end.

(** [liquidity_coverage], lines 277-294. *)
Definition liquidity_coverage_of (inputs : ApplicationInput)
    (opex installment : option Q) : PyResult (option Q) :=
  match additional_savings_equity inputs, opex, cogs_inventory inputs,
        installment, owner_withdrawals inputs with
  | Some savings, Some o, Some c, Some m, Some w =>
      let denominator := c + o + m + w in
      safe_divide (Some savings) (Some denominator)
  | _, _, _, _, _ => Ok None
  end.

(** [haircut], lines 296-300. *)
Definition haircut_of (inputs : ApplicationInput) : Q :=
  if collateral_type inputs =? "Movable" then 0.5
  else if collateral_type inputs =? "Immovable" then 0.3
  else 0.

(** [ltv], lines 302-314. *)
Definition ltv_of (inputs : ApplicationInput) (hc : Q) : PyResult (option Q) :=
  match requested_loan_amount inputs, market_value inputs with
  | Some amount, Some value =>
      if py_truthy (collateral_type inputs) then
        if collateral_type inputs =? "None" then Ok (Some 99)
        else
          let net_collateral := value * (1 - hc) in
          safe_divide (Some amount) (Some net_collateral)
      else Ok None
  | _, _ => Ok None
  end.

(** [score_character], lines 322-346. *)
Definition score_character_of (inputs : ApplicationInput) (lookups : PolicyConfig) : Q :=
  let years_in_business := years_in_business_months inputs in
  let repeat_series := loan_series inputs in
  let score := 0 in
  let score := if training_certification inputs =? "Yes" then score + 5 else score in
  let score := if sex inputs =? "F" then score + 3 else score in
  let score :=
    match years_in_business with
    | Some y =>
        if py_ge y 36 then score + 12
        else if py_ge y 24 then score + 10
        else if py_ge y 12 then score + 6
        else score
    | None => score
    end in
  let score :=
    if character_references inputs =? "Good" then score + 5
    else if character_references inputs =? "Average" then score + 2
    else score in
  let score :=
    match age_years inputs with
    | Some a => if py_ge a 40 then score + 2 else score
    | None => score
    end in
  let score := if marital_status inputs =? "Married" then score + 1 else score in
  let score := if repeat_borrower inputs =? "Yes" then score + 3 else score in
  let score :=
    if repeat_borrower inputs =? "Yes" then
      match repeat_series with
      | Some n => if py_ge n 3 then score + 5 else score
      | None => score
      end
    else score in
  py_min (W_CHARACTER lookups) score.

(** [score_capacity], lines 348-360. *)
Definition score_capacity_of (lookups : PolicyConfig) (stressed : option Q) : Q :=
  let score :=
    match stressed with
    | None => 0
    | Some d =>
        if py_ge d 1.5 then 34
        else if py_ge d (DSCR_TARGET lookups) then 28
        else if py_ge d 1.1 then 18
        else if py_ge d 0.9 then 8
        else 0
    end in
  py_min (W_CAPACITY lookups) score.

(** [score_capital], lines 362-374. *)
Definition score_capital_of (lookups : PolicyConfig) (equity : option Q) : Q :=
  let score :=
    match equity with
    | None => 0
    | Some e =>
        if py_ge e 0.2 then 15
        else if py_ge e 0.15 then 12
        else if py_ge e (EQUITY_MIN_RATIO lookups) then 8
        else if py_ge e 0.05 then 3
        else 0
    end in
  py_min (W_CAPITAL lookups) score.

(** [score_collateral], lines 376-399. *)
Definition score_collateral_of (inputs : ApplicationInput) (lookups : PolicyConfig)
    (loan_to_value : option Q) : Q :=
  let kind := collateral_type inputs in
  let score :=
    if kind =? "None" then 0
    else
      let score :=
        match loan_to_value with
        | None => 0
        | Some l =>
            if ((kind =? "Movable") && py_le l 1)
               || ((kind =? "Immovable") && py_le l 1)
            then 10
            else if ((kind =? "Movable") && py_le l (LTV_MAX_MOVABLE lookups))
                    || ((kind =? "Immovable") && py_le l (LTV_MAX_IMMOVABLE lookups))
            then 6
            else 0
        end in
      if collateral_insured inputs =? "No" then score - 2 else score in
  py_min (W_COLLATERAL lookups) score.

(** The dictionary literal of lines 416-422. *)
Definition SECTOR_SCORE : gmap string Q :=
  list_to_map
    [ ("Trade", 3); ("Service", 2); ("Agriculture", 1); ("Manufacturing", 1);
      ("Other", 0) ].

(** [score_conditions], lines 401-424. *)
Definition score_conditions_of (inputs : ApplicationInput) (lookups : PolicyConfig) : Q :=
  let years_in_business := years_in_business_months inputs in
  let score :=
    if (site_visit_assessment inputs >=? 4)%Z then 5
    else if (site_visit_assessment inputs =? 3)%Z then 3
    else 0 in
  let score := if is_business_seasonal inputs =? "No" then score + 2 else score in
  let score :=
    match years_in_business, stability_months inputs with
    | Some y, Some st =>
        if py_eq st y && py_ge y 6 then score + 2 else score
    | _, _ => score
    end in
  let sector_score := default 0 (SECTOR_SCORE !! sector inputs) in
  let score := score + sector_score in
  py_min (W_CONDITION lookups) score.

(** [total_score], lines 426-427. *)
Definition total_score_of (character capacity capital collateral conditions : Q) : Q :=
  let total := character + capacity + capital + collateral + conditions in
  py_max 1 (py_min 99 total).

(** [flags], lines 429-474. *)
Definition flags_of (inputs : ApplicationInput) (lookups : PolicyConfig)
    (installment surplus_unstressed share variance equity loan_to_value : option Q)
  : Flags :=
  let kind := collateral_type inputs in
  {| Age_Flag :=
       match years_in_business_months inputs with
       | None => true
       | Some y => py_lt y (BUSINESS_AGE_MIN lookups)
       end;
     CFDeficit_Flag :=
       match surplus_unstressed, installment with
       | Some s, Some _ =>
           py_le s 0
           || match share with
              | Some r => py_gt r (CASHFLOW_DEFICIT_REPAY_SHARE_MAX lookups)
              | None => false
              end
       | _, _ => false
       end;
     Income_Var_Flag :=
       match variance with
       | Some v => py_gt v (DATA_VARIANCE_MAX lookups)
       | None => false
       end;
     Equity_Flag :=
       match equity with
       | Some e => py_lt e (EQUITY_MIN_RATIO lookups)
       | None => false
       end;
     Training_Flag := training_certification inputs =? "No";
     LTV_Flag :=
       match loan_to_value with
       | Some l =>
           ((kind =? "Movable") && py_gt l (LTV_MAX_MOVABLE lookups))
           || ((kind =? "Immovable") && py_gt l (LTV_MAX_IMMOVABLE lookups))
       | None => false
       end;
     Collateral_Flag :=
       negb (kind =? "")
       && negb (collateral_insured inputs =? "")
       && ((collateral_insured inputs =? "No") || (kind =? "None"));
     Branch_Limit_Flag :=
       match requested_loan_amount inputs with
       | Some a => py_gt a (BRANCH_APPROVAL_LIMIT_ETB lookups)
       | None => false
       end;
     Loan_Max_Flag :=
       match requested_loan_amount inputs with
       | Some a => py_gt a (BUSINESS_LOAN_HARD_MAX_ETB lookups)
       | None => false
       end;
     Default_Flag := prior_default inputs =? "Yes" |}.

(** One [if ...: triggered_flags.append(msg)] statement. *)
Definition append_if (cond : bool) (msg : string) (acc : list string) : list string :=
  if cond then acc ++ [msg] else acc.

(** [triggered_flags], lines 476-498. *)
Definition triggered_flags_of (inputs : ApplicationInput) (flags : Flags) : list string :=
  let acc := [] in
  let acc := append_if (Age_Flag flags) "REJECT: Business less than 6 months" acc in
  let acc := append_if (CFDeficit_Flag flags)
               "REJECT: Cash flow deficit (repayment >50% of surplus)" acc in
  let acc := append_if (Income_Var_Flag flags)
               "REJECT: Data inconsistency (>20% variance)" acc in
  let acc := append_if (Default_Flag flags) "REJECT: Prior default with HMFI" acc in
  let acc := append_if (Loan_Max_Flag flags) "REJECT: Above hard max loan amount" acc in
  let acc := append_if (Equity_Flag flags) "REFER: Equity <10% of loan" acc in
  let acc := append_if (Training_Flag flags) "REFER: No training/certification" acc in
  let acc := append_if (LTV_Flag flags)
               "REFER: Collateral shortfall (LTV too high)" acc in
  let acc := append_if (Collateral_Flag flags) "REFER: Collateral not insured" acc in
  let acc := append_if (Branch_Limit_Flag flags)
               "REFER: Above branch approval limit" acc in
  append_if (collateral_type inputs =? "None") "REJECT: No Collateral" acc.

(** [recommendation], lines 500-516. *)
Definition recommendation_of (inputs : ApplicationInput) (flags : Flags) (total : Q)
  : string :=
  if Age_Flag flags || CFDeficit_Flag flags || Income_Var_Flag flags
     || Default_Flag flags || Loan_Max_Flag flags
     || (collateral_type inputs =? "None")
  then "REJECT"
  else if py_le total 54 then "REJECT"
  else if Branch_Limit_Flag flags || LTV_Flag flags || Collateral_Flag flags
  then "REFER – HEAD OFFICE"
  else if py_le total 69 || Equity_Flag flags || Training_Flag flags
  then "APPROVE WITH CONDITIONS – BRANCH MANAGER"
  else "APPROVE".

(** The whole body, keeping the local [flags] next to the returned
    dictionary. *)
Definition calculate_scorecard_run (inputs : ApplicationInput) (lookups : PolicyConfig)
    (sector_stress : gmap string Q) : PyResult Run :=
  let factor := stress_factor_of inputs sector_stress in
  let! installment := monthly_installment_of inputs in
  let opex := total_operating_expenses_of inputs in
  let surplus_u := business_surplus_unstressed_of inputs opex in
  let surplus_s := business_surplus_stressed_of surplus_u factor in
  let total_s := total_monthly_surplus_of inputs surplus_s in
  let total_u := total_monthly_surplus_of inputs surplus_u in
  let! stressed := safe_divide total_s installment in
  let! coverage := safe_divide surplus_u installment in
  let! share := repayment_share_of installment total_u in
  let! variance := income_variance_of inputs in
  let! equity := equity_ratio_of inputs in
  let! liquidity := liquidity_coverage_of inputs opex installment in
  let hc := haircut_of inputs in
  let! loan_to_value := ltv_of inputs hc in
  let! collateral_cov := safe_divide (Some 1) loan_to_value in
  let character := score_character_of inputs lookups in
  let capacity := score_capacity_of lookups stressed in
  let capital := score_capital_of lookups equity in
  let collateral := score_collateral_of inputs lookups loan_to_value in
  let conditions := score_conditions_of inputs lookups in
  let total := total_score_of character capacity capital collateral conditions in
  let flags :=
    flags_of inputs lookups installment total_u share variance equity loan_to_value in
  Ok {| run_flags := flags;
        run_result :=
          {| stress_factor := factor;
             monthly_installment_used := installment;
             total_operating_expenses := opex;
             business_surplus_unstressed := surplus_u;
             business_surplus_stressed := surplus_s;
             total_monthly_surplus_stressed := total_s;
             total_monthly_surplus_unstressed := total_u;
             stressed_dscr := stressed;
             dscr := coverage;
             repayment_share := share;
             income_variance := variance;
             equity_ratio := equity;
             liquidity_coverage := liquidity;
             haircut := hc;
             collateral_coverage := collateral_cov;
             ltv := loan_to_value;
             score_character := character;
             score_capacity := capacity;
             score_capital := capital;
             score_collateral := collateral;
             score_conditions := conditions;
             total_score := total;
             result_risk_band := risk_band total;
             triggered_flags := triggered_flags_of inputs flags;
             recommendation := recommendation_of inputs flags total |} |}.

(** [calculate_scorecard(inputs, lookups, sector_stress)]. *)
Definition calculate_scorecard (inputs : ApplicationInput) (lookups : PolicyConfig)
    (sector_stress : gmap string Q) : PyResult ScorecardResult :=
  py_map run_result (calculate_scorecard_run inputs lookups sector_stress).

End Engine.

(** ** The documented sample application

    [CUSTOMER_INPUT_DEFAULTS] (lines 34-78) as [build_inputs_from_state]
    parses it: Scenario A of the specification. *)
Definition scenario_A : ApplicationInput := {|
  credit_officer_id := "CO-001";
  credit_officer_name := "Sample Officer";
  applicant_name := "Sample Applicant";
  applicant_id := "APP-0001";
  sex := "M";
  age_years := Some 35;
  marital_status := "Married";
  literacy := "Secondary/High School";
  repeat_borrower := "No";
  loan_series := Some 2;
  prior_default := "No";
  branch := "Head Office";
  application_date := mkDate 2024 1 1;
  requested_loan_amount := Some 50000;
  monthly_installment_override := Some 4584;
  term_months := Some 12;
  annual_interest_rate := Some 18;
  business_name := "Sample Business";
  ownership := "Sole Proprietor";
  site_visit_assessment := 3;
  sector := "Trade";
  training_certification := "Yes";
  is_business_seasonal := "No";
  business_type := "Retail / Trading";
  years_in_business_months := Some 24;
  character_references := "Good";
  loan_purpose := "Working Capital";
  stability_months := Some 24;
  stated_revenue := Some 30000;
  verified_revenue := Some 28000;
  cogs_inventory := Some 12000;
  other_monthly_income := Some 2000;
  rent := Some 3000;
  household_expenses := Some 5000;
  utilities := Some 800;
  owner_withdrawals := Some 1500;
  wages := Some 2500;
  transport := Some 700;
  other_operating_costs := Some 1000;
  total_capital := Some 20000;
  additional_savings_equity := Some 10000;
  collateral_type := "Movable";
  collateral_insured := "Yes";
  market_value := Some 150000
|}.

(** The application [i] with another answer to step 5 of the form (collateral). *)
Definition with_collateral (i : ApplicationInput) (kind insured : string) (value : option Q) : ApplicationInput := {|
  credit_officer_id := credit_officer_id i;
  credit_officer_name := credit_officer_name i;
  applicant_name := applicant_name i;
  applicant_id := applicant_id i;
  sex := sex i;
  age_years := age_years i;
  marital_status := marital_status i;
  literacy := literacy i;
  repeat_borrower := repeat_borrower i;
  loan_series := loan_series i;
  prior_default := prior_default i;
  branch := branch i;
  application_date := application_date i;
  requested_loan_amount := requested_loan_amount i;
  monthly_installment_override := monthly_installment_override i;
  term_months := term_months i;
  annual_interest_rate := annual_interest_rate i;
  business_name := business_name i;
  ownership := ownership i;
  site_visit_assessment := site_visit_assessment i;
  sector := sector i;
  training_certification := training_certification i;
  is_business_seasonal := is_business_seasonal i;
  business_type := business_type i;
  years_in_business_months := years_in_business_months i;
  character_references := character_references i;
  loan_purpose := loan_purpose i;
  stability_months := stability_months i;
  stated_revenue := stated_revenue i;
  verified_revenue := verified_revenue i;
  cogs_inventory := cogs_inventory i;
  other_monthly_income := other_monthly_income i;
  rent := rent i;
  household_expenses := household_expenses i;
  utilities := utilities i;
  owner_withdrawals := owner_withdrawals i;
  wages := wages i;
  transport := transport i;
  other_operating_costs := other_operating_costs i;
  total_capital := total_capital i;
  additional_savings_equity := additional_savings_equity i;
  collateral_type := kind;
  collateral_insured := insured;
  market_value := value
|}.

(** The application [i] with other loan terms: installment override, term and rate. *)
Definition with_loan_terms (i : ApplicationInput) (override term rate : option Q) : ApplicationInput := {|
  credit_officer_id := credit_officer_id i;
  credit_officer_name := credit_officer_name i;
  applicant_name := applicant_name i;
  applicant_id := applicant_id i;
  sex := sex i;
  age_years := age_years i;
  marital_status := marital_status i;
  literacy := literacy i;
  repeat_borrower := repeat_borrower i;
  loan_series := loan_series i;
  prior_default := prior_default i;
  branch := branch i;
  application_date := application_date i;
  requested_loan_amount := requested_loan_amount i;
  monthly_installment_override := override;
  term_months := term;
  annual_interest_rate := rate;
  business_name := business_name i;
  ownership := ownership i;
  site_visit_assessment := site_visit_assessment i;
  sector := sector i;
  training_certification := training_certification i;
  is_business_seasonal := is_business_seasonal i;
  business_type := business_type i;
  years_in_business_months := years_in_business_months i;
  character_references := character_references i;
  loan_purpose := loan_purpose i;
  stability_months := stability_months i;
  stated_revenue := stated_revenue i;
  verified_revenue := verified_revenue i;
  cogs_inventory := cogs_inventory i;
  other_monthly_income := other_monthly_income i;
  rent := rent i;
  household_expenses := household_expenses i;
  utilities := utilities i;
  owner_withdrawals := owner_withdrawals i;
  wages := wages i;
  transport := transport i;
  other_operating_costs := other_operating_costs i;
  total_capital := total_capital i;
  additional_savings_equity := additional_savings_equity i;
  collateral_type := collateral_type i;
  collateral_insured := collateral_insured i;
  market_value := market_value i
|}.

(** Scenario A with uninsured movable collateral worth 10000: the loan to
    value is 10, above every maximum. *)
Definition scenario_uninsured : ApplicationInput :=
  with_collateral scenario_A "Movable" "No" (Some 10000).

(** Scenario B: Scenario A with collateral type "None". *)
Definition scenario_B : ApplicationInput :=
  with_collateral scenario_A "None" "Yes" (Some 150000).

(** Scenario B with the market value left blank (step 5 of the form asks
    for a market value only for movable and immovable collateral). *)
Definition scenario_B_blank : ApplicationInput :=
  with_collateral scenario_A "None" "Yes" None.

(** Scenario A without an installment override and with an annual rate of
    -2400 percent (the rate field is free text parsed as a number). *)
Definition scenario_negative_rate : ApplicationInput :=
  with_loan_terms scenario_A None (Some 12) (Some (-2400)).

(** The same with an annual rate of -1200 percent. *)
Definition scenario_minus_one_rate : ApplicationInput :=
  with_loan_terms scenario_A None (Some 12) (Some (-1200)).

(** The same with an annual rate of 2^-50 percent, the number the text
    "8.881784197001252e-16" is parsed as. *)
Definition scenario_tiny_rate : ApplicationInput :=
  with_loan_terms scenario_A None (Some 12) (Some (1 # 1125899906842624)).

(** The same with a term of 120 months and an annual rate of -1199
    percent. *)
Definition scenario_steep_negative_rate : ApplicationInput :=
  with_loan_terms scenario_A None (Some 120) (Some (-1199)).

(** Scenario A sized by the amortization formula: no override. *)
Definition scenario_amortized : ApplicationInput :=
  with_loan_terms scenario_A None (Some 12) (Some 18).

(** Two applications agree on every field other than the identity and
    free-text ones ([credit_officer_id], [credit_officer_name],
    [applicant_name], [applicant_id], [branch], [literacy], [business_name],
    [business_type], [ownership], [loan_purpose], [application_date]). *)
Definition agree_on_scored_fields (i j : ApplicationInput) : Prop :=
  sex i = sex j
  /\ age_years i = age_years j
  /\ marital_status i = marital_status j
  /\ repeat_borrower i = repeat_borrower j
  /\ loan_series i = loan_series j
  /\ prior_default i = prior_default j
  /\ requested_loan_amount i = requested_loan_amount j
  /\ monthly_installment_override i = monthly_installment_override j
  /\ term_months i = term_months j
  /\ annual_interest_rate i = annual_interest_rate j
  /\ site_visit_assessment i = site_visit_assessment j
  /\ sector i = sector j
  /\ training_certification i = training_certification j
  /\ is_business_seasonal i = is_business_seasonal j
  /\ years_in_business_months i = years_in_business_months j
  /\ character_references i = character_references j
  /\ stability_months i = stability_months j
  /\ stated_revenue i = stated_revenue j
  /\ verified_revenue i = verified_revenue j
  /\ cogs_inventory i = cogs_inventory j
  /\ other_monthly_income i = other_monthly_income j
  /\ rent i = rent j
  /\ household_expenses i = household_expenses j
  /\ utilities i = utilities j
  /\ owner_withdrawals i = owner_withdrawals j
  /\ wages i = wages j
  /\ transport i = transport j
  /\ other_operating_costs i = other_operating_costs j
  /\ total_capital i = total_capital j
  /\ additional_savings_equity i = additional_savings_equity j
  /\ collateral_type i = collateral_type j
  /\ collateral_insured i = collateral_insured j
  /\ market_value i = market_value j.

(** The application [i] with every identity and free-text field set to
    [tag] and filed on the date [filed]. *)
Definition relabelled (i : ApplicationInput) (tag : string) (filed : PyDate) : ApplicationInput := {|
  credit_officer_id := tag;
  credit_officer_name := tag;
  applicant_name := tag;
  applicant_id := tag;
  sex := sex i;
  age_years := age_years i;
  marital_status := marital_status i;
  literacy := tag;
  repeat_borrower := repeat_borrower i;
  loan_series := loan_series i;
  prior_default := prior_default i;
  branch := tag;
  application_date := filed;
  requested_loan_amount := requested_loan_amount i;
  monthly_installment_override := monthly_installment_override i;
  term_months := term_months i;
  annual_interest_rate := annual_interest_rate i;
  business_name := tag;
  ownership := tag;
  site_visit_assessment := site_visit_assessment i;
  sector := sector i;
  training_certification := training_certification i;
  is_business_seasonal := is_business_seasonal i;
  business_type := tag;
  years_in_business_months := years_in_business_months i;
  character_references := character_references i;
  loan_purpose := tag;
  stability_months := stability_months i;
  stated_revenue := stated_revenue i;
  verified_revenue := verified_revenue i;
  cogs_inventory := cogs_inventory i;
  other_monthly_income := other_monthly_income i;
  rent := rent i;
  household_expenses := household_expenses i;
  utilities := utilities i;
  owner_withdrawals := owner_withdrawals i;
  wages := wages i;
  transport := transport i;
  other_operating_costs := other_operating_costs i;
  total_capital := total_capital i;
  additional_savings_equity := additional_savings_equity i;
  collateral_type := collateral_type i;
  collateral_insured := collateral_insured i;
  market_value := market_value i
|}.

(** The five band labels by decreasing risk: 0 for the riskiest. *)
Definition risk_rank (band : string) : nat :=
  if band =? "Very Low Risk" then 4
  else if band =? "Low Risk" then 3
  else if band =? "Moderate Risk" then 2
  else if band =? "High Risk" then 1
  else 0.

(** Closed examples below run applications whose term is an integer or
    that carry an installment override, so [math_pow] never consults its
    parameter on them; they pass this constant function. *)
Definition libm_unused (x y : Q) : Q := 0.

(** ** Vocabulary for the properties of the engine *)

(** No entry of the [flags] dictionary is set. *)
Definition NO_FLAGS : Flags :=
  {| Age_Flag := false; CFDeficit_Flag := false; Income_Var_Flag := false;
     Equity_Flag := false; Training_Flag := false; LTV_Flag := false;
     Collateral_Flag := false; Branch_Limit_Flag := false;
     Loan_Max_Flag := false; Default_Flag := false |}.

(** The condition of the first [if] of the decision, lines 500-507. *)
Definition hard_stop (i : ApplicationInput) (f : Flags) : Prop :=
  Age_Flag f = true \/ CFDeficit_Flag f = true \/ Income_Var_Flag f = true
  \/ Default_Flag f = true \/ Loan_Max_Flag f = true
  \/ collateral_type i = "None".

(** The condition of the second [elif], line 511. *)
Definition refer_flag (f : Flags) : Prop :=
  Branch_Limit_Flag f = true \/ LTV_Flag f = true \/ Collateral_Flag f = true.

(** The eleven messages of lines 477-498, in the order of the statements
    that append them. *)
Definition FLAG_MESSAGES : list string :=
  [ "REJECT: Business less than 6 months";
    "REJECT: Cash flow deficit (repayment >50% of surplus)";
    "REJECT: Data inconsistency (>20% variance)";
    "REJECT: Prior default with HMFI";
    "REJECT: Above hard max loan amount";
    "REFER: Equity <10% of loan";
    "REFER: No training/certification";
    "REFER: Collateral shortfall (LTV too high)";
    "REFER: Collateral not insured";
    "REFER: Above branch approval limit";
    "REJECT: No Collateral" ].

(** How an evaluation that returned was built: every field of the result
    and the flags, as the block of [calculate_scorecard] that assigns it
    computes it from the inputs and the fields before it. *)
Record run_shape (libm_pow : Q -> Q -> Q) (i : ApplicationInput) (l : PolicyConfig)
    (s : gmap string Q) (run : Run) : Prop := mk_run_shape {
  shape_installment :
    monthly_installment_of libm_pow i = Ok (monthly_installment_used (run_result run));
  shape_stress_factor :
    stress_factor (run_result run) = stress_factor_of i s;
  shape_opex :
    total_operating_expenses (run_result run) = total_operating_expenses_of i;
  shape_surplus_u :
    business_surplus_unstressed (run_result run)
    = business_surplus_unstressed_of i (total_operating_expenses (run_result run));
  shape_surplus_s :
    business_surplus_stressed (run_result run)
    = business_surplus_stressed_of (business_surplus_unstressed (run_result run))
        (stress_factor (run_result run));
  shape_total_s :
    total_monthly_surplus_stressed (run_result run)
    = total_monthly_surplus_of i (business_surplus_stressed (run_result run));
  shape_total_u :
    total_monthly_surplus_unstressed (run_result run)
    = total_monthly_surplus_of i (business_surplus_unstressed (run_result run));
  shape_stressed_dscr :
    safe_divide (total_monthly_surplus_stressed (run_result run))
      (monthly_installment_used (run_result run))
    = Ok (stressed_dscr (run_result run));
  shape_dscr :
    safe_divide (business_surplus_unstressed (run_result run))
      (monthly_installment_used (run_result run))
    = Ok (dscr (run_result run));
  shape_share :
    repayment_share_of (monthly_installment_used (run_result run))
      (total_monthly_surplus_unstressed (run_result run))
    = Ok (repayment_share (run_result run));
  shape_variance :
    income_variance_of i = Ok (income_variance (run_result run));
  shape_equity :
    equity_ratio_of i = Ok (equity_ratio (run_result run));
  shape_liquidity :
    liquidity_coverage_of i (total_operating_expenses (run_result run))
      (monthly_installment_used (run_result run))
    = Ok (liquidity_coverage (run_result run));
  shape_haircut :
    haircut (run_result run) = haircut_of i;
  shape_ltv :
    ltv_of i (haircut (run_result run)) = Ok (ltv (run_result run));
  shape_coverage :
    safe_divide (Some 1) (ltv (run_result run))
    = Ok (collateral_coverage (run_result run));
  shape_character :
    score_character (run_result run) = score_character_of i l;
  shape_capacity :
    score_capacity (run_result run)
    = score_capacity_of l (stressed_dscr (run_result run));
  shape_capital :
    score_capital (run_result run) = score_capital_of l (equity_ratio (run_result run));
  shape_collateral :
    score_collateral (run_result run) = score_collateral_of i l (ltv (run_result run));
  shape_conditions :
    score_conditions (run_result run) = score_conditions_of i l;
  shape_total :
    total_score (run_result run)
    = total_score_of (score_character (run_result run))
        (score_capacity (run_result run)) (score_capital (run_result run))
        (score_collateral (run_result run)) (score_conditions (run_result run));
  shape_band :
    result_risk_band (run_result run) = risk_band (total_score (run_result run));
  shape_flags :
    run_flags run
    = flags_of i l (monthly_installment_used (run_result run))
        (total_monthly_surplus_unstressed (run_result run))
        (repayment_share (run_result run)) (income_variance (run_result run))
        (equity_ratio (run_result run)) (ltv (run_result run));
  shape_messages :
    triggered_flags (run_result run) = triggered_flags_of i (run_flags run);
  shape_recommendation :
    recommendation (run_result run)
    = recommendation_of i (run_flags run) (total_score (run_result run))
}.

(** Scenario A with a monthly installment of 1000: no flag is set. *)
Definition scenario_approved : ApplicationInput :=
  with_loan_terms scenario_A (Some 1000) (Some 12) (Some 18).

(** The same with the collateral reported uninsured. *)
Definition scenario_referred : ApplicationInput :=
  with_collateral scenario_approved "Movable" "No" (Some 150000).

(** The application [build_inputs_from_state] builds from an empty form
    filed on the day [filed]: every text field empty, every number absent,
    site-visit assessment 0. *)
Definition blank_application (filed : PyDate) : ApplicationInput := {|
  credit_officer_id := "";
  credit_officer_name := "";
  applicant_name := "";
  applicant_id := "";
  sex := "";
  age_years := None;
  marital_status := "";
  literacy := "";
  repeat_borrower := "";
  loan_series := None;
  prior_default := "";
  branch := "";
  application_date := filed;
  requested_loan_amount := None;
  monthly_installment_override := None;
  term_months := None;
  annual_interest_rate := None;
  business_name := "";
  ownership := "";
  site_visit_assessment := 0;
  sector := "";
  training_certification := "";
  is_business_seasonal := "";
  business_type := "";
  years_in_business_months := None;
  character_references := "";
  loan_purpose := "";
  stability_months := None;
  stated_revenue := None;
  verified_revenue := None;
  cogs_inventory := None;
  other_monthly_income := None;
  rent := None;
  household_expenses := None;
  utilities := None;
  owner_withdrawals := None;
  wages := None;
  transport := None;
  other_operating_costs := None;
  total_capital := None;
  additional_savings_equity := None;
  collateral_type := "";
  collateral_insured := "";
  market_value := None
|}.

(** The application [i] asking for another amount. *)
Definition with_amount (i : ApplicationInput) (amount : option Q) : ApplicationInput := {|
  credit_officer_id := credit_officer_id i;
  credit_officer_name := credit_officer_name i;
  applicant_name := applicant_name i;
  applicant_id := applicant_id i;
  sex := sex i;
  age_years := age_years i;
  marital_status := marital_status i;
  literacy := literacy i;
  repeat_borrower := repeat_borrower i;
  loan_series := loan_series i;
  prior_default := prior_default i;
  branch := branch i;
  application_date := application_date i;
  requested_loan_amount := amount;
  monthly_installment_override := monthly_installment_override i;
  term_months := term_months i;
  annual_interest_rate := annual_interest_rate i;
  business_name := business_name i;
  ownership := ownership i;
  site_visit_assessment := site_visit_assessment i;
  sector := sector i;
  training_certification := training_certification i;
  is_business_seasonal := is_business_seasonal i;
  business_type := business_type i;
  years_in_business_months := years_in_business_months i;
  character_references := character_references i;
  loan_purpose := loan_purpose i;
  stability_months := stability_months i;
  stated_revenue := stated_revenue i;
  verified_revenue := verified_revenue i;
  cogs_inventory := cogs_inventory i;
  other_monthly_income := other_monthly_income i;
  rent := rent i;
  household_expenses := household_expenses i;
  utilities := utilities i;
  owner_withdrawals := owner_withdrawals i;
  wages := wages i;
  transport := transport i;
  other_operating_costs := other_operating_costs i;
  total_capital := total_capital i;
  additional_savings_equity := additional_savings_equity i;
  collateral_type := collateral_type i;
  collateral_insured := collateral_insured i;
  market_value := market_value i
|}.

(** Scenario A asking for nothing. *)
Definition scenario_zero_amount : ApplicationInput := with_amount scenario_A (Some 0).

(** A policy snapshot whose sector table is empty. *)
Definition NO_SECTOR_STRESS : gmap string Q := ∅.

(** A whole number. *)
Definition is_whole (q : Q) : Prop := exists z : Z, q == inject_Z z.

(** ** The data-entry form

    [st.session_state] restricted to the keys of the form is a dictionary
    from keys to the values the widgets store: text, whole numbers, dates,
    or [None]. *)
Inductive PyVal : Type :=
| VNone
| VStr (s : string)
| VInt (z : Z)
| VDate (d : PyDate).

(** The exceptions [build_inputs_from_state] can raise. *)
Inductive FormExn : Type :=
| FormTypeError
| FormValueError.

(** The outcome of [build_inputs_from_state]: the inputs, an exception, or
    a state outside the model, in which the text key [key] holds a value
    that is not text and that the record [ApplicationInput] cannot hold. *)
Inductive Built (A : Type) : Type :=
| Built_ok (a : A)
| Built_raises (e : FormExn)
| Built_untyped (key : string).

Arguments Built_ok {A} a.
Arguments Built_raises {A} e.
Arguments Built_untyped {A} key.

Definition built_bind {A B : Type} (c : Built A) (k : A -> Built B) : Built B :=
  match c with
  | Built_ok a => k a
  | Built_raises e => Built_raises e
  | Built_untyped key => Built_untyped key
  end.

Notation "'let*' x ':=' c 'in' k" := (built_bind c (fun x => k))
  (at level 10, x name, c at level 100, k at level 200).

(** [str(z)] of a whole number: its decimal numeral. *)
Definition decimal (z : Z) : string := NilZero.string_of_int (Z.to_int z).

(** A numeral padded with zeros on the left to [width] characters, as the
    [%0<width>d] conversions of [date.isoformat] do. *)
Definition zero_padded (width : nat) (z : Z) : string :=
  let digits := decimal z in
  (String.concat "" (repeat "0" (width - String.length digits)) ++ digits)%string.

(** [str(value)]. *)
Definition py_str (value : PyVal) : string :=
  match value with
  | VNone => "None"
  | VStr s => s
  | VInt z => decimal z
  | VDate d =>
      (zero_padded 4 (year d) ++ "-" ++ zero_padded 2 (month d) ++ "-"
       ++ zero_padded 2 (day d))%string
  end.

(** [raw_value.replace(",", "")]. *)
Fixpoint remove_commas (s : string) : string :=
  match s with
  | EmptyString => EmptyString
  | String c rest =>
      if Ascii.eqb c ","%char then remove_commas rest else String c (remove_commas rest)
  end.

(** [CUSTOMER_INPUT_DEFAULTS], lines 34-78, in the order of the literal. *)
Definition CUSTOMER_INPUT_DEFAULTS : list (string * PyVal) :=
  [
    ("credit_officer_id", VStr "CO-001");
    ("credit_officer_name", VStr "Sample Officer");
    ("applicant_name", VStr "Sample Applicant");
    ("applicant_id", VStr "APP-0001");
    ("sex", VStr "M");
    ("age_years", VStr "35");
    ("marital_status", VStr "Married");
    ("literacy", VStr "Secondary/High School");
    ("repeat_borrower", VStr "No");
    ("loan_series", VStr "2");
    ("prior_default", VStr "No");
    ("branch", VStr "Head Office");
    ("requested_loan_amount", VStr "50000");
    ("monthly_installment_override", VStr "4584");
    ("term_months", VStr "12");
    ("annual_interest_rate", VStr "18");
    ("business_name", VStr "Sample Business");
    ("ownership", VStr "Sole Proprietor");
    ("site_visit_assessment", VInt 3);
    ("sector", VStr "Trade");
    ("training_certification", VStr "Yes");
    ("is_business_seasonal", VStr "No");
    ("business_type", VStr "Retail / Trading");
    ("years_in_business_months", VStr "24");
    ("character_references", VStr "Good");
    ("loan_purpose", VStr "Working Capital");
    ("stability_months", VStr "24");
    ("stated_revenue", VStr "30000");
    ("verified_revenue", VStr "28000");
    ("cogs_inventory", VStr "12000");
    ("other_monthly_income", VStr "2000");
    ("rent", VStr "3000");
    ("household_expenses", VStr "5000");
    ("utilities", VStr "800");
    ("owner_withdrawals", VStr "1500");
    ("wages", VStr "2500");
    ("transport", VStr "700");
    ("other_operating_costs", VStr "1000");
    ("total_capital", VStr "20000");
    ("additional_savings_equity", VStr "10000");
    ("collateral_type", VStr "Movable");
    ("collateral_insured", VStr "Yes");
    ("market_value", VStr "150000")
  ].

(** The application [i] filed on the day [filed]. *)
Definition filed_on (i : ApplicationInput) (filed : PyDate) : ApplicationInput := {|
  credit_officer_id := credit_officer_id i;
  credit_officer_name := credit_officer_name i;
  applicant_name := applicant_name i;
  applicant_id := applicant_id i;
  sex := sex i;
  age_years := age_years i;
  marital_status := marital_status i;
  literacy := literacy i;
  repeat_borrower := repeat_borrower i;
  loan_series := loan_series i;
  prior_default := prior_default i;
  branch := branch i;
  application_date := filed;
  requested_loan_amount := requested_loan_amount i;
  monthly_installment_override := monthly_installment_override i;
  term_months := term_months i;
  annual_interest_rate := annual_interest_rate i;
  business_name := business_name i;
  ownership := ownership i;
  site_visit_assessment := site_visit_assessment i;
  sector := sector i;
  training_certification := training_certification i;
  is_business_seasonal := is_business_seasonal i;
  business_type := business_type i;
  years_in_business_months := years_in_business_months i;
  character_references := character_references i;
  loan_purpose := loan_purpose i;
  stability_months := stability_months i;
  stated_revenue := stated_revenue i;
  verified_revenue := verified_revenue i;
  cogs_inventory := cogs_inventory i;
  other_monthly_income := other_monthly_income i;
  rent := rent i;
  household_expenses := household_expenses i;
  utilities := utilities i;
  owner_withdrawals := owner_withdrawals i;
  wages := wages i;
  transport := transport i;
  other_operating_costs := other_operating_costs i;
  total_capital := total_capital i;
  additional_savings_equity := additional_savings_equity i;
  collateral_type := collateral_type i;
  collateral_insured := collateral_insured i;
  market_value := market_value i
|}.

Section Form.

(** Three built-ins of Python are parameters of this part: [str.strip],
    [float] on a text ([None] when it raises [ValueError]; texts that
    [float] reads as an infinity or a NaN are outside the model, as those
    values are) and [int] on a text ([None] when it raises [ValueError]). *)
Variable py_strip : string -> string.
Variable py_float : string -> option Q.
Variable py_int : string -> option Z.

(** [parse_optional_float(raw_value)], lines 110-117: the pair of the
    parsed value and the error message. *)
Definition parse_optional_float (raw_value : string) : option Q * option string :=
  let cleaned := py_strip (remove_commas raw_value) in
  if cleaned =? "" then (None, None)
  else
    match py_float cleaned with
    | Some v => (Some v, None)
    | None => (None, Some "Enter a valid number.")
    end.

(** [st.session_state.get(key, "")]. *)
Definition state_get (state : gmap string PyVal) (key : string) : PyVal :=
  default (VStr "") (state !! key).

(** [parse_number_from_state(key)], lines 720-725. *)
Definition parse_number_from_state (state : gmap string PyVal) (key : string)
  : option Q :=
  match state_get state key with
  | VNone => None
  | value => fst (parse_optional_float (py_str value))
  end.

(** [is_non_empty(key)], lines 728-734. *)
Definition is_non_empty (state : gmap string PyVal) (key : string) : bool :=
  match state_get state key with
  | VNone => false
  | VStr s => negb (py_strip s =? "")
  | _ => true
  end.

(** [is_number_filled(key)], lines 737-738. *)
Definition is_number_filled (state : gmap string PyVal) (key : string) : bool :=
  match parse_number_from_state state key with
  | Some _ => true
  | None => false
  end.

(** The loops [for key, label in checks: if not ...: missing.append(label)]
    of [step_missing_fields]. *)
Definition check_text (state : gmap string PyVal) (checks : list (string * string))
    (missing : list string) : list string :=
  fold_left
    (fun acc check =>
       if is_non_empty state (fst check) then acc else (acc ++ [snd check])%list)
    checks missing.

Definition check_numbers (state : gmap string PyVal)
    (checks : list (string * string)) (missing : list string) : list string :=
  fold_left
    (fun acc check =>
       if is_number_filled state (fst check) then acc else (acc ++ [snd check])%list)
    checks missing.

(** The check lists of the five steps, lines 744-813. *)
Definition STEP_1_TEXT : list (string * string) :=
  [ ("credit_officer_id", "Credit Officer ID");
    ("credit_officer_name", "Credit Officer Name");
    ("applicant_name", "Applicant Name");
    ("applicant_id", "Applicant ID");
    ("sex", "Sex");
    ("branch", "Branch");
    ("repeat_borrower", "Repeat Borrower");
    ("prior_default", "Prior Default") ].

Definition STEP_1_NUMBERS : list (string * string) :=
  [ ("age_years", "Age (years)");
    ("requested_loan_amount", "Requested Loan Amount") ].

Definition STEP_2_TEXT : list (string * string) :=
  [ ("business_name", "Business Name");
    ("sector", "Sector");
    ("training_certification", "Training/Certification");
    ("is_business_seasonal", "Is Business Seasonal");
    ("character_references", "Character References") ].

Definition STEP_2_NUMBERS : list (string * string) :=
  [ ("years_in_business_months", "Years in Business");
    ("stability_months", "Stability of Business Location") ].

Definition STEP_3_NUMBERS : list (string * string) :=
  [ ("stated_revenue", "Stated Revenue");
    ("verified_revenue", "Verified Revenue");
    ("cogs_inventory", "COGS / Inventory");
    ("rent", "Rent");
    ("utilities", "Utilities");
    ("wages", "Wages");
    ("transport", "Transport");
    ("other_operating_costs", "Other Operating Costs");
    ("other_monthly_income", "Other Monthly Income");
    ("household_expenses", "Household Expenses");
    ("owner_withdrawals", "Owner Withdrawals") ].

Definition STEP_4_NUMBERS : list (string * string) :=
  [ ("total_capital", "Total Capital");
    ("additional_savings_equity", "Cash at Bank / Additional Savings / Equity") ].

(** [step_missing_fields(step)], lines 741-823. *)
Definition step_missing_fields (state : gmap string PyVal) (step : Z) : list string :=
  let missing := [] in
  if (step =? 1)%Z then
    let missing := check_text state STEP_1_TEXT missing in
    let missing := check_numbers state STEP_1_NUMBERS missing in
    let has_installment_override :=
      is_number_filled state "monthly_installment_override" in
    let has_term := is_number_filled state "term_months" in
    let has_rate := is_number_filled state "annual_interest_rate" in
    if negb has_installment_override && negb (has_term && has_rate) then
      (missing
       ++ ["Monthly Installment override OR both Term (months) and Annual Interest Rate"])%list
    else missing
  else if (step =? 2)%Z then
    let missing := check_text state STEP_2_TEXT missing in
    check_numbers state STEP_2_NUMBERS missing
  else if (step =? 3)%Z then check_numbers state STEP_3_NUMBERS missing
  else if (step =? 4)%Z then check_numbers state STEP_4_NUMBERS missing
  else if (step =? 5)%Z then
    let missing :=
      if negb (is_non_empty state "collateral_type")
      then (missing ++ ["Collateral Type"])%list else missing in
    let missing :=
      if negb (is_non_empty state "collateral_insured")
      then (missing ++ ["Collateral Insured"])%list else missing in
    let kind := state !! "collateral_type" in
    if (match kind with
        | Some (VStr s) => (s =? "Movable") || (s =? "Immovable")
        | _ => false
        end)
       && negb (is_number_filled state "market_value")
    then (missing ++ ["Market Value"])%list
    else missing
  else missing.

(** A text entry of the form: [st.session_state.get(key, "")] when it is
    text. *)
Definition text_of (state : gmap string PyVal) (key : string) : Built string :=
  match state_get state key with
  | VStr s => Built_ok s
  | _ => Built_untyped key
  end.

(** [loan_series], lines 827-830. *)
Definition loan_series_of (state : gmap string PyVal) : Built (option Q) :=
  match state_get state "loan_series" with
  | VNone => Built_ok None
  | VStr s =>
      if s =? "" then Built_ok None
      else if s =? "5+" then Built_ok (Some 5)
      else
        match py_float s with
        | Some v => Built_ok (Some v)
        | None => Built_raises FormValueError
        end
  | VInt z => if (z =? 0)%Z then Built_ok None else Built_ok (Some (inject_Z z))
  | VDate _ => Built_raises FormTypeError
  end.

(** [int(st.session_state.get("site_visit_assessment", 0))], line 852. *)
Definition site_visit_of (state : gmap string PyVal) : Built Z :=
  match default (VInt 0) (state !! "site_visit_assessment") with
  | VInt z => Built_ok z
  | VStr s =>
      match py_int s with
      | Some z => Built_ok z
      | None => Built_raises FormValueError
      end
  | VNone | VDate _ => Built_raises FormTypeError
  end.

(** [st.session_state.get("application_date", date.today())]. *)
Definition application_date_of (today : PyDate) (state : gmap string PyVal)
  : Built PyDate :=
  match state !! "application_date" with
  | None => Built_ok today
  | Some (VDate d) => Built_ok d
  | Some _ => Built_untyped "application_date"
  end.

(** [build_inputs_from_state()], lines 826-877, on the day [today]. *)
Definition build_inputs_from_state (today : PyDate) (state : gmap string PyVal)
  : Built ApplicationInput :=
  let* loan_series_v := loan_series_of state in
  let* site_visit_v := site_visit_of state in
  let* application_date_v := application_date_of today state in
  let* credit_officer_id_v := text_of state "credit_officer_id" in
  let* credit_officer_name_v := text_of state "credit_officer_name" in
  let* applicant_name_v := text_of state "applicant_name" in
  let* applicant_id_v := text_of state "applicant_id" in
  let* sex_v := text_of state "sex" in
  let* marital_status_v := text_of state "marital_status" in
  let* literacy_v := text_of state "literacy" in
  let* repeat_borrower_v := text_of state "repeat_borrower" in
  let* prior_default_v := text_of state "prior_default" in
  let* branch_v := text_of state "branch" in
  let* business_name_v := text_of state "business_name" in
  let* ownership_v := text_of state "ownership" in
  let* sector_v := text_of state "sector" in
  let* training_certification_v := text_of state "training_certification" in
  let* is_business_seasonal_v := text_of state "is_business_seasonal" in
  let* business_type_v := text_of state "business_type" in
  let* character_references_v := text_of state "character_references" in
  let* loan_purpose_v := text_of state "loan_purpose" in
  let* collateral_type_v := text_of state "collateral_type" in
  let* collateral_insured_v := text_of state "collateral_insured" in
  Built_ok
    {|
       credit_officer_id := credit_officer_id_v;
       credit_officer_name := credit_officer_name_v;
       applicant_name := applicant_name_v;
       applicant_id := applicant_id_v;
       sex := sex_v;
       age_years := parse_number_from_state state "age_years";
       marital_status := marital_status_v;
       literacy := literacy_v;
       repeat_borrower := repeat_borrower_v;
       loan_series := loan_series_v;
       prior_default := prior_default_v;
       branch := branch_v;
       application_date := application_date_v;
       requested_loan_amount := parse_number_from_state state "requested_loan_amount";
       monthly_installment_override := parse_number_from_state state "monthly_installment_override";
       term_months := parse_number_from_state state "term_months";
       annual_interest_rate := parse_number_from_state state "annual_interest_rate";
       business_name := business_name_v;
       ownership := ownership_v;
       site_visit_assessment := site_visit_v;
       sector := sector_v;
       training_certification := training_certification_v;
       is_business_seasonal := is_business_seasonal_v;
       business_type := business_type_v;
       years_in_business_months := parse_number_from_state state "years_in_business_months";
       character_references := character_references_v;
       loan_purpose := loan_purpose_v;
       stability_months := parse_number_from_state state "stability_months";
       stated_revenue := parse_number_from_state state "stated_revenue";
       verified_revenue := parse_number_from_state state "verified_revenue";
       cogs_inventory := parse_number_from_state state "cogs_inventory";
       other_monthly_income := parse_number_from_state state "other_monthly_income";
       rent := parse_number_from_state state "rent";
       household_expenses := parse_number_from_state state "household_expenses";
       utilities := parse_number_from_state state "utilities";
       owner_withdrawals := parse_number_from_state state "owner_withdrawals";
       wages := parse_number_from_state state "wages";
       transport := parse_number_from_state state "transport";
       other_operating_costs := parse_number_from_state state "other_operating_costs";
       total_capital := parse_number_from_state state "total_capital";
       additional_savings_equity := parse_number_from_state state "additional_savings_equity";
       collateral_type := collateral_type_v;
       collateral_insured := collateral_insured_v;
       market_value := parse_number_from_state state "market_value"
    |}.

(** [reset_customer_defaults()], lines 103-107, on the day [today]. *)
Definition reset_customer_defaults (today : PyDate) (state : gmap string PyVal)
  : gmap string PyVal :=
  let state :=
    fold_left (fun st item => <[fst item := snd item]> st)
      CUSTOMER_INPUT_DEFAULTS state in
  let state := <["application_date" := VDate today]> state in
  <["scorecard_step" := VInt 1]> state.

End Form.

(** [strip] leaves the decimal numeral of a whole number alone and [float]
    reads it as that number (stated up to 2^53, where floats hold every
    whole number exactly). *)
Definition reads_numerals (py_strip : string -> string)
    (py_float : string -> option Q) : Prop :=
  forall z : Z,
    (Z.abs z <= 2 ^ 53)%Z ->
    py_strip (decimal z) = decimal z /\ py_float (decimal z) = Some (inject_Z z).

(** Instances of the three parameters for closed examples: they agree
    with Python on text made of decimal digits with an optional minus
    sign, which is all the examples contain. *)
Definition plain_strip (s : string) : string := s.

Definition plain_int (s : string) : option Z :=
  option_map Z.of_int (NilZero.int_of_string s).

Definition plain_float (s : string) : option Q :=
  option_map inject_Z (plain_int s).

(** The value a sequence of assignments [state[key] = value] leaves under
    [key], if it assigns it at all: the last one. *)
Fixpoint last_assignment (key : string) (items : list (string * PyVal))
  : option PyVal :=
  match items with
  | [] => None
  | (k, v) :: rest =>
      match last_assignment key rest with
      | Some later => Some later
      | None => if k =? key then Some v else None
      end
  end.

(** The assignments of [reset_customer_defaults], in order. *)
Definition RESET_ASSIGNMENTS (today : PyDate) : list (string * PyVal) :=
  (CUSTOMER_INPUT_DEFAULTS
   ++ [("application_date", VDate today); ("scorecard_step", VInt 1)])%list.

(** The session of a browser that has not filled anything in. *)
Definition EMPTY_SESSION : gmap string PyVal := ∅.

(** The day the closed examples are filed on. *)
Definition SAMPLE_DAY : PyDate := mkDate 2024 1 1.

(** * Properties *)

(** ** Comparisons and division *)

Lemma py_le_true (a b : Q) : py_le a b = true <-> a <= b.
Proof. unfold py_le. apply Qle_bool_iff. Qed.

Lemma py_le_false (a b : Q) : py_le a b = false <-> b < a.
Proof.
  unfold py_le. split; intros H.
  - apply Qnot_le_lt. intros Hle. apply Qle_bool_iff in Hle. congruence.
  - destruct (Qle_bool a b) eqn:E; [|reflexivity].
    apply Qle_bool_iff in E. lra.
Qed.

Lemma py_lt_true (a b : Q) : py_lt a b = true <-> a < b.
Proof.
  unfold py_lt. rewrite negb_true_iff. apply (py_le_false b a).
Qed.

Lemma py_lt_false (a b : Q) : py_lt a b = false <-> b <= a.
Proof.
  unfold py_lt. rewrite negb_false_iff. apply (py_le_true b a).
Qed.

Lemma py_eq_true (a b : Q) : py_eq a b = true <-> a == b.
Proof. unfold py_eq. apply Qeq_bool_iff. Qed.

Lemma py_eq_false (a b : Q) : py_eq a b = false <-> ~ a == b.
Proof.
  unfold py_eq. split; intros H.
  - intros E. apply Qeq_bool_iff in E. congruence.
  - destruct (Qeq_bool a b) eqn:E; [|reflexivity].
    apply Qeq_bool_iff in E. contradiction.
Qed.

(** Turn every boolean comparison among the hypotheses into the order
    fact it decides. *)
Ltac py_props :=
  unfold py_ge, py_gt in *;
  repeat match goal with
  | H : py_le _ _ = true |- _ => apply py_le_true in H
  | H : py_le _ _ = false |- _ => apply py_le_false in H
  | H : py_lt _ _ = true |- _ => apply py_lt_true in H
  | H : py_lt _ _ = false |- _ => apply py_lt_false in H
  | H : py_eq _ _ = true |- _ => apply py_eq_true in H
  | H : py_eq _ _ = false |- _ => apply py_eq_false in H
  end.

(** Case split on the first comparison a goal branches on. *)
Ltac py_case :=
  match goal with
  | |- context [if py_le ?a ?b then _ else _] => destruct (py_le a b) eqn:?
  | |- context [if py_lt ?a ?b then _ else _] => destruct (py_lt a b) eqn:?
  | |- context [if py_eq ?a ?b then _ else _] => destruct (py_eq a b) eqn:?
  end.

Lemma py_min_le_l (a b : Q) : py_min a b <= a.
Proof. unfold py_min. py_case; py_props; lra. Qed.

Lemma py_min_glb (a b c : Q) : c <= a -> c <= b -> c <= py_min a b.
Proof. intros Ha Hb. unfold py_min. py_case; assumption. Qed.

Lemma py_max_bounds (lo x hi : Q) : lo <= hi -> x <= hi -> lo <= py_max lo x <= hi.
Proof. intros H1 H2. unfold py_max, py_gt. py_case; py_props; lra. Qed.

Lemma py_div_ok (a b : Q) : py_eq b 0 = false -> py_div a b = Ok (a / b).
Proof. intros H. unfold py_div. rewrite H. reflexivity. Qed.

Lemma py_bind_ok_inv {A B : Type} (c : PyResult A) (k : A -> PyResult B) (b : B) :
  py_bind c k = Ok b -> exists a, c = Ok a /\ k a = Ok b.
Proof. destruct c as [a|e]; simpl; intros H; [eauto | discriminate]. Qed.

Lemma opt_Qeq_refl (a : option Q) : a =?= a.
Proof. destruct a; simpl; [reflexivity | exact I]. Qed.

Lemma is_integral_inject (n : Q) (k : Z) :
  n == inject_Z k -> is_integral n = true /\ integral_part n = k.
Proof.
  unfold Qeq, is_integral, integral_part. simpl. rewrite Z.mul_1_r. intros ->.
  split.
  - apply Z.eqb_eq. apply Z.rem_mul. discriminate.
  - apply Z.quot_mul. discriminate.
Qed.

(** A rational power of a positive base other than 1 is 1 only for the
    exponent 0. *)
(** ** Binary64 rounding *)

Lemma two_power_pos (e : Z) : 0 < 2 ^ e.
Proof. apply Qpower_0_lt. reflexivity. Qed.

Lemma two_power_le (a b : Z) : (a <= b)%Z -> 2 ^ a <= 2 ^ b.
Proof. intros H. apply Qpower_le_compat_l; [exact H | discriminate]. Qed.

Lemma two_power_split (a b : Z) : 2 ^ (a + b) == 2 ^ a * 2 ^ b.
Proof. apply Qpower_plus. discriminate. Qed.

Lemma floor_log2_le (q : Q) : 0 < q -> 2 ^ floor_log2 q <= q.
Proof.
  intros Hq. unfold floor_log2.
  set (a := Z.log2 (Qnum q)). set (b := Z.log2 (Z.pos (Qden q))).
  destruct (Qle_bool (2 ^ (a - b)) q) eqn:E; [apply Qle_bool_iff, E|].
  assert (Hn : (0 < Qnum q)%Z).
  { destruct q as [n d]. unfold Qlt in Hq. simpl in *. lia. }
  destruct (Z.log2_spec _ Hn) as [Ha _].
  destruct (Z.log2_spec (Z.pos (Qden q)) eq_refl) as [_ Hb].
  fold a in Ha. fold b in Hb.
  assert (Ha0 : (0 <= a)%Z) by apply Z.log2_nonneg.
  assert (Hb0 : (0 <= b)%Z) by apply Z.log2_nonneg.
  replace (a - b - 1)%Z with (a - Z.succ b)%Z by lia.
  rewrite Qpower_minus by discriminate.
  rewrite <- (Zpower_Qpower 2 a) by lia.
  rewrite <- (Zpower_Qpower 2 (Z.succ b)) by lia.
  assert (Hpos : (0 < 2 ^ Z.succ b)%Z) by (apply Z.pow_pos_nonneg; lia).
  assert (Hprod : (2 ^ a * Z.pos (Qden q) <= Qnum q * 2 ^ Z.succ b)%Z) by nia.
  destruct q as [n d]. cbn [Qnum Qden] in *.
  apply Qle_shift_div_r; [rewrite <- (Zlt_Qlt 0); exact Hpos|].
  unfold Qle, Qmult, inject_Z. cbn [Qnum Qden]. nia.
Qed.

Lemma round_half_even_ge (r : Q) (n : Z) :
  inject_Z n <= r -> (n <= round_half_even r)%Z.
Proof.
  intros H. apply Qfloor_resp_le in H. rewrite Qfloor_Z in H.
  unfold round_half_even.
  destruct (Qcompare _ _); [destruct (Z.even _)| |]; lia.
Qed.

Lemma round_half_even_le (r : Q) (n : Z) :
  r <= inject_Z n -> (round_half_even r <= n)%Z.
Proof.
  intros H. pose proof (Qfloor_resp_le _ _ H) as Hf. rewrite Qfloor_Z in Hf.
  unfold round_half_even.
  destruct (Z.eq_dec (Qfloor r) n) as [E|E].
  - destruct (Qcompare_spec (r - inject_Z (Qfloor r)) (1 # 2)) as [Hc|Hc|Hc];
      [rewrite E in Hc; lra | lia | rewrite E in Hc; lra].
  - destruct (Qcompare _ _); [destruct (Z.even _)| |]; lia.
Qed.

Lemma round64_positive (q : Q) :
  0 < q ->
  round64 q == inject_Z (round_half_even (q / 2 ^ ulp_exponent q)) * 2 ^ ulp_exponent q
  /\ 2 ^ floor_log2 q <= q
  /\ ulp_exponent q = Z.max (floor_log2 q - 52) (-1074).
Proof.
  intros Hq. split; [|split].
  - unfold round64. destruct (Qeq_bool q 0) eqn:E; [|reflexivity].
    apply Qeq_bool_iff in E. lra.
  - apply floor_log2_le, Hq.
  - unfold ulp_exponent.
    assert (E : Qabs q = q).
    { destruct q as [[|n|n] d]; try reflexivity; unfold Qlt in Hq; simpl in Hq; lia. }
    rewrite E. reflexivity.
Qed.

(** Rounding does not fall below a binary64 number under its argument... *)
Lemma round64_ge_float (n j : Z) (q : Q) :
  (0 < n < 2 ^ 53)%Z -> (-1074 <= j)%Z ->
  inject_Z n * 2 ^ j <= q -> inject_Z n * 2 ^ j <= round64 q.
Proof.
  intros Hn Hj Hle.
  assert (Hf : 0 < inject_Z n * 2 ^ j).
  { apply Qmult_lt_0_compat; [rewrite <- (Zlt_Qlt 0); lia | apply two_power_pos]. }
  assert (Hq : 0 < q) by lra.
  destruct (round64_positive q Hq) as (-> & He & Hs).
  set (s := ulp_exponent q) in *. set (e := floor_log2 q) in *.
  pose proof (two_power_pos s) as Hs0.
  destruct (Z_le_gt_dec s j) as [Hsj|Hsj].
  - (* the float is a multiple of the unit in the last place *)
    assert (Hm : inject_Z n * 2 ^ j == inject_Z (n * 2 ^ (j - s)) * 2 ^ s).
    { rewrite inject_Z_mult, Zpower_Qpower by lia.
      replace j with ((j - s) + s)%Z at 1 by lia. rewrite two_power_split.
      change (inject_Z 2) with 2. ring. }
    rewrite Hm. apply Qmult_le_compat_r; [|lra].
    rewrite <- Zle_Qle. apply round_half_even_ge.
    apply Qle_shift_div_l; [exact Hs0|]. rewrite <- Hm. exact Hle.
  - (* the float is below 2^e, and rounding keeps 2^e *)
    assert (Es : s = (e - 52)%Z) by lia.
    assert (H52 : inject_Z (2 ^ 52) <= q / 2 ^ s).
    { apply Qle_shift_div_l; [exact Hs0|].
      rewrite Zpower_Qpower by lia. change (inject_Z 2) with 2.
      rewrite <- two_power_split. replace (52 + s)%Z with e by lia. exact He. }
    apply round_half_even_ge in H52.
    apply Qle_trans with (inject_Z (2 ^ 52) * 2 ^ s).
    + apply Qle_trans with (inject_Z (2 ^ 53) * 2 ^ j).
      * apply Qmult_le_compat_r; [rewrite <- Zle_Qle; lia | apply Qlt_le_weak, two_power_pos].
      * rewrite !Zpower_Qpower by lia. change (inject_Z 2) with 2.
        rewrite <- !two_power_split. apply two_power_le. lia.
    + apply Qmult_le_compat_r; [rewrite <- Zle_Qle; exact H52 | lra].
Qed.

(** ... and does not rise above one over it. *)
Lemma round64_le_float (n j : Z) (q : Q) :
  (0 < n < 2 ^ 53)%Z -> (-1074 <= j)%Z ->
  0 < q -> q <= inject_Z n * 2 ^ j -> round64 q <= inject_Z n * 2 ^ j.
Proof.
  intros Hn Hj Hq Hle.
  destruct (round64_positive q Hq) as (-> & He & Hs).
  set (s := ulp_exponent q) in *. set (e := floor_log2 q) in *.
  pose proof (two_power_pos s) as Hs0.
  destruct (Z_le_gt_dec s j) as [Hsj|Hsj].
  - assert (Hm : inject_Z n * 2 ^ j == inject_Z (n * 2 ^ (j - s)) * 2 ^ s).
    { rewrite inject_Z_mult, Zpower_Qpower by lia.
      replace j with ((j - s) + s)%Z at 1 by lia. rewrite two_power_split.
      change (inject_Z 2) with 2. ring. }
    rewrite Hm. apply Qmult_le_compat_r; [|lra].
    rewrite <- Zle_Qle. apply round_half_even_le.
    apply Qle_shift_div_r; [exact Hs0|]. rewrite <- Hm. exact Hle.
  - exfalso.
    assert (Es : s = (e - 52)%Z) by lia.
    assert (Hlt : inject_Z n * 2 ^ j < 2 ^ e).
    { apply Qlt_le_trans with (inject_Z (2 ^ 53) * 2 ^ j).
      - apply Qmult_lt_compat_r; [apply two_power_pos | rewrite <- Zlt_Qlt; lia].
      - rewrite Zpower_Qpower by lia. change (inject_Z 2) with 2.
        rewrite <- two_power_split. apply two_power_le. lia. }
    lra.
Qed.

Lemma floor_log2_lt (q : Q) : 0 < q -> q < 2 ^ (floor_log2 q + 1).
Proof.
  intros Hq. unfold floor_log2.
  set (a := Z.log2 (Qnum q)). set (b := Z.log2 (Z.pos (Qden q))).
  destruct (Qle_bool (2 ^ (a - b)) q) eqn:E.
  - assert (Hn : (0 < Qnum q)%Z).
    { destruct q as [n d]. unfold Qlt in Hq. simpl in *. lia. }
    destruct (Z.log2_spec _ Hn) as [_ Ha].
    destruct (Z.log2_spec (Z.pos (Qden q)) eq_refl) as [Hb _].
    fold a in Ha. fold b in Hb.
    assert (Ha0 : (0 <= a)%Z) by apply Z.log2_nonneg.
    assert (Hb0 : (0 <= b)%Z) by apply Z.log2_nonneg.
    replace (a - b + 1)%Z with (Z.succ a - b)%Z by lia.
    rewrite Qpower_minus by discriminate.
    rewrite <- (Zpower_Qpower 2 (Z.succ a)) by lia.
    rewrite <- (Zpower_Qpower 2 b) by lia.
    assert (Hpos : (0 < 2 ^ b)%Z) by (apply Z.pow_pos_nonneg; lia).
    assert (Hprod : (Qnum q * 2 ^ b < 2 ^ Z.succ a * Z.pos (Qden q))%Z) by nia.
    destruct q as [n d]. cbn [Qnum Qden] in *.
    apply Qlt_shift_div_l; [rewrite <- (Zlt_Qlt 0); exact Hpos|].
    unfold Qlt, Qmult, inject_Z. cbn [Qnum Qden]. nia.
  - replace (a - b - 1 + 1)%Z with (a - b)%Z by lia.
    apply Qnot_le_lt. intros H. apply Qle_bool_iff in H. congruence.
Qed.

Lemma floor_log2_unique (q : Q) (e : Z) :
  2 ^ e <= q -> q < 2 ^ (e + 1) -> floor_log2 q = e.
Proof.
  intros Hlo Hhi.
  assert (Hq : 0 < q) by (pose proof (two_power_pos e); lra).
  pose proof (floor_log2_le q Hq) as Hlo'.
  pose proof (floor_log2_lt q Hq) as Hhi'.
  destruct (Z.lt_trichotomy (floor_log2 q) e) as [H|[H|H]]; [|exact H|].
  - pose proof (two_power_le (floor_log2 q + 1) e ltac:(lia)). lra.
  - pose proof (two_power_le (e + 1) (floor_log2 q) ltac:(lia)). lra.
Qed.

Lemma Qfloor_eq (r : Q) (n : Z) :
  inject_Z n <= r -> r < inject_Z (n + 1) -> Qfloor r = n.
Proof.
  intros Hlo Hhi.
  apply Qfloor_resp_le in Hlo. rewrite Qfloor_Z in Hlo.
  pose proof (Qfloor_le r) as Hfl.
  assert (H : inject_Z (Qfloor r) < inject_Z (n + 1)) by lra.
  rewrite <- Zlt_Qlt in H. lia.
Qed.

(** Both neighbours of 1 round to 1 up to half a unit in the last place,
    the two ties included: 1 has the even mantissa. *)
Lemma round64_near_one (q : Q) :
  1 - (1 # 18014398509481984) <= q -> q <= 1 + (1 # 9007199254740992) ->
  round64 q == 1.
Proof.
  intros Hlo Hhi.
  assert (Hq : 0 < q) by lra.
  destruct (round64_positive q Hq) as (-> & _ & ->).
  destruct (Qlt_le_dec q 1) as [Hlt|Hge].
  - rewrite (floor_log2_unique q (-1));
      [|change (2 ^ (-1)) with (1 # 2); lra | change (2 ^ (-1 + 1)) with 1; lra].
    change (Z.max (-1 - 52) (-1074)) with (-53)%Z.
    assert (E : q / 2 ^ (-53) == q * 9007199254740992)
      by (change (2 ^ (-53)) with (1 # 9007199254740992); field).
    assert (Hf : Qfloor (q / 2 ^ (-53)) = 9007199254740991%Z).
    { apply Qfloor_eq; rewrite E.
      - change (inject_Z 9007199254740991) with 9007199254740991. lra.
      - change (inject_Z (9007199254740991 + 1)) with 9007199254740992. lra. }
    unfold round_half_even. rewrite Hf.
    destruct (Qcompare_spec (q / 2 ^ (-53) - inject_Z 9007199254740991) (1 # 2))
      as [Hc|Hc|Hc]; [reflexivity | | reflexivity].
    rewrite E in Hc. change (inject_Z 9007199254740991) with 9007199254740991 in Hc.
    lra.
  - rewrite (floor_log2_unique q 0);
      [|change (2 ^ 0) with 1; lra | change (2 ^ (0 + 1)) with 2; lra].
    change (Z.max (0 - 52) (-1074)) with (-52)%Z.
    assert (E : q / 2 ^ (-52) == q * 4503599627370496)
      by (change (2 ^ (-52)) with (1 # 4503599627370496); field).
    assert (Hf : Qfloor (q / 2 ^ (-52)) = 4503599627370496%Z).
    { apply Qfloor_eq; rewrite E.
      - change (inject_Z 4503599627370496) with 4503599627370496. lra.
      - change (inject_Z (4503599627370496 + 1)) with 4503599627370497. lra. }
    unfold round_half_even. rewrite Hf.
    destruct (Qcompare_spec (q / 2 ^ (-52) - inject_Z 4503599627370496) (1 # 2))
      as [Hc|Hc|Hc]; [reflexivity | reflexivity |].
    rewrite E in Hc. change (inject_Z 4503599627370496) with 4503599627370496 in Hc.
    lra.
Qed.

Lemma round64_nonneg (q : Q) : 0 <= q -> 0 <= round64 q.
Proof.
  intros Hq. unfold round64. destruct (Qeq_bool q 0) eqn:E; [apply Qle_refl|].
  apply Qeq_bool_neq in E.
  pose proof (two_power_pos (ulp_exponent q)) as Hu.
  apply Qmult_le_0_compat; [|lra].
  rewrite <- (Zle_Qle 0). apply round_half_even_ge.
  apply Qle_shift_div_l; [exact Hu|]. change (inject_Z 0) with 0. lra.
Qed.

(** Rounding is monotone at the numbers it returns. *)
Lemma round64_ge_rounded (y q : Q) :
  0 < y -> round64 y <= q -> round64 y <= round64 q.
Proof.
  intros Hy Hle.
  pose proof (round64_nonneg y ltac:(lra)) as Hx0.
  destruct (round64_positive y Hy) as (Ex & He & Hs).
  pose proof (floor_log2_lt y Hy) as Hhi.
  set (s := ulp_exponent y) in *. set (e := floor_log2 y) in *.
  remember (round_half_even (y / 2 ^ s)) as m eqn:Em.
  pose proof (two_power_pos s) as Hs0.
  assert (Hm0 : (0 <= m)%Z).
  { rewrite Em. apply round_half_even_ge. apply Qle_shift_div_l; [exact Hs0|].
    change (inject_Z 0) with 0. lra. }
  assert (Hm1 : (m <= 2 ^ 53)%Z).
  { rewrite Em. apply round_half_even_le. apply Qle_shift_div_r; [exact Hs0|].
    rewrite Zpower_Qpower by lia. change (inject_Z 2) with 2.
    rewrite <- two_power_split.
    pose proof (two_power_le (e + 1) (53 + s) ltac:(lia)). lra. }
  rewrite Ex in Hle |- *.
  destruct (Z.eq_dec m 0%Z) as [E0|N0].
  - rewrite E0 in Hle |- *. change (inject_Z 0) with 0%Q in Hle |- *.
    apply Qle_trans with 0%Q; [lra | apply round64_nonneg; lra].
  - destruct (Z.eq_dec m (2 ^ 53)%Z) as [E1|N1].
    + assert (E : inject_Z m * 2 ^ s == inject_Z (2 ^ 52) * 2 ^ (s + 1)).
      { rewrite E1, two_power_split. change (2 ^ 1) with 2.
        change (inject_Z (2 ^ 53)) with (inject_Z (2 ^ 52) * 2). ring. }
      rewrite E in Hle |- *.
      apply round64_ge_float; [split; reflexivity | lia | exact Hle].
    + apply round64_ge_float; [lia | lia | exact Hle].
Qed.

(** ** The guarded divisions never raise *)

Lemma safe_divide_total (n d : option Q) : exists v, safe_divide n d = Ok v.
Proof.
  destruct n as [n|], d as [d|]; simpl; eauto.
  destruct (py_eq d 0) eqn:E; eauto.
  rewrite (py_div_ok _ _ E). simpl. eauto.
Qed.

Lemma repayment_share_total (m s : option Q) : exists v, repayment_share_of m s = Ok v.
Proof.
  destruct m as [m|], s as [s|]; simpl; eauto.
  destruct (py_le s 0) eqn:E; eauto.
  assert (E0 : py_eq s 0 = false) by (apply py_eq_false; py_props; lra).
  rewrite (py_div_ok _ _ E0). simpl. eauto.
Qed.

Lemma income_variance_total (i : ApplicationInput) : exists v, income_variance_of i = Ok v.
Proof.
  unfold income_variance_of.
  destruct (stated_revenue i), (verified_revenue i) as [v|]; eauto.
  destruct (py_eq v 0) eqn:E; eauto.
  rewrite (py_div_ok _ _ E). simpl. eauto.
Qed.

Lemma equity_ratio_total (i : ApplicationInput) : exists v, equity_ratio_of i = Ok v.
Proof.
  unfold equity_ratio_of.
  destruct (requested_loan_amount i) as [a|], (total_capital i),
    (additional_savings_equity i); eauto.
  destruct (py_eq a 0) eqn:E; simpl; eauto.
  rewrite (py_div_ok _ _ E). simpl. eauto.
Qed.

Lemma liquidity_coverage_total (i : ApplicationInput) (opex m : option Q) :
  exists v, liquidity_coverage_of i opex m = Ok v.
Proof.
  unfold liquidity_coverage_of.
  destruct (additional_savings_equity i), opex, (cogs_inventory i), m,
    (owner_withdrawals i); eauto using safe_divide_total.
Qed.

Lemma ltv_total (i : ApplicationInput) (hc : Q) : exists v, ltv_of i hc = Ok v.
Proof.
  unfold ltv_of.
  destruct (requested_loan_amount i), (market_value i); eauto.
  destruct (py_truthy (collateral_type i)); eauto.
  destruct (collateral_type i =? "None"); eauto using safe_divide_total.
Qed.

(** ** The decision tree *)

Lemma rule_1_rejects (i : ApplicationInput) (f : Flags) (total : Q) :
  Age_Flag f = true \/ CFDeficit_Flag f = true \/ Income_Var_Flag f = true
  \/ Default_Flag f = true \/ Loan_Max_Flag f = true
  \/ collateral_type i = "None" ->
  recommendation_of i f total = "REJECT".
Proof.
  unfold recommendation_of.
  intros [Hf|[Hf|[Hf|[Hf|[Hf|Hf]]]]]; rewrite Hf;
    rewrite ?String.eqb_refl, ?orb_true_r; reflexivity.
Qed.

Lemma rule_2_rejects (i : ApplicationInput) (f : Flags) (total : Q) :
  total <= 54 -> recommendation_of i f total = "REJECT".
Proof.
  intros Hle. apply py_le_true in Hle. unfold recommendation_of.
  destruct (_ || _); [reflexivity|]. rewrite Hle. reflexivity.
Qed.

(** ** Bounds of the category scores *)

Lemma sector_score_nonneg (k : string) : 0 <= default 0 (SECTOR_SCORE !! k).
Proof.
  assert (H : map_Forall (fun _ v => 0 <= v) SECTOR_SCORE).
  { unfold SECTOR_SCORE. cbn [list_to_map foldr uncurry fst snd].
    repeat (apply map_Forall_insert_2; [lra|]).
    apply map_Forall_empty. }
  destruct (SECTOR_SCORE !! k) as [v|] eqn:E; simpl; [|lra].
  exact (H k v E).
Qed.

(** Split on every branch the goal takes. *)
Ltac split_branches :=
  repeat match goal with
  | |- context [match ?o with Some _ => _ | None => _ end] => destruct o
  | |- context [if ?c then _ else _] => destruct c
  end.

Lemma capped_nonneg (cap raw : Q) : 0 < cap -> 0 <= raw -> 0 <= py_min cap raw <= cap.
Proof.
  intros Hc Hr. split; [apply py_min_glb; lra | apply py_min_le_l].
Qed.

Lemma score_character_bounds (i : ApplicationInput) (l : PolicyConfig) :
  0 < W_CHARACTER l -> 0 <= score_character_of i l <= W_CHARACTER l.
Proof.
  intros Hw. unfold score_character_of. cbv zeta.
  apply capped_nonneg; [exact Hw|].
  split_branches; lra.
Qed.

Lemma score_capacity_bounds (l : PolicyConfig) (d : option Q) :
  0 < W_CAPACITY l -> 0 <= score_capacity_of l d <= W_CAPACITY l.
Proof.
  intros Hw. unfold score_capacity_of. cbv zeta.
  apply capped_nonneg; [exact Hw|].
  split_branches; lra.
Qed.

Lemma score_capital_bounds (l : PolicyConfig) (e : option Q) :
  0 < W_CAPITAL l -> 0 <= score_capital_of l e <= W_CAPITAL l.
Proof.
  intros Hw. unfold score_capital_of. cbv zeta.
  apply capped_nonneg; [exact Hw|].
  split_branches; lra.
Qed.

Lemma score_conditions_bounds (i : ApplicationInput) (l : PolicyConfig) :
  0 < W_CONDITION l -> 0 <= score_conditions_of i l <= W_CONDITION l.
Proof.
  intros Hw. unfold score_conditions_of. cbv zeta.
  apply capped_nonneg; [exact Hw|].
  pose proof (sector_score_nonneg (sector i)) as Hs.
  revert Hs. generalize (default 0 (SECTOR_SCORE !! sector i)). intros q Hq.
  split_branches; lra.
Qed.

Lemma score_collateral_bounds (i : ApplicationInput) (l : PolicyConfig) (v : option Q) :
  0 < W_COLLATERAL l ->
  - (2) <= score_collateral_of i l v <= W_COLLATERAL l
  /\ (collateral_insured i <> "No" -> 0 <= score_collateral_of i l v).
Proof.
  intros Hw. unfold score_collateral_of. cbv zeta.
  split; [split; [apply py_min_glb; [lra|] | apply py_min_le_l] |].
  - split_branches; lra.
  - intros Hins. apply String.eqb_neq in Hins. rewrite Hins.
    apply py_min_glb; [lra|]. split_branches; lra.
Qed.

Lemma total_score_bounds (a b c d e : Q) : 1 <= total_score_of a b c d e <= 99.
Proof.
  unfold total_score_of. cbv zeta.
  apply py_max_bounds; [lra | apply py_min_le_l].
Qed.

(** From [calculate_scorecard_run ... = Ok run], the equations of the
    fallible steps and the record [run] was built as. *)
Ltac run_inversion H :=
  unfold calculate_scorecard_run in H; cbv zeta in H;
  repeat (let v := fresh "v" in let E := fresh "E" in
          apply py_bind_ok_inv in H as (v & E & H));
  injection H as <-;
  cbn [run_result run_flags] in *.

Section Properties.

Variable libm_pow : Q -> Q -> Q.

(** ** The engine returns exactly when installment sizing does *)

Lemma run_returns (i : ApplicationInput) (l : PolicyConfig) (s : gmap string Q)
    (m : option Q) :
  monthly_installment_of libm_pow i = Ok m ->
  exists run, calculate_scorecard_run libm_pow i l s = Ok run
              /\ monthly_installment_used (run_result run) = m.
Proof.
  intros Hm. unfold calculate_scorecard_run. cbv zeta. rewrite Hm.
  cbn [py_bind].
  repeat match goal with
  | |- context [py_bind (safe_divide ?n ?d) _] =>
      let v := fresh "v" in let E := fresh "E" in
      destruct (safe_divide_total n d) as [v E]; rewrite E; cbn [py_bind]
  | |- context [py_bind (repayment_share_of ?n ?d) _] =>
      let v := fresh "v" in let E := fresh "E" in
      destruct (repayment_share_total n d) as [v E]; rewrite E; cbn [py_bind]
  | |- context [py_bind (income_variance_of ?n) _] =>
      let v := fresh "v" in let E := fresh "E" in
      destruct (income_variance_total n) as [v E]; rewrite E; cbn [py_bind]
  | |- context [py_bind (equity_ratio_of ?n) _] =>
      let v := fresh "v" in let E := fresh "E" in
      destruct (equity_ratio_total n) as [v E]; rewrite E; cbn [py_bind]
  | |- context [py_bind (liquidity_coverage_of ?n ?o ?d) _] =>
      let v := fresh "v" in let E := fresh "E" in
      destruct (liquidity_coverage_total n o d) as [v E]; rewrite E; cbn [py_bind]
  | |- context [py_bind (ltv_of ?n ?d) _] =>
      let v := fresh "v" in let E := fresh "E" in
      destruct (ltv_total n d) as [v E]; rewrite E; cbn [py_bind]
  end.
  eexists. split; reflexivity.
Qed.

Lemma run_raises (i : ApplicationInput) (l : PolicyConfig) (s : gmap string Q)
    (e : PyExn) :
  monthly_installment_of libm_pow i = Raise e ->
  calculate_scorecard_run libm_pow i l s = Raise e.
Proof.
  intros Hm. unfold calculate_scorecard_run. cbv zeta. rewrite Hm. reflexivity.
Qed.

Lemma calculate_scorecard_of_run (i : ApplicationInput) (l : PolicyConfig)
    (s : gmap string Q) (run : Run) :
  calculate_scorecard_run libm_pow i l s = Ok run ->
  calculate_scorecard libm_pow i l s = Ok (run_result run).
Proof. intros H. unfold calculate_scorecard, py_map. rewrite H. reflexivity. Qed.

(** ** Decision rules 1 and 2 *)

(** C1. Whenever one of the rule-1 hard stops holds (business-age,
    cash-flow-deficit, income-variance, prior-default or loan-hard-max flag,
    or collateral type "None"), the recommendation returned by
    [calculate_scorecard] is "REJECT" whatever the total score; and when
    none of them holds but the total score is at most 54, it is "REJECT"
    too. *)
Theorem hard_stops_reject (i : ApplicationInput) (l : PolicyConfig)
    (s : gmap string Q) (run : Run) :
  calculate_scorecard_run libm_pow i l s = Ok run ->
  let f := run_flags run in
  let r := run_result run in
  calculate_scorecard libm_pow i l s = Ok r
  /\ (Age_Flag f = true \/ CFDeficit_Flag f = true \/ Income_Var_Flag f = true
      \/ Default_Flag f = true \/ Loan_Max_Flag f = true
      \/ collateral_type i = "None" ->
      recommendation r = "REJECT")
  /\ (Age_Flag f = false /\ CFDeficit_Flag f = false /\ Income_Var_Flag f = false
      /\ Default_Flag f = false /\ Loan_Max_Flag f = false
      /\ collateral_type i <> "None" ->
      total_score r <= 54 ->
      recommendation r = "REJECT").
Proof.
  intros H. split; [apply calculate_scorecard_of_run; exact H|].
  run_inversion H. cbn [recommendation total_score].
  split.
  - apply rule_1_rejects.
  - intros _. apply rule_2_rejects.
Qed.

(** ** Category scores and total score *)

(** C2 (as amended). With positive weight caps, no category score exceeds
    its cap; Character, Capacity, Capital and Conditions lie in [0, cap];
    Collateral lies in [-2, W_COLLATERAL] and is non-negative unless the
    collateral is reported uninsured (the engine caps category scores from
    above only); the total score is the sum of the five category scores
    clamped to [1, 99]. *)
Theorem scores_bounded (i : ApplicationInput) (l : PolicyConfig)
    (s : gmap string Q) (run : Run) :
  0 < W_CHARACTER l -> 0 < W_CAPACITY l -> 0 < W_CAPITAL l ->
  0 < W_COLLATERAL l -> 0 < W_CONDITION l ->
  calculate_scorecard_run libm_pow i l s = Ok run ->
  let r := run_result run in
  0 <= score_character r <= W_CHARACTER l
  /\ 0 <= score_capacity r <= W_CAPACITY l
  /\ 0 <= score_capital r <= W_CAPITAL l
  /\ - (2) <= score_collateral r <= W_COLLATERAL l
  /\ (collateral_insured i <> "No" -> 0 <= score_collateral r)
  /\ 0 <= score_conditions r <= W_CONDITION l
  /\ total_score r
     = py_max 1 (py_min 99 (score_character r + score_capacity r + score_capital r
                            + score_collateral r + score_conditions r))
  /\ 1 <= total_score r <= 99.
Proof.
  intros H1 H2 H3 H4 H5 H. run_inversion H.
  cbn [score_character score_capacity score_capital score_collateral
       score_conditions total_score].
  match goal with
  | |- context [score_collateral_of i l ?v] =>
      pose proof (score_collateral_bounds i l v H4) as [Hc Hc']
  end.
  split; [apply score_character_bounds; exact H1|].
  split; [apply score_capacity_bounds; exact H2|].
  split; [apply score_capital_bounds; exact H3|].
  split; [exact Hc|].
  split; [exact Hc'|].
  split; [apply score_conditions_bounds; exact H5|].
  split; [reflexivity | apply total_score_bounds].
Qed.

(** ** Collateral type "None" *)

(** C3 (as amended). For an application whose collateral type is "None"
    and a non-negative collateral cap: the loan to value is the sentinel 99
    when the requested amount and the market value are both present and
    null otherwise; the collateral score is 0; the message
    "REJECT: No Collateral" is among the triggered flags; and the
    recommendation is "REJECT" whatever the total score. *)
Theorem no_collateral_rejected (i : ApplicationInput) (l : PolicyConfig)
    (s : gmap string Q) (run : Run) :
  collateral_type i = "None" ->
  0 <= W_COLLATERAL l ->
  calculate_scorecard_run libm_pow i l s = Ok run ->
  let r := run_result run in
  ltv r = match requested_loan_amount i, market_value i with
          | Some _, Some _ => Some 99
          | _, _ => None
          end
  /\ score_collateral r == 0
  /\ In "REJECT: No Collateral" (triggered_flags r)
  /\ recommendation r = "REJECT".
Proof.
  intros Hkind Hw H. run_inversion H.
  cbn [ltv score_collateral triggered_flags recommendation].
  repeat split.
  - match goal with E : ltv_of _ _ = Ok _ |- _ => revert E end.
    unfold ltv_of. rewrite Hkind.
    destruct (requested_loan_amount i), (market_value i); simpl; congruence.
  - unfold score_collateral_of. rewrite Hkind. simpl.
    unfold py_min. py_case; py_props; lra.
  - unfold triggered_flags_of. cbv zeta. rewrite Hkind. simpl.
    apply in_or_app. right. left. reflexivity.
  - apply rule_1_rejects. auto 10.
Qed.

(** ** Repayment share *)

(** C6. When the installment used and the unstressed total monthly
    surplus are both present, the repayment share is exactly 1 if that
    surplus is at most 0 and installment / surplus if it is positive; it is
    null whenever the installment or the surplus is null. *)
Theorem repayment_share_rule (i : ApplicationInput) (l : PolicyConfig)
    (s : gmap string Q) (run : Run) :
  calculate_scorecard_run libm_pow i l s = Ok run ->
  let r := run_result run in
  match monthly_installment_used r, total_monthly_surplus_unstressed r with
  | Some m, Some surplus =>
      (surplus <= 0 -> repayment_share r = Some 1)
      /\ (0 < surplus -> repayment_share r = Some (m / surplus))
  | _, _ => repayment_share r = None
  end.
Proof.
  intros H. run_inversion H.
  cbn [monthly_installment_used total_monthly_surplus_unstressed repayment_share].
  match goal with E : repayment_share_of _ _ = Ok _ |- _ => revert E end.
  unfold repayment_share_of.
  destruct v as [m|]; [|simpl; congruence].
  destruct (total_monthly_surplus_of i (business_surplus_unstressed_of _ _))
    as [surplus|]; [|simpl; congruence].
  destruct (py_le surplus 0) eqn:Hs; py_props.
  - intros [= <-]. split; [reflexivity | intros; lra].
  - rewrite py_div_ok by (apply py_eq_false; lra). simpl.
    intros [= <-]. split; [intros; lra | reflexivity].
Qed.

(** ** Branch limit and hard maximum *)

(** C8. With a requested amount present, the branch-limit flag is set
    exactly when the amount is strictly above BRANCH_APPROVAL_LIMIT_ETB
    and the loan-hard-max flag exactly when it is strictly above
    BUSINESS_LOAN_HARD_MAX_ETB, so an amount equal to a limit sets neither;
    with no requested amount both flags are false. *)
Theorem limit_flags_strict (i : ApplicationInput) (l : PolicyConfig)
    (s : gmap string Q) (run : Run) :
  calculate_scorecard_run libm_pow i l s = Ok run ->
  let f := run_flags run in
  match requested_loan_amount i with
  | Some a =>
      (Branch_Limit_Flag f = true <-> BRANCH_APPROVAL_LIMIT_ETB l < a)
      /\ (Loan_Max_Flag f = true <-> BUSINESS_LOAN_HARD_MAX_ETB l < a)
      /\ (a == BRANCH_APPROVAL_LIMIT_ETB l -> Branch_Limit_Flag f = false)
      /\ (a == BUSINESS_LOAN_HARD_MAX_ETB l -> Loan_Max_Flag f = false)
  | None => Branch_Limit_Flag f = false /\ Loan_Max_Flag f = false
  end.
Proof.
  intros H. run_inversion H. unfold flags_of. cbv zeta.
  cbn [Branch_Limit_Flag Loan_Max_Flag].
  destruct (requested_loan_amount i) as [a|]; [|split; reflexivity].
  unfold py_gt. rewrite !py_lt_true.
  repeat split; try tauto; intros Heq; apply py_lt_false; lra.
Qed.

(** ** Installment sizing *)

Lemma math_pow_integral (x n : Q) (k : Z) :
  n == inject_Z k -> ~ x == 0 -> math_pow libm_pow x n = math_range (x ^ k).
Proof.
  intros Hn Hx. destruct (is_integral_inject n k Hn) as [Hi Hk].
  unfold math_pow. rewrite Hi, Hk.
  apply py_eq_false in Hx. rewrite Hx. reflexivity.
Qed.

(** C5 (failing input). Without an installment override, with a requested
    amount of 50000, a term of 12 months and an annual rate of 2^-50
    percent, the monthly rate r is not zero and the formula
    principal * r / (1 - (1 + r)^(-12)) is a number between 4166 and 4167.
    In binary64 [1 + r] is 1.0, the power is 1.0 and the divisor is 0.0:
    [calculate_scorecard] raises [ZeroDivisionError], so the engine has no
    installment at all. *)
Theorem installment_sizing_raises (l : PolicyConfig) (s : gmap string Q) :
  let i := scenario_tiny_rate in
  let r := (1 # 1125899906842624) / 100 / 12 in
  monthly_installment_override i = None
  /\ requested_loan_amount i = Some 50000
  /\ term_months i = Some 12
  /\ annual_interest_rate i = Some (1 # 1125899906842624)
  /\ ~ r == 0
  /\ 4166 < 50000 * r / (1 - (1 + r) ^ (-12)) < 4167
  /\ calculate_scorecard libm_pow i l s = Raise ZeroDivisionError.
Proof.
  cbv zeta. do 4 (split; [reflexivity|]).
  split; [discriminate|].
  split; [split; vm_compute; reflexivity|].
  unfold calculate_scorecard, py_map.
  rewrite (run_raises scenario_tiny_rate l s ZeroDivisionError);
    [reflexivity|].
  vm_compute. reflexivity.
Qed.

(** ** Exceptions *)

Lemma override_returns (i : ApplicationInput) (l : PolicyConfig) (s : gmap string Q)
    (v : Q) :
  monthly_installment_override i = Some v ->
  exists r, calculate_scorecard libm_pow i l s = Ok r
            /\ monthly_installment_used r = Some v.
Proof.
  intros Ho.
  destruct (run_returns i l s (Some v)) as (run & Hrun & Hm).
  { unfold monthly_installment_of. rewrite Ho. reflexivity. }
  exists (run_result run). split; [apply calculate_scorecard_of_run|]; assumption.
Qed.

(** A positive whole term at a monthly rate of at least 2^-52: the power is
    a number [w] of [0, 1 - 2^-53], the divisor a number [d] of
    [2^-53, 1], and [pmt] returns the rounded quotient. *)
Lemma pmt_regular_value (rate periods present_value : Q) (k : Z) :
  periods == inject_Z k -> (0 < k)%Z -> 1 # 4503599627370496 <= rate ->
  exists d,
    1 # 9007199254740992 <= d /\ d <= 1
    /\ pmt libm_pow rate periods present_value
       = Ok (Some (round64 (float_mul rate present_value / d))).
Proof.
  intros Hk Hpos Hrate. unfold pmt.
  assert (Hr : py_eq rate 0 = false) by (apply py_eq_false; lra).
  assert (Hp : py_eq periods 0 = false).
  { apply py_eq_false. rewrite Hk. intros E.
    apply (inject_Z_injective k 0) in E. lia. }
  rewrite Hr, Hp. unfold float_add, float_sub, float_div.
  (* the base of the power is above 1 *)
  assert (Hbase : 1 + (1 # 4503599627370496) <= round64 (1 + rate)).
  { assert (E : 1 + (1 # 4503599627370496)
                == inject_Z (2 ^ 52 + 1) * 2 ^ (-52)) by reflexivity.
    rewrite E. apply round64_ge_float; [split; reflexivity | discriminate|].
    rewrite <- E. lra. }
  set (base := round64 (1 + rate)) in *.
  rewrite (math_pow_integral base (- periods) (- k));
    [|rewrite Hk, inject_Z_opp; reflexivity | lra].
  (* the power is below 1 by at least one unit in the last place *)
  assert (Hpow : 0 < base ^ (- k) /\ base ^ (- k) <= 1 - (1 # 9007199254740992)).
  { split; [apply Qpower_0_lt; lra|].
    rewrite Qpower_opp.
    assert (Hb0 : 0 < base) by lra.
    assert (Hk1 : base <= base ^ k).
    { rewrite <- (Qpower_1_r base) at 1.
      apply Qpower_le_compat_l; [lia | lra]. }
    apply Qle_trans with (/ base).
    - apply Qle_shift_inv_r; [apply Qpower_0_lt; exact Hb0|].
      apply Qle_trans with (/ base * base).
      + rewrite Qmult_comm, Qmult_inv_r by lra. apply Qle_refl.
      + apply Qmult_le_l; [apply Qinv_lt_0_compat; exact Hb0 | exact Hk1].
    - apply Qle_shift_inv_r; [exact Hb0 | lra]. }
  destruct Hpow as [Hpos' Hle'].
  unfold math_range.
  assert (Hrange : overflows64 (base ^ (- k)) = false).
  { unfold overflows64. destruct (Qle_bool _ _) eqn:E; [|reflexivity].
    apply Qle_bool_iff in E. rewrite Qabs_pos in E by lra.
    assert (1 < 2 ^ 1024 - 2 ^ 970) by (vm_compute; reflexivity). lra. }
  rewrite Hrange. cbn [py_bind].
  set (w := round64 (base ^ (- k))).
  assert (Hw0 : 0 <= w) by (apply round64_nonneg; lra).
  assert (Hw : w <= 1 - (1 # 9007199254740992)).
  { assert (E : 1 - (1 # 9007199254740992)
                == inject_Z (2 ^ 53 - 1) * 2 ^ (-53)) by reflexivity.
    rewrite E. apply round64_le_float;
      [split; reflexivity | discriminate | exact Hpos' | rewrite <- E; exact Hle']. }
  assert (Hd : 1 # 9007199254740992 <= round64 (1 - w)).
  { assert (E : 1 # 9007199254740992 == inject_Z 1 * 2 ^ (-53)) by reflexivity.
    rewrite E. apply round64_ge_float; [split; reflexivity | discriminate|].
    rewrite <- E. lra. }
  assert (Hd1 : round64 (1 - w) <= 1).
  { assert (E : 1 == inject_Z 1 * 2 ^ 0) by reflexivity.
    rewrite E at 2. apply round64_le_float;
      [split; reflexivity | discriminate | lra | rewrite <- E; lra]. }
  exists (round64 (1 - w)). split; [exact Hd|]. split; [exact Hd1|].
  rewrite py_div_ok by (apply py_eq_false; lra).
  reflexivity.
Qed.

Lemma pmt_returns_regular (rate periods present_value : Q) (k : Z) :
  periods == inject_Z k -> (0 < k)%Z -> 1 # 4503599627370496 <= rate ->
  exists v, pmt libm_pow rate periods present_value = Ok v.
Proof.
  intros Hk Hpos Hrate.
  destruct (pmt_regular_value rate periods present_value k Hk Hpos Hrate)
    as (d & _ & _ & H).
  eauto.
Qed.

(** X24. The engine returns on every application that carries an
    installment override or lacks one of amount, term and rate; and, sized
    by [pmt], whenever the annual rate is 0, the term is 0, or the term is
    a positive whole number of months and the monthly rate is at least
    2^-52 (an annual rate of about 2.7e-13 percent). *)
Lemma returns_on_regular_terms (i : ApplicationInput) (l : PolicyConfig)
    (s : gmap string Q) :
  match monthly_installment_override i, requested_loan_amount i, term_months i,
        annual_interest_rate i with
  | None, Some _, Some term, Some annual =>
      annual == 0 \/ term == 0
      \/ (1 # 4503599627370496 <= annual / 100 / 12
          /\ exists k : Z, term == inject_Z k /\ (0 < k)%Z) ->
      exists r, calculate_scorecard libm_pow i l s = Ok r
  | _, _, _, _ => exists r, calculate_scorecard libm_pow i l s = Ok r
  end.
Proof.
  assert (ret : forall m, monthly_installment_of libm_pow i = Ok m ->
                          exists r, calculate_scorecard libm_pow i l s = Ok r).
  { intros m Hm. destruct (run_returns i l s m Hm) as (run & Hrun & _).
    exists (run_result run). apply calculate_scorecard_of_run. exact Hrun. }
  destruct (monthly_installment_override i) as [v|] eqn:Ho.
  { apply (ret (Some v)). unfold monthly_installment_of. rewrite Ho. reflexivity. }
  destruct (requested_loan_amount i) as [p|] eqn:Hp,
           (term_months i) as [n|] eqn:Hn,
           (annual_interest_rate i) as [a|] eqn:Ha;
    try (apply (ret None); unfold monthly_installment_of;
         rewrite Ho, ?Hp, ?Hn, ?Ha; reflexivity).
  assert (Hsize : monthly_installment_of libm_pow i = pmt libm_pow (a / 100 / 12) n p).
  { unfold monthly_installment_of. rewrite Ho, Hp, Hn, Ha.
    rewrite (py_div_ok a 100) by reflexivity. cbn [py_bind].
    rewrite (py_div_ok (a / 100) 12) by reflexivity. reflexivity. }
  intros [Hzero|[Hterm|(Hrate & k & Hk & Hpos)]].
  - assert (Hr : py_eq (a / 100 / 12) 0 = true).
    { apply py_eq_true. rewrite Hzero. reflexivity. }
    destruct (py_eq n 0) eqn:Ht.
    + apply (ret None). rewrite Hsize. unfold pmt. rewrite Hr, Ht. reflexivity.
    + apply (ret (Some (round64 (p / n)))). rewrite Hsize. unfold pmt, float_div.
      rewrite Hr, Ht, (py_div_ok p n Ht). reflexivity.
  - apply py_eq_true in Hterm.
    apply (ret None). rewrite Hsize. unfold pmt. rewrite Hterm.
    destruct (py_eq (a / 100 / 12) 0); reflexivity.
  - destruct (pmt_returns_regular (a / 100 / 12) n p k Hk Hpos Hrate) as [m Hm].
    apply (ret m). rewrite Hsize. exact Hm.
Qed.

(** X25. Conversely, an exception can only come out of the amortization
    formula. *)
Lemma raises_only_in_pmt (i : ApplicationInput) (l : PolicyConfig)
    (s : gmap string Q) (e : PyExn) :
  calculate_scorecard libm_pow i l s = Raise e ->
  monthly_installment_override i = None
  /\ exists principal term annual,
       requested_loan_amount i = Some principal
       /\ term_months i = Some term
       /\ annual_interest_rate i = Some annual
       /\ pmt libm_pow (annual / 100 / 12) term principal = Raise e.
Proof.
  intros Hraise.
  destruct (monthly_installment_of libm_pow i) as [m|e'] eqn:Hm.
  { destruct (run_returns i l s m Hm) as (run & Hrun & _).
    apply calculate_scorecard_of_run in Hrun. congruence. }
  assert (e' = e) as ->.
  { pose proof (run_raises i l s e' Hm) as Hrun.
    unfold calculate_scorecard, py_map in Hraise. rewrite Hrun in Hraise.
    simpl in Hraise. congruence. }
  revert Hm. unfold monthly_installment_of.
  destruct (monthly_installment_override i); [discriminate|].
  destruct (requested_loan_amount i) as [p|]; [|discriminate].
  destruct (term_months i) as [n|]; [|discriminate].
  destruct (annual_interest_rate i) as [a|]; [|discriminate].
  rewrite (py_div_ok a 100) by reflexivity. cbn [py_bind].
  rewrite (py_div_ok (a / 100) 12) by reflexivity. cbn [py_bind].
  intros Hm. split; [reflexivity|]. exists p, n, a. auto.
Qed.

(** C4 (failing input). Without an installment override, with a term of
    12 months and an annual rate of -2400 percent, the monthly rate is -2,
    [(1 + rate) ** -12] is 1 and the amortization formula divides by zero:
    [calculate_scorecard] raises [ZeroDivisionError]. *)
Theorem negative_rate_raises (l : PolicyConfig) (s : gmap string Q) :
  calculate_scorecard libm_pow scenario_negative_rate l s = Raise ZeroDivisionError.
Proof.
  unfold calculate_scorecard, py_map.
  rewrite (run_raises scenario_negative_rate l s ZeroDivisionError);
    [reflexivity|].
  vm_compute. reflexivity.
Qed.

(** With an annual rate of -1200 percent the base of the power is 0 and
    [math.pow(0.0, -12)] raises [ValueError]. *)
Lemma minus_one_rate_raises (l : PolicyConfig) (s : gmap string Q) :
  calculate_scorecard libm_pow scenario_minus_one_rate l s = Raise ValueError.
Proof.
  unfold calculate_scorecard, py_map.
  rewrite (run_raises scenario_minus_one_rate l s ValueError);
    [reflexivity|].
  vm_compute. reflexivity.
Qed.

(** With an annual rate of -1199 percent over 120 months the base of the
    power is 1/1200 and [math.pow] of it to -120, about 3e369, is out of
    the binary64 range: [OverflowError]. *)
Lemma steep_negative_rate_raises (l : PolicyConfig) (s : gmap string Q) :
  calculate_scorecard libm_pow scenario_steep_negative_rate l s
  = Raise OverflowError.
Proof.
  unfold calculate_scorecard, py_map.
  rewrite (run_raises scenario_steep_negative_rate l s OverflowError);
    [reflexivity|].
  vm_compute. reflexivity.
Qed.

(** ** The documented sample *)

(** C9. On Scenario A with the default policy the engine returns:
    operating expenses 8000, unstressed business surplus 8000, stressed
    business surplus 6800, unstressed total surplus 3500, stressed total
    surplus 2300, stressed DSCR 2300/4584, equity ratio 0.6, LTV 2/3,
    scores 21 / 0 / 10 / 10 / 10, total 51, band "High Risk", only the
    cash-flow-deficit flag set, recommendation "REJECT". *)
Theorem scenario_A_result :
  exists run,
    calculate_scorecard_run libm_pow scenario_A DEFAULT_LOOKUP_VALUES
      DEFAULT_SECTOR_STRESS = Ok run
    /\ calculate_scorecard libm_pow scenario_A DEFAULT_LOOKUP_VALUES
         DEFAULT_SECTOR_STRESS = Ok (run_result run)
    /\ total_operating_expenses (run_result run) =?= Some 8000
    /\ business_surplus_unstressed (run_result run) =?= Some 8000
    /\ business_surplus_stressed (run_result run) =?= Some 6800
    /\ total_monthly_surplus_unstressed (run_result run) =?= Some 3500
    /\ total_monthly_surplus_stressed (run_result run) =?= Some 2300
    /\ stressed_dscr (run_result run) =?= Some (2300 / 4584)
    /\ equity_ratio (run_result run) =?= Some 0.6
    /\ ltv (run_result run) =?= Some (2 / 3)
    /\ score_character (run_result run) == 21
    /\ score_capacity (run_result run) == 0
    /\ score_capital (run_result run) == 10
    /\ score_collateral (run_result run) == 10
    /\ score_conditions (run_result run) == 10
    /\ total_score (run_result run) == 51
    /\ result_risk_band (run_result run) = "High Risk"
    /\ run_flags run
       = {| Age_Flag := false; CFDeficit_Flag := true; Income_Var_Flag := false;
            Equity_Flag := false; Training_Flag := false; LTV_Flag := false;
            Collateral_Flag := false; Branch_Limit_Flag := false;
            Loan_Max_Flag := false; Default_Flag := false |}
    /\ recommendation (run_result run) = "REJECT".
Proof.
  eexists. split; [vm_compute; reflexivity|].
  split; [vm_compute; reflexivity|].
  vm_compute. repeat split; reflexivity.
Qed.
(** ** Risk band *)

Ltac floor_matches :=
  split;
  [ cbn [In]; eauto 10
  | split;
    [ lra
    | let Hin := fresh "Hin" in
      intros ? ? Hin ?; cbn [In] in Hin;
      repeat (destruct Hin as [[= <- <-]|Hin]; [lra|]); contradiction ] ].

(** C7. For scores 1 <= s1 <= s2 <= 99, [risk_band] returns at each of
    them the band whose threshold is the highest one not above the score
    among 85 "Very Low Risk", 70 "Low Risk", 55 "Moderate Risk", 40 "High
    Risk" and 1 "Very High Risk"; the threshold of the band of s1 is at
    most that of the band of s2, and the band of s1 is never a lower-risk
    label than the band of s2. *)
Theorem risk_band_floor_monotone (s1 s2 : Q) :
  1 <= s1 -> s1 <= s2 -> s2 <= 99 ->
  let bands :=
    [ (85, "Very Low Risk"); (70, "Low Risk"); (55, "Moderate Risk");
      (40, "High Risk"); (1, "Very High Risk") ] in
  let floor_match (s : Q) (t : Q) :=
    In (t, risk_band s) bands /\ t <= s
    /\ forall t' b', In (t', b') bands -> t' <= s -> t' <= t in
  exists t1 t2,
    floor_match s1 t1 /\ floor_match s2 t2 /\ t1 <= t2
    /\ (risk_rank (risk_band s1) <= risk_rank (risk_band s2))%nat.
Proof.
  intros H1 H12 H2. cbv zeta.
  assert (H1' : 1 <= s2) by lra.
  unfold risk_band, RISK_BANDS. cbn [risk_band_scan]. unfold py_ge.
  repeat py_case; py_props; try lra;
    do 2 eexists;
    (split; [floor_matches|]); (split; [floor_matches|]);
    (split; [lra | cbn; lia]).
Qed.

(** ** Fields the engine does not read *)

(** C10. Two applications that differ only in credit_officer_id,
    credit_officer_name, applicant_name, applicant_id, branch, literacy,
    business_name, business_type, ownership, loan_purpose or
    application_date get the same answer from [calculate_scorecard] (the
    same result or the same exception). *)
Theorem opaque_fields_ignored (i j : ApplicationInput) (l : PolicyConfig)
    (s : gmap string Q) :
  agree_on_scored_fields i j ->
  calculate_scorecard libm_pow i l s = calculate_scorecard libm_pow j l s.
Proof.
  unfold agree_on_scored_fields.
  destruct i, j. cbn. intros H.
  repeat match type of H with
  | _ /\ _ => let E := fresh "E" in destruct H as [E H]; subst
  end.
  subst. reflexivity.
Qed.


End Properties.

(** * Concrete evaluations *)

(** The sample application is rejected on its cash-flow-deficit flag. *)
Lemma hard_stops_reject_witness :
  exists run,
    calculate_scorecard_run libm_unused scenario_A DEFAULT_LOOKUP_VALUES
      DEFAULT_SECTOR_STRESS = Ok run
    /\ CFDeficit_Flag (run_flags run) = true
    /\ recommendation (run_result run) = "REJECT".
Proof.
  eexists. split; [vm_compute; reflexivity|]. split; [reflexivity|].
  refine (proj1 (proj2 (hard_stops_reject libm_unused scenario_A
                          DEFAULT_LOOKUP_VALUES DEFAULT_SECTOR_STRESS _ _)) _).
  - vm_compute. reflexivity.
  - right. left. reflexivity.
Defined.

(** The bounds on an application whose collateral score is negative. *)
Lemma scores_bounded_witness :
  exists run,
    calculate_scorecard_run libm_unused scenario_uninsured DEFAULT_LOOKUP_VALUES
      DEFAULT_SECTOR_STRESS = Ok run
    /\ - (2) <= score_collateral (run_result run) <= 10
    /\ 1 <= total_score (run_result run) <= 99.
Proof.
  eexists. split; [vm_compute; reflexivity|].
  pose proof (scores_bounded libm_unused scenario_uninsured DEFAULT_LOOKUP_VALUES
                DEFAULT_SECTOR_STRESS _
                ltac:(reflexivity) ltac:(reflexivity) ltac:(reflexivity)
                ltac:(reflexivity) ltac:(reflexivity)
                ltac:(vm_compute; reflexivity)) as H.
  split; apply H.
Defined.

(** C2 as stated fails: an uninsured collateral whose loan to value is
    above the maximum scores -2, below the claimed lower bound 0. *)
Lemma scores_bounded_counterexample :
  exists run,
    calculate_scorecard_run libm_unused scenario_uninsured DEFAULT_LOOKUP_VALUES
      DEFAULT_SECTOR_STRESS = Ok run
    /\ 0 < W_COLLATERAL DEFAULT_LOOKUP_VALUES
    /\ score_collateral (run_result run) < 0.
Proof.
  eexists. split; [vm_compute; reflexivity|]. split; reflexivity.
Qed.

(** Scenario B: sentinel loan to value, zero collateral score, the
    "no collateral" message and a rejection. *)
Lemma no_collateral_rejected_witness :
  exists run,
    calculate_scorecard_run libm_unused scenario_B DEFAULT_LOOKUP_VALUES
      DEFAULT_SECTOR_STRESS = Ok run
    /\ ltv (run_result run) = Some 99
    /\ score_collateral (run_result run) == 0
    /\ In "REJECT: No Collateral" (triggered_flags (run_result run))
    /\ recommendation (run_result run) = "REJECT".
Proof.
  eexists. split; [vm_compute; reflexivity|].
  refine (no_collateral_rejected libm_unused scenario_B DEFAULT_LOOKUP_VALUES
            DEFAULT_SECTOR_STRESS _ _ _ _).
  - reflexivity.
  - vm_compute. discriminate.
  - vm_compute. reflexivity.
Defined.

(** C3 as stated fails: with collateral type "None" and no market value
    the loan to value is null, not 99. *)
Lemma no_collateral_counterexample :
  exists run,
    calculate_scorecard_run libm_unused scenario_B_blank DEFAULT_LOOKUP_VALUES
      DEFAULT_SECTOR_STRESS = Ok run
    /\ collateral_type scenario_B_blank = "None"
    /\ ltv (run_result run) = None.
Proof.
  eexists. split; [vm_compute; reflexivity|]. split; reflexivity.
Qed.

(** The sample application repays 4584 out of a surplus of 3500. *)
Lemma repayment_share_rule_witness :
  exists run,
    calculate_scorecard_run libm_unused scenario_A DEFAULT_LOOKUP_VALUES
      DEFAULT_SECTOR_STRESS = Ok run
    /\ repayment_share (run_result run) = Some (4584 / 3500).
Proof.
  eexists. split; [vm_compute; reflexivity|].
  pose proof (repayment_share_rule libm_unused scenario_A DEFAULT_LOOKUP_VALUES
                DEFAULT_SECTOR_STRESS _ ltac:(vm_compute; reflexivity)) as H.
  cbn [run_result monthly_installment_used total_monthly_surplus_unstressed
       repayment_share] in H.
  apply H. reflexivity.
Defined.

(** The sample application asks for exactly the branch limit: no flag. *)
Lemma limit_flags_strict_witness :
  exists run,
    calculate_scorecard_run libm_unused scenario_A DEFAULT_LOOKUP_VALUES
      DEFAULT_SECTOR_STRESS = Ok run
    /\ requested_loan_amount scenario_A = Some 50000
    /\ BRANCH_APPROVAL_LIMIT_ETB DEFAULT_LOOKUP_VALUES = 50000
    /\ Branch_Limit_Flag (run_flags run) = false.
Proof.
  eexists. split; [vm_compute; reflexivity|]. split; [reflexivity|].
  split; [reflexivity|].
  pose proof (limit_flags_strict libm_unused scenario_A DEFAULT_LOOKUP_VALUES
                DEFAULT_SECTOR_STRESS _ ltac:(vm_compute; reflexivity)) as H.
  cbn [requested_loan_amount scenario_A] in H.
  destruct H as (_ & _ & H & _). apply H. reflexivity.
Defined.

(** Scores 51 and 70. *)
Lemma risk_band_floor_monotone_witness :
  risk_band 51 = "High Risk" /\ risk_band 70 = "Low Risk"
  /\ (risk_rank (risk_band 51) <= risk_rank (risk_band 70))%nat.
Proof.
  split; [reflexivity|]. split; [reflexivity|].
  destruct (risk_band_floor_monotone 51 70) as (t1 & t2 & _ & _ & _ & H);
    [vm_compute; discriminate ..|exact H].
Defined.

(** The sample application under other names, filed on another day. *)
Lemma opaque_fields_ignored_witness :
  calculate_scorecard libm_unused scenario_A DEFAULT_LOOKUP_VALUES
    DEFAULT_SECTOR_STRESS
  = calculate_scorecard libm_unused (relabelled scenario_A "other" (mkDate 2025 6 30))
      DEFAULT_LOOKUP_VALUES DEFAULT_SECTOR_STRESS.
Proof.
  apply opaque_fields_ignored. repeat split.
Defined.

(** * Further properties of the engine *)

(** ** The shape of an evaluation *)

Lemma run_has_shape (libm_pow : Q -> Q -> Q) (i : ApplicationInput)
    (l : PolicyConfig) (s : gmap string Q) (run : Run) :
  calculate_scorecard_run libm_pow i l s = Ok run -> run_shape libm_pow i l s run.
Proof.
  intros H. run_inversion H. constructor; cbn; solve [reflexivity | assumption].
Qed.

Lemma safe_divide_value (n d v : option Q) :
  safe_divide n d = Ok v ->
  v = match n, d with
      | Some n, Some d => if py_eq d 0 then None else Some (n / d)
      | _, _ => None
      end.
Proof.
  destruct n as [n|], d as [d|]; simpl; try congruence.
  destruct (py_eq d 0) eqn:E; [congruence|].
  rewrite (py_div_ok _ _ E). simpl. congruence.
Qed.

(** ** The decision tree as a table *)

Lemma hard_stop_bool (i : ApplicationInput) (f : Flags) :
  hard_stop i f <->
  Age_Flag f || CFDeficit_Flag f || Income_Var_Flag f || Default_Flag f
  || Loan_Max_Flag f || (collateral_type i =? "None") = true.
Proof.
  unfold hard_stop. rewrite !orb_true_iff, String.eqb_eq. tauto.
Qed.

Lemma refer_flag_bool (f : Flags) :
  refer_flag f <->
  Branch_Limit_Flag f || LTV_Flag f || Collateral_Flag f = true.
Proof. unfold refer_flag. rewrite !orb_true_iff. tauto. Qed.

Lemma not_iff_false (b : bool) (P : Prop) : (P <-> b = true) -> (~ P <-> b = false).
Proof. intros H. rewrite H. destruct b; split; congruence. Qed.

Lemma recommendation_table (i : ApplicationInput) (f : Flags) (total : Q) :
  (recommendation_of i f total = "REJECT" <-> hard_stop i f \/ total <= 54)
  /\ (recommendation_of i f total = "REFER – HEAD OFFICE"
      <-> ~ hard_stop i f /\ 54 < total /\ refer_flag f)
  /\ (recommendation_of i f total = "APPROVE WITH CONDITIONS – BRANCH MANAGER"
      <-> ~ hard_stop i f /\ 54 < total /\ ~ refer_flag f
          /\ (total <= 69 \/ Equity_Flag f = true \/ Training_Flag f = true))
  /\ (recommendation_of i f total = "APPROVE"
      <-> ~ hard_stop i f /\ ~ refer_flag f /\ 69 < total
          /\ Equity_Flag f = false /\ Training_Flag f = false).
Proof.
  rewrite (not_iff_false _ _ (hard_stop_bool i f)).
  rewrite (not_iff_false _ _ (refer_flag_bool f)).
  rewrite hard_stop_bool, refer_flag_bool.
  unfold recommendation_of.
  destruct (Age_Flag f || CFDeficit_Flag f || Income_Var_Flag f || Default_Flag f
            || Loan_Max_Flag f || (collateral_type i =? "None")).
  { repeat split; intros; try discriminate; intuition discriminate. }
  destruct (py_le total 54) eqn:H54; py_props.
  { repeat split; intros; try discriminate; try tauto;
      intuition (try discriminate; lra). }
  destruct (Branch_Limit_Flag f || LTV_Flag f || Collateral_Flag f).
  { repeat split; intros; try discriminate; intuition (try discriminate; lra). }
  destruct (py_le total 69) eqn:H69; py_props; simpl.
  { repeat split; intros; try discriminate; intuition (try discriminate; lra). }
  destruct (Equity_Flag f), (Training_Flag f); simpl;
    repeat split; intros; try discriminate; intuition (try discriminate; lra).
Qed.

Lemma recommendation_outcomes (i : ApplicationInput) (f : Flags) (total : Q) :
  recommendation_of i f total = "REJECT"
  \/ recommendation_of i f total = "REFER – HEAD OFFICE"
  \/ recommendation_of i f total = "APPROVE WITH CONDITIONS – BRANCH MANAGER"
  \/ recommendation_of i f total = "APPROVE".
Proof. unfold recommendation_of. split_branches; auto. Qed.

(** X1. The recommendation is one of the four strings "REJECT",
    "REFER – HEAD OFFICE", "APPROVE WITH CONDITIONS – BRANCH MANAGER" and
    "APPROVE", and it is "REJECT" exactly when a hard stop holds or the
    total score is at most 54. *)
Theorem reject_exactly (libm_pow : Q -> Q -> Q) (i : ApplicationInput)
    (l : PolicyConfig) (s : gmap string Q) (run : Run) :
  calculate_scorecard_run libm_pow i l s = Ok run ->
  let f := run_flags run in
  let r := run_result run in
  (recommendation r = "REJECT"
   \/ recommendation r = "REFER – HEAD OFFICE"
   \/ recommendation r = "APPROVE WITH CONDITIONS – BRANCH MANAGER"
   \/ recommendation r = "APPROVE")
  /\ (recommendation r = "REJECT" <-> hard_stop i f \/ total_score r <= 54).
Proof.
  intros H. apply run_has_shape in H. cbv zeta.
  rewrite (shape_recommendation _ _ _ _ _ H).
  split; [apply recommendation_outcomes | apply recommendation_table].
Qed.

Lemma reject_exactly_witness :
  exists run,
    calculate_scorecard_run libm_unused scenario_A DEFAULT_LOOKUP_VALUES
      DEFAULT_SECTOR_STRESS = Ok run
    /\ (recommendation (run_result run) = "REJECT"
        <-> hard_stop scenario_A (run_flags run)
            \/ total_score (run_result run) <= 54).
Proof.
  eexists. split; [vm_compute; reflexivity|].
  apply (reject_exactly libm_unused scenario_A DEFAULT_LOOKUP_VALUES
           DEFAULT_SECTOR_STRESS).
  vm_compute. reflexivity.
Defined.

Lemma all_flags_clear (f : Flags) :
  Age_Flag f = false -> CFDeficit_Flag f = false -> Income_Var_Flag f = false ->
  Equity_Flag f = false -> Training_Flag f = false -> LTV_Flag f = false ->
  Collateral_Flag f = false -> Branch_Limit_Flag f = false ->
  Loan_Max_Flag f = false -> Default_Flag f = false -> f = NO_FLAGS.
Proof. destruct f; simpl; intros; subst; reflexivity. Qed.

Lemma clear_flags_iff (i : ApplicationInput) (f : Flags) :
  f = NO_FLAGS /\ collateral_type i <> "None"
  <-> ~ hard_stop i f /\ ~ refer_flag f
      /\ Equity_Flag f = false /\ Training_Flag f = false.
Proof.
  unfold hard_stop, refer_flag. split.
  - intros [-> Hk]. simpl. intuition discriminate.
  - intros (Hh & Hr & He & Ht). split; [|tauto].
    apply all_flags_clear; try assumption;
      match goal with
      | |- ?b = false => destruct b eqn:E; [exfalso; tauto | reflexivity]
      end.
Qed.

(** X2. The recommendation is "APPROVE" exactly when none of the ten flags
    is set, the collateral type is not "None" and the total score is above
    69. *)
Theorem approve_exactly (libm_pow : Q -> Q -> Q) (i : ApplicationInput)
    (l : PolicyConfig) (s : gmap string Q) (run : Run) :
  calculate_scorecard_run libm_pow i l s = Ok run ->
  let f := run_flags run in
  let r := run_result run in
  recommendation r = "APPROVE"
  <-> f = NO_FLAGS /\ collateral_type i <> "None" /\ 69 < total_score r.
Proof.
  intros H. apply run_has_shape in H. cbv zeta.
  rewrite (shape_recommendation _ _ _ _ _ H).
  destruct (recommendation_table i (run_flags run) (total_score (run_result run)))
    as (_ & _ & _ & ->).
  pose proof (clear_flags_iff i (run_flags run)). tauto.
Qed.

(** X3. The recommendation is "REFER – HEAD OFFICE" exactly when no hard
    stop holds, the total score is above 54 and the branch-limit, LTV or
    collateral flag is set; it is "APPROVE WITH CONDITIONS – BRANCH
    MANAGER" exactly when no hard stop holds, the total score is above 54,
    none of those three flags is set, and the total score is at most 69 or
    the equity or training flag is set. *)
Theorem escalation_exactly (libm_pow : Q -> Q -> Q) (i : ApplicationInput)
    (l : PolicyConfig) (s : gmap string Q) (run : Run) :
  calculate_scorecard_run libm_pow i l s = Ok run ->
  let f := run_flags run in
  let r := run_result run in
  (recommendation r = "REFER – HEAD OFFICE"
   <-> ~ hard_stop i f /\ 54 < total_score r /\ refer_flag f)
  /\ (recommendation r = "APPROVE WITH CONDITIONS – BRANCH MANAGER"
      <-> ~ hard_stop i f /\ 54 < total_score r /\ ~ refer_flag f
          /\ (total_score r <= 69 \/ Equity_Flag f = true
              \/ Training_Flag f = true)).
Proof.
  intros H. apply run_has_shape in H. cbv zeta.
  rewrite (shape_recommendation _ _ _ _ _ H).
  destruct (recommendation_table i (run_flags run) (total_score (run_result run)))
    as (_ & Hrefer & Hcond & _).
  split; assumption.
Qed.

Lemma approve_exactly_witness :
  exists run,
    calculate_scorecard_run libm_unused scenario_approved DEFAULT_LOOKUP_VALUES
      DEFAULT_SECTOR_STRESS = Ok run
    /\ recommendation (run_result run) = "APPROVE"
    /\ run_flags run = NO_FLAGS.
Proof.
  eexists. split; [vm_compute; reflexivity|]. split; [reflexivity|].
  apply (approve_exactly libm_unused scenario_approved DEFAULT_LOOKUP_VALUES
           DEFAULT_SECTOR_STRESS); [vm_compute; reflexivity | reflexivity].
Defined.

Lemma escalation_exactly_witness :
  exists run,
    calculate_scorecard_run libm_unused scenario_referred DEFAULT_LOOKUP_VALUES
      DEFAULT_SECTOR_STRESS = Ok run
    /\ recommendation (run_result run) = "REFER – HEAD OFFICE"
    /\ refer_flag (run_flags run).
Proof.
  eexists. split; [vm_compute; reflexivity|]. split; [reflexivity|].
  apply (escalation_exactly libm_unused scenario_referred DEFAULT_LOOKUP_VALUES
           DEFAULT_SECTOR_STRESS); [vm_compute; reflexivity | reflexivity].
Defined.

(** ** The triggered-flag messages *)

Lemma append_if_app (c : bool) (msg : string) (acc : list string) :
  append_if c msg acc = (acc ++ (if c then [msg] else []))%list.
Proof. destruct c; simpl; [reflexivity | rewrite app_nil_r; reflexivity]. Qed.

(** The list of messages is the concatenation, in the order of
    [FLAG_MESSAGES], of the messages whose condition holds. *)
Lemma triggered_flags_concat (i : ApplicationInput) (f : Flags) :
  triggered_flags_of i f
  = ((if Age_Flag f then ["REJECT: Business less than 6 months"] else [])
    ++ (if CFDeficit_Flag f
        then ["REJECT: Cash flow deficit (repayment >50% of surplus)"] else [])
    ++ (if Income_Var_Flag f
        then ["REJECT: Data inconsistency (>20% variance)"] else [])
    ++ (if Default_Flag f then ["REJECT: Prior default with HMFI"] else [])
    ++ (if Loan_Max_Flag f then ["REJECT: Above hard max loan amount"] else [])
    ++ (if Equity_Flag f then ["REFER: Equity <10% of loan"] else [])
    ++ (if Training_Flag f then ["REFER: No training/certification"] else [])
    ++ (if LTV_Flag f then ["REFER: Collateral shortfall (LTV too high)"] else [])
    ++ (if Collateral_Flag f then ["REFER: Collateral not insured"] else [])
    ++ (if Branch_Limit_Flag f then ["REFER: Above branch approval limit"] else [])
    ++ (if collateral_type i =? "None" then ["REJECT: No Collateral"] else []))%list.
Proof.
  unfold triggered_flags_of. cbv zeta. rewrite !append_if_app.
  rewrite app_nil_l, <- !app_assoc. reflexivity.
Qed.

Lemma in_optional_app (c : bool) (msg m : string) (rest : list string) (P : Prop) :
  (In m rest <-> P) ->
  In m ((if c then [msg] else []) ++ rest)%list <-> (c = true /\ m = msg) \/ P.
Proof.
  intros H. rewrite in_app_iff, H. destruct c; simpl; intuition congruence.
Qed.

Lemma in_triggered_flags (i : ApplicationInput) (f : Flags) (m : string) :
  In m (triggered_flags_of i f) <->
  (Age_Flag f = true /\ m = "REJECT: Business less than 6 months")
  \/ (CFDeficit_Flag f = true
      /\ m = "REJECT: Cash flow deficit (repayment >50% of surplus)")
  \/ (Income_Var_Flag f = true /\ m = "REJECT: Data inconsistency (>20% variance)")
  \/ (Default_Flag f = true /\ m = "REJECT: Prior default with HMFI")
  \/ (Loan_Max_Flag f = true /\ m = "REJECT: Above hard max loan amount")
  \/ (Equity_Flag f = true /\ m = "REFER: Equity <10% of loan")
  \/ (Training_Flag f = true /\ m = "REFER: No training/certification")
  \/ (LTV_Flag f = true /\ m = "REFER: Collateral shortfall (LTV too high)")
  \/ (Collateral_Flag f = true /\ m = "REFER: Collateral not insured")
  \/ (Branch_Limit_Flag f = true /\ m = "REFER: Above branch approval limit")
  \/ (collateral_type i = "None" /\ m = "REJECT: No Collateral").
Proof.
  rewrite triggered_flags_concat. repeat apply in_optional_app.
  rewrite <- String.eqb_eq.
  destruct (collateral_type i =? "None"); simpl; intuition congruence.
Qed.

(** X4. Each of the eleven messages is in the triggered-flag list exactly
    when its condition holds: the ten flags, and collateral type "None"
    for "REJECT: No Collateral". *)
Theorem messages_reflect_flags (libm_pow : Q -> Q -> Q) (i : ApplicationInput)
    (l : PolicyConfig) (s : gmap string Q) (run : Run) :
  calculate_scorecard_run libm_pow i l s = Ok run ->
  let f := run_flags run in
  let shown := fun m => In m (triggered_flags (run_result run)) in
  (shown "REJECT: Business less than 6 months" <-> Age_Flag f = true)
  /\ (shown "REJECT: Cash flow deficit (repayment >50% of surplus)"
      <-> CFDeficit_Flag f = true)
  /\ (shown "REJECT: Data inconsistency (>20% variance)"
      <-> Income_Var_Flag f = true)
  /\ (shown "REJECT: Prior default with HMFI" <-> Default_Flag f = true)
  /\ (shown "REJECT: Above hard max loan amount" <-> Loan_Max_Flag f = true)
  /\ (shown "REFER: Equity <10% of loan" <-> Equity_Flag f = true)
  /\ (shown "REFER: No training/certification" <-> Training_Flag f = true)
  /\ (shown "REFER: Collateral shortfall (LTV too high)" <-> LTV_Flag f = true)
  /\ (shown "REFER: Collateral not insured" <-> Collateral_Flag f = true)
  /\ (shown "REFER: Above branch approval limit" <-> Branch_Limit_Flag f = true)
  /\ (shown "REJECT: No Collateral" <-> collateral_type i = "None").
Proof.
  intros H. apply run_has_shape in H. cbv zeta.
  rewrite (shape_messages _ _ _ _ _ H).
  repeat split; intros Hm;
    try (apply in_triggered_flags in Hm;
         repeat (destruct Hm as [[Hc He]|Hm];
                 [first [discriminate He | exact Hc]|]);
         destruct Hm as [Hc He]; first [discriminate He | exact Hc]);
    apply in_triggered_flags; tauto.
Qed.

Lemma messages_reflect_flags_witness :
  exists run,
    calculate_scorecard_run libm_unused scenario_A DEFAULT_LOOKUP_VALUES
      DEFAULT_SECTOR_STRESS = Ok run
    /\ In "REJECT: Cash flow deficit (repayment >50% of surplus)"
         (triggered_flags (run_result run))
    /\ CFDeficit_Flag (run_flags run) = true.
Proof.
  eexists. split; [vm_compute; reflexivity|]. split; [|reflexivity].
  apply (messages_reflect_flags libm_unused scenario_A DEFAULT_LOOKUP_VALUES
           DEFAULT_SECTOR_STRESS); [vm_compute; reflexivity | reflexivity].
Defined.

Lemma optional_sublist (c : bool) (msg : string) (rest all : list string) :
  rest `sublist_of` all ->
  ((if c then [msg] else []) ++ rest)%list `sublist_of` msg :: all.
Proof.
  intros H. destruct c; simpl; [apply sublist_skip | apply sublist_cons]; exact H.
Qed.

(** X5. The triggered-flag list is a sub-sequence of [FLAG_MESSAGES]: the
    messages always come in that fixed order, and none comes twice. *)
Theorem messages_in_fixed_order (libm_pow : Q -> Q -> Q) (i : ApplicationInput)
    (l : PolicyConfig) (s : gmap string Q) (run : Run) :
  calculate_scorecard_run libm_pow i l s = Ok run ->
  triggered_flags (run_result run) `sublist_of` FLAG_MESSAGES
  /\ NoDup (triggered_flags (run_result run)).
Proof.
  intros H. apply run_has_shape in H.
  rewrite (shape_messages _ _ _ _ _ H).
  assert (Hsub : triggered_flags_of i (run_flags run) `sublist_of` FLAG_MESSAGES).
  { rewrite triggered_flags_concat. unfold FLAG_MESSAGES.
    repeat apply optional_sublist.
    destruct (collateral_type i =? "None"); [reflexivity | apply sublist_nil_l]. }
  split; [exact Hsub|].
  eapply sublist_NoDup; [|exact Hsub].
  apply (bool_decide_unpack _). vm_compute. exact I.
Qed.

Lemma messages_in_fixed_order_witness :
  exists run,
    calculate_scorecard_run libm_unused scenario_uninsured DEFAULT_LOOKUP_VALUES
      DEFAULT_SECTOR_STRESS = Ok run
    /\ triggered_flags (run_result run)
       = [ "REJECT: Cash flow deficit (repayment >50% of surplus)";
           "REFER: Collateral shortfall (LTV too high)";
           "REFER: Collateral not insured" ]
    /\ triggered_flags (run_result run) `sublist_of` FLAG_MESSAGES.
Proof.
  eexists. split; [vm_compute; reflexivity|]. split; [reflexivity|].
  apply (messages_in_fixed_order libm_unused scenario_uninsured
           DEFAULT_LOOKUP_VALUES DEFAULT_SECTOR_STRESS).
  vm_compute. reflexivity.
Defined.

Lemma no_messages_iff (i : ApplicationInput) (f : Flags) :
  triggered_flags_of i f = [] <-> f = NO_FLAGS /\ collateral_type i <> "None".
Proof.
  split.
  - intros Hnil.
    assert (Hno : forall m, ~ In m (triggered_flags_of i f)).
    { intros m. rewrite Hnil. simpl. tauto. }
    assert (Hclear : forall b m, (b = true -> In m (triggered_flags_of i f)) -> b = false).
    { intros [|] m Hb; [exfalso; apply (Hno m), Hb|]; reflexivity. }
    split.
    + apply all_flags_clear; eapply Hclear; intros Hb;
        apply in_triggered_flags; rewrite Hb; tauto.
    + intros Hk. apply (Hno "REJECT: No Collateral").
      apply in_triggered_flags. tauto.
  - intros [-> Hk]. apply String.eqb_neq in Hk.
    rewrite triggered_flags_concat, Hk. reflexivity.
Qed.

(** X6. The triggered-flag list is empty exactly when no flag is set and
    the collateral type is not "None"; the recommendation then depends on
    the total score alone: "REJECT" up to 54, "APPROVE WITH CONDITIONS –
    BRANCH MANAGER" above 54 and up to 69, "APPROVE" above 69. *)
Theorem no_message_score_decides (libm_pow : Q -> Q -> Q) (i : ApplicationInput)
    (l : PolicyConfig) (s : gmap string Q) (run : Run) :
  calculate_scorecard_run libm_pow i l s = Ok run ->
  let f := run_flags run in
  let r := run_result run in
  (triggered_flags r = [] <-> f = NO_FLAGS /\ collateral_type i <> "None")
  /\ (triggered_flags r = [] ->
      (total_score r <= 54 -> recommendation r = "REJECT")
      /\ (54 < total_score r <= 69 ->
          recommendation r = "APPROVE WITH CONDITIONS – BRANCH MANAGER")
      /\ (69 < total_score r -> recommendation r = "APPROVE")).
Proof.
  intros H. apply run_has_shape in H. cbv zeta.
  rewrite (shape_messages _ _ _ _ _ H), (shape_recommendation _ _ _ _ _ H).
  split; [apply no_messages_iff|].
  intros Hnil. apply no_messages_iff in Hnil.
  destruct (recommendation_table i (run_flags run) (total_score (run_result run)))
    as (Hrej & _ & Hcond & Happ).
  pose proof (proj1 (clear_flags_iff i (run_flags run)) Hnil) as (Hh & Hr & He & Ht).
  repeat split.
  - intros Hle. apply Hrej. tauto.
  - intros [Hlo Hhi]. apply Hcond. tauto.
  - intros Hhi. apply Happ. tauto.
Qed.

Lemma no_message_score_decides_witness :
  exists run,
    calculate_scorecard_run libm_unused scenario_approved DEFAULT_LOOKUP_VALUES
      DEFAULT_SECTOR_STRESS = Ok run
    /\ triggered_flags (run_result run) = []
    /\ total_score (run_result run) == 85
    /\ recommendation (run_result run) = "APPROVE".
Proof.
  eexists. split; [vm_compute; reflexivity|]. split; [reflexivity|].
  split; [reflexivity|].
  apply (no_message_score_decides libm_unused scenario_approved
           DEFAULT_LOOKUP_VALUES DEFAULT_SECTOR_STRESS);
    [vm_compute; reflexivity | reflexivity | reflexivity].
Defined.

(** X7. A message that starts with "REJECT:" is in the triggered-flag list
    exactly when a hard stop holds, and then the recommendation is "REJECT";
    a "REJECT" recommendation with no such message comes from a total score
    of at most 54. *)
Theorem reject_message_exactly (libm_pow : Q -> Q -> Q) (i : ApplicationInput)
    (l : PolicyConfig) (s : gmap string Q) (run : Run) :
  calculate_scorecard_run libm_pow i l s = Ok run ->
  let f := run_flags run in
  let r := run_result run in
  let rejecting :=
    exists m, In m (triggered_flags r) /\ String.prefix "REJECT:" m = true in
  (rejecting <-> hard_stop i f)
  /\ (rejecting -> recommendation r = "REJECT")
  /\ (recommendation r = "REJECT" -> ~ rejecting -> total_score r <= 54).
Proof.
  intros H. apply run_has_shape in H. cbv zeta.
  rewrite (shape_messages _ _ _ _ _ H), (shape_recommendation _ _ _ _ _ H).
  destruct (recommendation_table i (run_flags run) (total_score (run_result run)))
    as (Hrej & _).
  assert (Hiff : (exists m, In m (triggered_flags_of i (run_flags run))
                            /\ String.prefix "REJECT:" m = true)
                 <-> hard_stop i (run_flags run)).
  { unfold hard_stop. split.
    - intros (m & Hin & Hpre). apply in_triggered_flags in Hin.
      repeat (destruct Hin as [[Hc ->]|Hin]; [first [discriminate Hpre | tauto]|]).
      destruct Hin as [Hc ->]. tauto.
    - intros Hstop.
      repeat (destruct Hstop as [Hc|Hstop];
              [eexists; split; [apply in_triggered_flags; rewrite Hc; tauto
                               | reflexivity]|]).
      eexists; split; [apply in_triggered_flags; rewrite Hstop; tauto | reflexivity]. }
  split; [exact Hiff|]. split.
  - intros Hm. apply Hrej. left. apply Hiff, Hm.
  - intros Hr Hno. apply Hrej in Hr. destruct Hr as [Hs|Hle]; [|exact Hle].
    exfalso. apply Hno, Hiff, Hs.
Qed.

Lemma reject_message_exactly_witness :
  exists run,
    calculate_scorecard_run libm_unused scenario_A DEFAULT_LOOKUP_VALUES
      DEFAULT_SECTOR_STRESS = Ok run
    /\ hard_stop scenario_A (run_flags run)
    /\ exists m, In m (triggered_flags (run_result run))
                 /\ String.prefix "REJECT:" m = true.
Proof.
  eexists. split; [vm_compute; reflexivity|].
  assert (Hs : hard_stop scenario_A
                 {| Age_Flag := false; CFDeficit_Flag := true;
                    Income_Var_Flag := false; Equity_Flag := false;
                    Training_Flag := false; LTV_Flag := false;
                    Collateral_Flag := false; Branch_Limit_Flag := false;
                    Loan_Max_Flag := false; Default_Flag := false |}).
  { right. left. reflexivity. }
  split; [exact Hs|].
  apply (reject_message_exactly libm_unused scenario_A DEFAULT_LOOKUP_VALUES
           DEFAULT_SECTOR_STRESS); [vm_compute; reflexivity | exact Hs].
Defined.

(** ** Flags and derived metrics in terms of the inputs *)

Lemma py_min_le_r (a b : Q) : py_min a b <= b.
Proof. unfold py_min. py_case; py_props; lra. Qed.

Lemma py_min_zero (cap : Q) : 0 <= cap -> py_min cap 0 == 0.
Proof. intros H. unfold py_min. py_case; py_props; lra. Qed.

Lemma repayment_share_value (m s v : option Q) :
  repayment_share_of m s = Ok v ->
  v = match m, s with
      | Some m, Some s => if py_le s 0 then Some 1 else Some (m / s)
      | _, _ => None
      end.
Proof.
  destruct m as [m|], s as [s|]; simpl; try congruence.
  destruct (py_le s 0) eqn:E; [congruence|].
  rewrite py_div_ok by (apply py_eq_false; py_props; lra). simpl. congruence.
Qed.

Lemma income_variance_value (i : ApplicationInput) (v : option Q) :
  income_variance_of i = Ok v ->
  v = match stated_revenue i, verified_revenue i with
      | Some st, Some vr => if py_eq vr 0 then None else Some (Qabs (st - vr) / vr)
      | _, _ => None
      end.
Proof.
  unfold income_variance_of.
  destruct (stated_revenue i), (verified_revenue i) as [vr|]; try congruence.
  destruct (py_eq vr 0) eqn:E; [congruence|].
  rewrite (py_div_ok _ _ E). simpl. congruence.
Qed.

Lemma equity_ratio_value (i : ApplicationInput) (v : option Q) :
  equity_ratio_of i = Ok v ->
  v = match requested_loan_amount i, total_capital i, additional_savings_equity i with
      | Some a, Some c, Some e => if py_eq a 0 then None else Some ((c + e) / a)
      | _, _, _ => None
      end.
Proof.
  unfold equity_ratio_of.
  destruct (requested_loan_amount i) as [a|], (total_capital i),
    (additional_savings_equity i); try congruence.
  destruct (py_eq a 0) eqn:E; simpl; [congruence|].
  rewrite (py_div_ok _ _ E). simpl. congruence.
Qed.

Lemma ltv_value (i : ApplicationInput) (hc : Q) (v : option Q) :
  ltv_of i hc = Ok v ->
  v = match requested_loan_amount i, market_value i with
      | Some a, Some m =>
          if py_truthy (collateral_type i) then
            if collateral_type i =? "None" then Some 99
            else if py_eq (m * (1 - hc)) 0 then None
                 else Some (a / (m * (1 - hc)))
          else None
      | _, _ => None
      end.
Proof.
  unfold ltv_of.
  destruct (requested_loan_amount i), (market_value i); try congruence.
  destruct (py_truthy (collateral_type i)); [|congruence].
  destruct (collateral_type i =? "None"); [congruence|].
  apply safe_divide_value.
Qed.

(** X8. When the months in business are unknown or below
    BUSINESS_AGE_MIN, the business-age flag is set, the recommendation is
    "REJECT" and "REJECT: Business less than 6 months" is the first
    triggered-flag message. *)
Theorem young_business_rejected (libm_pow : Q -> Q -> Q) (i : ApplicationInput)
    (l : PolicyConfig) (s : gmap string Q) (run : Run) :
  calculate_scorecard_run libm_pow i l s = Ok run ->
  (years_in_business_months i = None
   \/ exists y, years_in_business_months i = Some y /\ y < BUSINESS_AGE_MIN l) ->
  Age_Flag (run_flags run) = true
  /\ recommendation (run_result run) = "REJECT"
  /\ head (triggered_flags (run_result run))
     = Some "REJECT: Business less than 6 months".
Proof.
  intros H Hage. apply run_has_shape in H.
  assert (Hflag : Age_Flag (run_flags run) = true).
  { rewrite (shape_flags _ _ _ _ _ H). unfold flags_of. cbn.
    destruct Hage as [->|(y & -> & Hy)]; [reflexivity|].
    apply py_lt_true, Hy. }
  split; [exact Hflag|]. split.
  - rewrite (shape_recommendation _ _ _ _ _ H).
    apply recommendation_table. left. left. exact Hflag.
  - rewrite (shape_messages _ _ _ _ _ H), triggered_flags_concat, Hflag.
    reflexivity.
Qed.

Lemma young_business_rejected_witness :
  exists run,
    calculate_scorecard_run libm_unused (blank_application (mkDate 2024 1 1))
      DEFAULT_LOOKUP_VALUES DEFAULT_SECTOR_STRESS = Ok run
    /\ recommendation (run_result run) = "REJECT".
Proof.
  eexists. split; [vm_compute; reflexivity|].
  apply (young_business_rejected libm_unused (blank_application (mkDate 2024 1 1))
           DEFAULT_LOOKUP_VALUES DEFAULT_SECTOR_STRESS);
    [vm_compute; reflexivity | left; reflexivity].
Defined.





(** X11. When the verified revenue, the cost of goods or one of the five
    operating-expense lines is absent, the unstressed and stressed business
    surplus, both total monthly surpluses, both coverage ratios and the
    repayment share are null, the cash-flow-deficit flag is not set, and
    with a non-negative capacity cap the capacity score is 0. *)
Theorem missing_cash_flow_line (libm_pow : Q -> Q -> Q) (i : ApplicationInput)
    (l : PolicyConfig) (s : gmap string Q) (run : Run) :
  calculate_scorecard_run libm_pow i l s = Ok run ->
  verified_revenue i = None \/ cogs_inventory i = None \/ rent i = None
  \/ utilities i = None \/ wages i = None \/ transport i = None
  \/ other_operating_costs i = None ->
  let r := run_result run in
  business_surplus_unstressed r = None
  /\ business_surplus_stressed r = None
  /\ total_monthly_surplus_unstressed r = None
  /\ total_monthly_surplus_stressed r = None
  /\ dscr r = None
  /\ stressed_dscr r = None
  /\ repayment_share r = None
  /\ CFDeficit_Flag (run_flags run) = false
  /\ (0 <= W_CAPACITY l -> score_capacity r == 0).
Proof.
  intros H Hmiss. apply run_has_shape in H. cbv zeta.
  assert (Hu : business_surplus_unstressed (run_result run) = None).
  { rewrite (shape_surplus_u _ _ _ _ _ H), (shape_opex _ _ _ _ _ H).
    unfold business_surplus_unstressed_of.
    destruct Hmiss as [Hv|[Hc|Hop]].
    - rewrite Hv. reflexivity.
    - rewrite Hc. destruct (verified_revenue i); reflexivity.
    - assert (total_operating_expenses_of i = None) as ->.
      { unfold total_operating_expenses_of.
        destruct (rent i), (utilities i), (wages i), (transport i),
          (other_operating_costs i); try reflexivity;
          exfalso; intuition discriminate. }
      destruct (verified_revenue i), (cogs_inventory i); reflexivity. }
  assert (Hs : business_surplus_stressed (run_result run) = None).
  { rewrite (shape_surplus_s _ _ _ _ _ H), Hu. reflexivity. }
  assert (Htu : total_monthly_surplus_unstressed (run_result run) = None).
  { rewrite (shape_total_u _ _ _ _ _ H), Hu. reflexivity. }
  assert (Hts : total_monthly_surplus_stressed (run_result run) = None).
  { rewrite (shape_total_s _ _ _ _ _ H), Hs. reflexivity. }
  assert (Hd : dscr (run_result run) = None).
  { pose proof (safe_divide_value _ _ _ (shape_dscr _ _ _ _ _ H)) as E.
    rewrite Hu in E. exact E. }
  assert (Hsd : stressed_dscr (run_result run) = None).
  { pose proof (safe_divide_value _ _ _ (shape_stressed_dscr _ _ _ _ _ H)) as E.
    rewrite Hts in E. exact E. }
  assert (Hsh : repayment_share (run_result run) = None).
  { pose proof (repayment_share_value _ _ _ (shape_share _ _ _ _ _ H)) as E.
    rewrite Htu in E. destruct (monthly_installment_used (run_result run)); exact E. }
  repeat split; try assumption.
  - rewrite (shape_flags _ _ _ _ _ H), Htu. reflexivity.
  - intros Hw. rewrite (shape_capacity _ _ _ _ _ H), Hsd.
    apply py_min_zero, Hw.
Qed.

Lemma missing_cash_flow_line_witness :
  exists run,
    calculate_scorecard_run libm_unused (blank_application (mkDate 2024 1 1))
      DEFAULT_LOOKUP_VALUES DEFAULT_SECTOR_STRESS = Ok run
    /\ stressed_dscr (run_result run) = None
    /\ CFDeficit_Flag (run_flags run) = false.
Proof.
  eexists. split; [vm_compute; reflexivity|].
  pose proof (missing_cash_flow_line libm_unused
                (blank_application (mkDate 2024 1 1)) DEFAULT_LOOKUP_VALUES
                DEFAULT_SECTOR_STRESS _ ltac:(vm_compute; reflexivity)
                ltac:(left; reflexivity)) as H.
  split; apply H.
Defined.

(** X12. When the sector is empty or has no entry in [sector_stress], the
    stress factor, the stressed business surplus, the stressed total
    surplus and the stressed DSCR are null, and with a non-negative
    capacity cap the capacity score is 0 whatever the cash flow. *)
Theorem unmapped_sector_no_capacity (libm_pow : Q -> Q -> Q) (i : ApplicationInput)
    (l : PolicyConfig) (s : gmap string Q) (run : Run) :
  calculate_scorecard_run libm_pow i l s = Ok run ->
  sector i = "" \/ s !! sector i = None ->
  let r := run_result run in
  stress_factor r = None
  /\ business_surplus_stressed r = None
  /\ total_monthly_surplus_stressed r = None
  /\ stressed_dscr r = None
  /\ (0 <= W_CAPACITY l -> score_capacity r == 0).
Proof.
  intros H Hsec. apply run_has_shape in H. cbv zeta.
  assert (Hf : stress_factor (run_result run) = None).
  { rewrite (shape_stress_factor _ _ _ _ _ H). unfold stress_factor_of.
    destruct Hsec as [->| ->]; [reflexivity|].
    destruct (py_truthy (sector i)); reflexivity. }
  assert (Hs : business_surplus_stressed (run_result run) = None).
  { rewrite (shape_surplus_s _ _ _ _ _ H), Hf.
    destruct (business_surplus_unstressed (run_result run)); reflexivity. }
  assert (Hts : total_monthly_surplus_stressed (run_result run) = None).
  { rewrite (shape_total_s _ _ _ _ _ H), Hs. reflexivity. }
  assert (Hsd : stressed_dscr (run_result run) = None).
  { pose proof (safe_divide_value _ _ _ (shape_stressed_dscr _ _ _ _ _ H)) as E.
    rewrite Hts in E. exact E. }
  repeat split; try assumption.
  intros Hw. rewrite (shape_capacity _ _ _ _ _ H), Hsd. apply py_min_zero, Hw.
Qed.

Lemma unmapped_sector_no_capacity_witness :
  exists run,
    calculate_scorecard_run libm_unused scenario_approved DEFAULT_LOOKUP_VALUES
      NO_SECTOR_STRESS = Ok run
    /\ stressed_dscr (run_result run) = None
    /\ score_capacity (run_result run) == 0.
Proof.
  eexists. split; [vm_compute; reflexivity|].
  pose proof (unmapped_sector_no_capacity libm_unused scenario_approved
                DEFAULT_LOOKUP_VALUES NO_SECTOR_STRESS _
                ltac:(vm_compute; reflexivity)
                ltac:(right; vm_compute; reflexivity)) as H.
  split; [apply H|]. apply H. vm_compute. discriminate.
Defined.

Lemma haircut_cases (i : ApplicationInput) :
  (collateral_type i = "Movable" /\ haircut_of i = 0.5)
  \/ (collateral_type i = "Immovable" /\ haircut_of i = 0.3)
  \/ (collateral_type i <> "Movable" /\ collateral_type i <> "Immovable"
      /\ haircut_of i = 0).
Proof.
  unfold haircut_of.
  destruct (collateral_type i =? "Movable") eqn:Em.
  { apply String.eqb_eq in Em. auto. }
  destruct (collateral_type i =? "Immovable") eqn:Ei.
  { apply String.eqb_eq in Ei. auto. }
  apply String.eqb_neq in Em, Ei. auto.
Qed.

(** X13. With the requested amount and the market value present, the loan
    to value is: amount / (0.5 * value) for movable collateral,
    amount / (0.7 * value) for immovable collateral, amount / value for any
    other non-empty type than "None", and null for an empty type; in the
    three computed cases it is null when the market value is 0. *)
Theorem ltv_by_collateral_type (libm_pow : Q -> Q -> Q) (i : ApplicationInput)
    (l : PolicyConfig) (s : gmap string Q) (run : Run) (amount value : Q) :
  calculate_scorecard_run libm_pow i l s = Ok run ->
  requested_loan_amount i = Some amount ->
  market_value i = Some value ->
  let r := run_result run in
  (collateral_type i = "" -> ltv r = None)
  /\ (collateral_type i <> "" -> collateral_type i <> "None" ->
      value == 0 -> ltv r = None)
  /\ (collateral_type i = "Movable" -> ~ value == 0 ->
      ltv r =?= Some (amount / (0.5 * value)))
  /\ (collateral_type i = "Immovable" -> ~ value == 0 ->
      ltv r =?= Some (amount / (0.7 * value)))
  /\ (collateral_type i <> "" -> collateral_type i <> "None" ->
      collateral_type i <> "Movable" -> collateral_type i <> "Immovable" ->
      ~ value == 0 -> ltv r =?= Some (amount / value)).
Proof.
  intros H Ha Hv. apply run_has_shape in H. cbv zeta.
  pose proof (ltv_value _ _ _ (shape_ltv _ _ _ _ _ H)) as E.
  rewrite Ha, Hv, (shape_haircut _ _ _ _ _ H) in E. rewrite E. clear E.
  unfold py_truthy.
  split; [intros ->; reflexivity|].
  set (computed := if negb (collateral_type i =? "") then _ else _).
  assert (Hcase : forall hc, haircut_of i = hc -> ~ 1 - hc == 0 ->
            collateral_type i <> "" -> collateral_type i <> "None" ->
            (value == 0 -> computed = None)
            /\ (forall x, x == amount / ((1 - hc) * value) ->
                          ~ value == 0 -> computed =?= Some x)).
  { intros hc Hhc Hne He Hn. subst computed.
    apply String.eqb_neq in He, Hn. rewrite He, Hn, Hhc. simpl negb. cbv iota.
    split.
    - intros Hz.
      assert (Hp : py_eq (value * (1 - hc)) 0 = true).
      { apply py_eq_true. rewrite Hz. ring. }
      rewrite Hp. reflexivity.
    - intros x Hx Hz.
      assert (Hp : py_eq (value * (1 - hc)) 0 = false).
      { apply py_eq_false. intros Hm.
        apply Qmult_integral in Hm. tauto. }
      rewrite Hp. simpl. rewrite Hx. field. split; assumption. }
  clearbody computed.
  destruct (haircut_cases i) as [[Hk Hh]|[[Hk Hh]|(Hm & Hi & Hh)]].
  - destruct (Hcase _ Hh) as [Hzero Hval];
      [lra | rewrite Hk; discriminate | rewrite Hk; discriminate |].
    split; [intros _ _; exact Hzero|].
    split; [intros _ Hz; apply Hval; [field; exact Hz | exact Hz]|].
    split; [intros Hk'; rewrite Hk in Hk'; discriminate | tauto].
  - destruct (Hcase _ Hh) as [Hzero Hval];
      [lra | rewrite Hk; discriminate | rewrite Hk; discriminate |].
    split; [intros _ _; exact Hzero|].
    split; [intros Hk'; rewrite Hk in Hk'; discriminate|].
    split; [intros _ Hz; apply Hval; [field; exact Hz | exact Hz] | tauto].
  - split; [intros He Hn; apply (Hcase _ Hh); [lra | assumption..]|].
    split; [tauto|]. split; [tauto|].
    intros He Hn _ _ Hz.
    destruct (Hcase _ Hh) as [_ Hval]; [lra | assumption..|].
    apply Hval; [field; exact Hz | exact Hz].
Qed.

Lemma ltv_by_collateral_type_witness :
  exists run,
    calculate_scorecard_run libm_unused scenario_A DEFAULT_LOOKUP_VALUES
      DEFAULT_SECTOR_STRESS = Ok run
    /\ ltv (run_result run) =?= Some (50000 / (0.5 * 150000)).
Proof.
  eexists. split; [vm_compute; reflexivity|].
  pose proof (ltv_by_collateral_type libm_unused scenario_A DEFAULT_LOOKUP_VALUES
                DEFAULT_SECTOR_STRESS _ 50000 150000
                ltac:(vm_compute; reflexivity) eq_refl eq_refl) as H.
  destruct H as (_ & _ & H & _). apply H; [reflexivity | vm_compute; discriminate].
Defined.

(** X14. For a collateral type other than "Movable", "Immovable" and
    "None" (the empty answer included) the haircut is 0, the LTV flag is
    never set and the collateral score is at most 0. *)
Theorem unrecognized_collateral_type (libm_pow : Q -> Q -> Q) (i : ApplicationInput)
    (l : PolicyConfig) (s : gmap string Q) (run : Run) :
  calculate_scorecard_run libm_pow i l s = Ok run ->
  collateral_type i <> "Movable" -> collateral_type i <> "Immovable" ->
  collateral_type i <> "None" ->
  haircut (run_result run) = 0
  /\ LTV_Flag (run_flags run) = false
  /\ score_collateral (run_result run) <= 0.
Proof.
  intros H Hm Hi Hn. apply run_has_shape in H.
  apply String.eqb_neq in Hm, Hi, Hn.
  split; [|split].
  - rewrite (shape_haircut _ _ _ _ _ H). unfold haircut_of. rewrite Hm, Hi.
    reflexivity.
  - rewrite (shape_flags _ _ _ _ _ H). unfold flags_of. cbn [LTV_Flag].
    rewrite Hm, Hi. destruct (ltv (run_result run)); reflexivity.
  - rewrite (shape_collateral _ _ _ _ _ H). unfold score_collateral_of. cbv zeta.
    rewrite Hm, Hi, Hn. simpl.
    eapply Qle_trans; [apply py_min_le_r|].
    destruct (ltv (run_result run)), (collateral_insured i =? "No"); lra.
Qed.

Lemma unrecognized_collateral_type_witness :
  exists run,
    calculate_scorecard_run libm_unused (blank_application (mkDate 2024 1 1))
      DEFAULT_LOOKUP_VALUES DEFAULT_SECTOR_STRESS = Ok run
    /\ LTV_Flag (run_flags run) = false
    /\ score_collateral (run_result run) <= 0.
Proof.
  eexists. split; [vm_compute; reflexivity|].
  apply (unrecognized_collateral_type libm_unused
           (blank_application (mkDate 2024 1 1)) DEFAULT_LOOKUP_VALUES
           DEFAULT_SECTOR_STRESS); [vm_compute; reflexivity | discriminate..].
Defined.



(** X16. With both LTV maxima at least 1, a set LTV flag means a
    collateral score of at most 0: the flag and the LTV tiers of the
    collateral score never reward the same application. *)
Theorem ltv_flag_scores_nothing (libm_pow : Q -> Q -> Q) (i : ApplicationInput)
    (l : PolicyConfig) (s : gmap string Q) (run : Run) :
  calculate_scorecard_run libm_pow i l s = Ok run ->
  1 <= LTV_MAX_MOVABLE l -> 1 <= LTV_MAX_IMMOVABLE l ->
  LTV_Flag (run_flags run) = true ->
  score_collateral (run_result run) <= 0.
Proof.
  intros H Hm Hi. apply run_has_shape in H.
  rewrite (shape_flags _ _ _ _ _ H), (shape_collateral _ _ _ _ _ H).
  unfold flags_of, score_collateral_of. cbn [LTV_Flag]. cbv zeta.
  destruct (ltv (run_result run)) as [v|]; [|discriminate].
  intros Hflag. eapply Qle_trans; [apply py_min_le_r|].
  destruct (collateral_type i =? "Movable") eqn:Ekm.
  - apply String.eqb_eq in Ekm. rewrite Ekm in *. simpl in *.
    rewrite orb_false_r in Hflag. unfold py_gt in Hflag. py_props.
    assert (H1 : py_le v 1 = false) by (apply py_le_false; lra).
    assert (H2 : py_le v (LTV_MAX_MOVABLE l) = false) by (apply py_le_false; lra).
    rewrite H1, H2. simpl. destruct (collateral_insured i =? "No"); lra.
  - destruct (collateral_type i =? "Immovable") eqn:Eki; [|discriminate].
    apply String.eqb_eq in Eki. rewrite Eki in *. simpl in *.
    unfold py_gt in Hflag. py_props.
    assert (H1 : py_le v 1 = false) by (apply py_le_false; lra).
    assert (H2 : py_le v (LTV_MAX_IMMOVABLE l) = false) by (apply py_le_false; lra).
    rewrite H1, H2. simpl. destruct (collateral_insured i =? "No"); lra.
Qed.

Lemma ltv_flag_scores_nothing_witness :
  exists run,
    calculate_scorecard_run libm_unused scenario_uninsured DEFAULT_LOOKUP_VALUES
      DEFAULT_SECTOR_STRESS = Ok run
    /\ LTV_Flag (run_flags run) = true
    /\ score_collateral (run_result run) <= 0.
Proof.
  eexists. split; [vm_compute; reflexivity|]. split; [reflexivity|].
  apply (ltv_flag_scores_nothing libm_unused scenario_uninsured
           DEFAULT_LOOKUP_VALUES DEFAULT_SECTOR_STRESS);
    [vm_compute; reflexivity | vm_compute; discriminate
     | vm_compute; discriminate | reflexivity].
Defined.

(** X17. When the requested amount is 0: the equity ratio is null, the
    equity flag is not set, with a non-negative capital cap the capital
    score is 0, and a loan to value computed from a market value is 0, so
    that the collateral coverage is null. *)
Theorem zero_amount_edge (libm_pow : Q -> Q -> Q) (i : ApplicationInput)
    (l : PolicyConfig) (s : gmap string Q) (run : Run) (amount : Q) :
  calculate_scorecard_run libm_pow i l s = Ok run ->
  requested_loan_amount i = Some amount -> amount == 0 ->
  let r := run_result run in
  equity_ratio r = None
  /\ Equity_Flag (run_flags run) = false
  /\ (0 <= W_CAPITAL l -> score_capital r == 0)
  /\ (collateral_type i <> "None" ->
      forall v, ltv r = Some v -> v == 0 /\ collateral_coverage r = None).
Proof.
  intros H Ha Hz. apply run_has_shape in H. cbv zeta.
  assert (He : equity_ratio (run_result run) = None).
  { rewrite (equity_ratio_value _ _ (shape_equity _ _ _ _ _ H)), Ha.
    apply py_eq_true in Hz. rewrite Hz.
    destruct (total_capital i), (additional_savings_equity i); reflexivity. }
  split; [exact He|]. split; [|split].
  - rewrite (shape_flags _ _ _ _ _ H), He. reflexivity.
  - intros Hw. rewrite (shape_capital _ _ _ _ _ H), He. apply py_min_zero, Hw.
  - intros Hn v Hv.
    pose proof (ltv_value _ _ _ (shape_ltv _ _ _ _ _ H)) as E.
    rewrite Ha, Hv in E. apply String.eqb_neq in Hn. rewrite Hn in E.
    assert (Hv0 : v == 0).
    { destruct (market_value i) as [m|]; [|discriminate].
      destruct (py_truthy (collateral_type i)); [|discriminate].
      destruct (py_eq (m * (1 - haircut (run_result run))) 0) eqn:Hnz;
        [discriminate|].
      injection E as ->. unfold Qdiv. rewrite Hz. ring. }
    split; [exact Hv0|].
    rewrite (safe_divide_value _ _ _ (shape_coverage _ _ _ _ _ H)), Hv.
    apply py_eq_true in Hv0. rewrite Hv0. reflexivity.
Qed.

Lemma zero_amount_edge_witness :
  exists run,
    calculate_scorecard_run libm_unused scenario_zero_amount DEFAULT_LOOKUP_VALUES
      DEFAULT_SECTOR_STRESS = Ok run
    /\ equity_ratio (run_result run) = None
    /\ collateral_coverage (run_result run) = None.
Proof.
  eexists. split; [vm_compute; reflexivity|].
  pose proof (zero_amount_edge libm_unused scenario_zero_amount
                DEFAULT_LOOKUP_VALUES DEFAULT_SECTOR_STRESS _ 0
                ltac:(vm_compute; reflexivity) eq_refl ltac:(reflexivity)) as H.
  destruct H as (H1 & _ & _ & H2). split; [exact H1|].
  apply (H2 ltac:(discriminate) (0 # 750000)). reflexivity.
Defined.

(** ** The category scores as functions of the ratios *)

Lemma py_min_mono (cap a b : Q) : a <= b -> py_min cap a <= py_min cap b.
Proof. intros H. unfold py_min. repeat py_case; py_props; lra. Qed.

(** X18. Under one policy, a higher stressed DSCR never gives a lower
    capacity score and a higher equity ratio never gives a lower capital
    score, whatever DSCR_TARGET and EQUITY_MIN_RATIO are. *)
Theorem ratio_tiers_monotone (libm_pow : Q -> Q -> Q) (i1 i2 : ApplicationInput)
    (l : PolicyConfig) (s1 s2 : gmap string Q) (run1 run2 : Run) :
  calculate_scorecard_run libm_pow i1 l s1 = Ok run1 ->
  calculate_scorecard_run libm_pow i2 l s2 = Ok run2 ->
  let r1 := run_result run1 in
  let r2 := run_result run2 in
  (forall d1 d2, stressed_dscr r1 = Some d1 -> stressed_dscr r2 = Some d2 ->
                 d1 <= d2 -> score_capacity r1 <= score_capacity r2)
  /\ (forall e1 e2, equity_ratio r1 = Some e1 -> equity_ratio r2 = Some e2 ->
                    e1 <= e2 -> score_capital r1 <= score_capital r2).
Proof.
  intros H1 H2. apply run_has_shape in H1, H2. cbv zeta. split.
  - intros d1 d2 E1 E2 Hle.
    rewrite (shape_capacity _ _ _ _ _ H1), (shape_capacity _ _ _ _ _ H2), E1, E2.
    unfold score_capacity_of. cbv zeta. apply py_min_mono.
    unfold py_ge. repeat py_case; py_props; lra.
  - intros e1 e2 E1 E2 Hle.
    rewrite (shape_capital _ _ _ _ _ H1), (shape_capital _ _ _ _ _ H2), E1, E2.
    unfold score_capital_of. cbv zeta. apply py_min_mono.
    unfold py_ge. repeat py_case; py_props; lra.
Qed.

Lemma ratio_tiers_monotone_witness :
  exists run1 run2,
    calculate_scorecard_run libm_unused scenario_A DEFAULT_LOOKUP_VALUES
      DEFAULT_SECTOR_STRESS = Ok run1
    /\ calculate_scorecard_run libm_unused scenario_approved DEFAULT_LOOKUP_VALUES
         DEFAULT_SECTOR_STRESS = Ok run2
    /\ score_capacity (run_result run1) <= score_capacity (run_result run2).
Proof.
  eexists. eexists. split; [vm_compute; reflexivity|].
  split; [vm_compute; reflexivity|].
  eapply (proj1 (ratio_tiers_monotone libm_unused scenario_A scenario_approved
                   DEFAULT_LOOKUP_VALUES DEFAULT_SECTOR_STRESS DEFAULT_SECTOR_STRESS
                   _ _ ltac:(vm_compute; reflexivity)
                   ltac:(vm_compute; reflexivity)));
    [reflexivity | reflexivity | vm_compute; discriminate].
Defined.

(** X19. Under one policy, for the same collateral type and insurance
    answer, a higher loan to value never gives a higher collateral score,
    whatever the two maxima are. *)
Theorem collateral_score_antitone (libm_pow : Q -> Q -> Q)
    (i1 i2 : ApplicationInput) (l : PolicyConfig) (s1 s2 : gmap string Q)
    (run1 run2 : Run) (v1 v2 : Q) :
  calculate_scorecard_run libm_pow i1 l s1 = Ok run1 ->
  calculate_scorecard_run libm_pow i2 l s2 = Ok run2 ->
  collateral_type i1 = collateral_type i2 ->
  collateral_insured i1 = collateral_insured i2 ->
  ltv (run_result run1) = Some v1 -> ltv (run_result run2) = Some v2 ->
  v1 <= v2 ->
  score_collateral (run_result run2) <= score_collateral (run_result run1).
Proof.
  intros H1 H2 Hk Hins E1 E2 Hle. apply run_has_shape in H1, H2.
  rewrite (shape_collateral _ _ _ _ _ H1), (shape_collateral _ _ _ _ _ H2), E1, E2.
  unfold score_collateral_of. cbv zeta. rewrite Hk, Hins. apply py_min_mono.
  destruct (collateral_type i2 =? "None"); [lra|].
  destruct (py_le v1 1) eqn:?, (py_le v2 1) eqn:?,
    (py_le v1 (LTV_MAX_MOVABLE l)) eqn:?, (py_le v2 (LTV_MAX_MOVABLE l)) eqn:?,
    (py_le v1 (LTV_MAX_IMMOVABLE l)) eqn:?, (py_le v2 (LTV_MAX_IMMOVABLE l)) eqn:?;
    py_props; try lra;
    destruct (collateral_type i2 =? "Movable"),
      (collateral_type i2 =? "Immovable"), (collateral_insured i2 =? "No");
    simpl; lra.
Qed.

Lemma collateral_score_antitone_witness :
  exists run1 run2,
    calculate_scorecard_run libm_unused scenario_referred DEFAULT_LOOKUP_VALUES
      DEFAULT_SECTOR_STRESS = Ok run1
    /\ calculate_scorecard_run libm_unused scenario_uninsured DEFAULT_LOOKUP_VALUES
         DEFAULT_SECTOR_STRESS = Ok run2
    /\ score_collateral (run_result run2) <= score_collateral (run_result run1).
Proof.
  eexists. eexists. split; [vm_compute; reflexivity|].
  split; [vm_compute; reflexivity|].
  eapply (collateral_score_antitone libm_unused scenario_referred
            scenario_uninsured DEFAULT_LOOKUP_VALUES DEFAULT_SECTOR_STRESS
            DEFAULT_SECTOR_STRESS _ _ _ _
            ltac:(vm_compute; reflexivity) ltac:(vm_compute; reflexivity));
    [reflexivity | reflexivity | reflexivity | reflexivity
     | vm_compute; discriminate].
Defined.

Lemma sector_score_at_most_3 (k : string) : default 0 (SECTOR_SCORE !! k) <= 3.
Proof.
  assert (H : map_Forall (fun _ v => v <= 3) SECTOR_SCORE).
  { unfold SECTOR_SCORE. cbn [list_to_map foldr uncurry fst snd].
    repeat (apply map_Forall_insert_2; [lra|]).
    apply map_Forall_empty. }
  destruct (SECTOR_SCORE !! k) as [v|] eqn:E; simpl; [|lra].
  exact (H k v E).
Qed.

Lemma capped_at_most (cap raw bound : Q) : raw <= bound -> py_min cap raw <= bound.
Proof. intros H. eapply Qle_trans; [apply py_min_le_r | exact H]. Qed.

(** The points of the Character score before the cap: a whole number
    between 0 and 36. *)
Lemma score_character_points (i : ApplicationInput) (l : PolicyConfig) :
  exists raw : Q,
    score_character_of i l = py_min (W_CHARACTER l) raw
    /\ exists z : Z, raw == inject_Z z /\ (0 <= z <= 36)%Z.
Proof.
  unfold score_character_of. cbv zeta. eexists.
  split; [reflexivity|].
  split_branches;
    match goal with
    | |- exists z : Z, ?e == inject_Z z /\ _ =>
        let v := eval vm_compute in (Qnum e) in
        exists v; split; [reflexivity | lia]
    end.
Qed.

Lemma score_character_at_most_36 (i : ApplicationInput) (l : PolicyConfig) :
  score_character_of i l <= 36.
Proof.
  destruct (score_character_points i l) as (raw & -> & z & Hz & Hb).
  apply capped_at_most. rewrite Hz. change 36 with (inject_Z 36).
  rewrite <- Zle_Qle. lia.
Qed.

Lemma score_conditions_at_most_12 (i : ApplicationInput) (l : PolicyConfig) :
  score_conditions_of i l <= 12.
Proof.
  unfold score_conditions_of. cbv zeta. apply capped_at_most.
  pose proof (sector_score_at_most_3 (sector i)) as Hs.
  revert Hs. generalize (default 0 (SECTOR_SCORE !! sector i)). intros q Hq.
  split_branches; lra.
Qed.

(** X20. Whatever the caps, the Character score is at most 36, Capacity at
    most 34, Capital at most 15, Collateral at most 10 and Conditions at
    most 12; so under a policy whose Character, Capital and Conditions
    caps are at most 30, 10 and 10 (the default ones) the total score never
    exceeds 94. *)
Theorem category_maxima (libm_pow : Q -> Q -> Q) (i : ApplicationInput)
    (l : PolicyConfig) (s : gmap string Q) (run : Run) :
  calculate_scorecard_run libm_pow i l s = Ok run ->
  let r := run_result run in
  score_character r <= 36
  /\ score_capacity r <= 34
  /\ score_capital r <= 15
  /\ score_collateral r <= 10
  /\ score_conditions r <= 12
  /\ (W_CHARACTER l <= 30 -> W_CAPITAL l <= 10 -> W_CONDITION l <= 10 ->
      total_score r <= 94).
Proof.
  intros H. apply run_has_shape in H. cbv zeta.
  assert (Hch : score_character (run_result run) <= 36).
  { rewrite (shape_character _ _ _ _ _ H). apply score_character_at_most_36. }
  assert (Hca : score_capacity (run_result run) <= 34).
  { rewrite (shape_capacity _ _ _ _ _ H). unfold score_capacity_of. cbv zeta.
    apply capped_at_most. split_branches; lra. }
  assert (Hcp : score_capital (run_result run) <= 15).
  { rewrite (shape_capital _ _ _ _ _ H). unfold score_capital_of. cbv zeta.
    apply capped_at_most. split_branches; lra. }
  assert (Hco : score_collateral (run_result run) <= 10).
  { rewrite (shape_collateral _ _ _ _ _ H). unfold score_collateral_of. cbv zeta.
    apply capped_at_most. split_branches; lra. }
  assert (Hcd : score_conditions (run_result run) <= 12).
  { rewrite (shape_conditions _ _ _ _ _ H). apply score_conditions_at_most_12. }
  repeat split; try assumption.
  intros W1 W2 W3.
  assert (Hch' : score_character (run_result run) <= 30).
  { rewrite (shape_character _ _ _ _ _ H). unfold score_character_of. cbv zeta.
    eapply Qle_trans; [apply py_min_le_l | exact W1]. }
  assert (Hcp' : score_capital (run_result run) <= 10).
  { rewrite (shape_capital _ _ _ _ _ H). unfold score_capital_of. cbv zeta.
    eapply Qle_trans; [apply py_min_le_l | exact W2]. }
  assert (Hcd' : score_conditions (run_result run) <= 10).
  { rewrite (shape_conditions _ _ _ _ _ H). unfold score_conditions_of. cbv zeta.
    eapply Qle_trans; [apply py_min_le_l | exact W3]. }
  rewrite (shape_total _ _ _ _ _ H). unfold total_score_of. cbv zeta.
  unfold py_max, py_gt.
  pose proof (py_min_le_r 99
                (score_character (run_result run) + score_capacity (run_result run)
                 + score_capital (run_result run) + score_collateral (run_result run)
                 + score_conditions (run_result run))) as Hsum.
  py_case; py_props; lra.
Qed.

Lemma category_maxima_witness :
  exists run,
    calculate_scorecard_run libm_unused scenario_approved DEFAULT_LOOKUP_VALUES
      DEFAULT_SECTOR_STRESS = Ok run
    /\ score_capacity (run_result run) == 34
    /\ total_score (run_result run) <= 94.
Proof.
  eexists. split; [vm_compute; reflexivity|]. split; [reflexivity|].
  apply (category_maxima libm_unused scenario_approved DEFAULT_LOOKUP_VALUES
           DEFAULT_SECTOR_STRESS);
    [vm_compute; reflexivity | vm_compute; discriminate..].
Defined.

(** *** Whole-number scores *)

Lemma whole_const (z : Z) : is_whole (inject_Z z).
Proof. exists z. reflexivity. Qed.

Lemma whole_plus (a b : Q) : is_whole a -> is_whole b -> is_whole (a + b).
Proof.
  intros [x Hx] [y Hy]. exists (x + y)%Z. rewrite Hx, Hy, inject_Z_plus. reflexivity.
Qed.

Lemma whole_minus (a b : Q) : is_whole a -> is_whole b -> is_whole (a - b).
Proof.
  intros [x Hx] [y Hy]. exists (x - y)%Z.
  rewrite Hx, Hy. unfold Qminus. rewrite <- inject_Z_opp, <- inject_Z_plus.
  reflexivity.
Qed.

Lemma whole_py_min (a b : Q) : is_whole a -> is_whole b -> is_whole (py_min a b).
Proof. intros Ha Hb. unfold py_min. destruct (py_lt b a); assumption. Qed.

Lemma whole_py_max (a b : Q) : is_whole a -> is_whole b -> is_whole (py_max a b).
Proof. intros Ha Hb. unfold py_max. destruct (py_gt b a); assumption. Qed.

(** Whole numbers built from numerals by [+] and [-]. *)
Ltac whole_sum :=
  repeat first
    [ apply whole_minus | apply whole_plus
    | match goal with |- is_whole (Qmake ?n 1) => exact (whole_const n) end
    | assumption ].

Lemma whole_below (t : Q) (n : Z) : is_whole t -> t < inject_Z n -> t <= inject_Z (n - 1).
Proof.
  intros [z Hz] Hlt. rewrite Hz in *. rewrite <- Zlt_Qlt in Hlt.
  rewrite <- Zle_Qle. lia.
Qed.

Lemma whole_above (t : Q) (n : Z) : is_whole t -> inject_Z n < t -> inject_Z (n + 1) <= t.
Proof.
  intros [z Hz] Hlt. rewrite Hz in *. rewrite <- Zlt_Qlt in Hlt.
  rewrite <- Zle_Qle. lia.
Qed.

Lemma sector_score_whole (k : string) : is_whole (default 0 (SECTOR_SCORE !! k)).
Proof.
  assert (H : map_Forall (fun _ v => is_whole v) SECTOR_SCORE).
  { unfold SECTOR_SCORE. cbn [list_to_map foldr uncurry fst snd].
    repeat (apply map_Forall_insert_2; [whole_sum|]).
    apply map_Forall_empty. }
  destruct (SECTOR_SCORE !! k) as [v|] eqn:E; simpl; [|whole_sum].
  exact (H k v E).
Qed.

Lemma score_character_whole (i : ApplicationInput) (l : PolicyConfig) :
  is_whole (W_CHARACTER l) -> is_whole (score_character_of i l).
Proof.
  intros Hw. destruct (score_character_points i l) as (raw & -> & z & Hz & _).
  apply whole_py_min; [exact Hw | exists z; exact Hz].
Qed.

Lemma score_conditions_whole (i : ApplicationInput) (l : PolicyConfig) :
  is_whole (W_CONDITION l) -> is_whole (score_conditions_of i l).
Proof.
  intros Hw. unfold score_conditions_of. cbv zeta. apply whole_py_min; [exact Hw|].
  pose proof (sector_score_whole (sector i)) as Hs.
  revert Hs. generalize (default 0 (SECTOR_SCORE !! sector i)). intros q Hq.
  split_branches; whole_sum.
Qed.

Lemma risk_band_low (t : Q) :
  risk_band t = "High Risk" \/ risk_band t = "Very High Risk" -> t < 55.
Proof.
  unfold risk_band, RISK_BANDS. cbn [risk_band_scan]. unfold py_ge.
  repeat py_case; py_props; intros [E|E]; try discriminate E; lra.
Qed.

Lemma risk_band_high (t : Q) :
  70 <= t -> risk_band t = "Low Risk" \/ risk_band t = "Very Low Risk".
Proof.
  intros Ht. unfold risk_band, RISK_BANDS. cbn [risk_band_scan]. unfold py_ge.
  repeat py_case; py_props; auto; lra.
Qed.

(** X21. When the five caps are whole numbers the total score is a whole
    number, and then the risk band and the recommendation agree: a "High
    Risk" or "Very High Risk" band is always rejected, and an "APPROVE"
    always carries a "Low Risk" or "Very Low Risk" band. *)
Theorem whole_caps_band_agrees (libm_pow : Q -> Q -> Q) (i : ApplicationInput)
    (l : PolicyConfig) (s : gmap string Q) (run : Run) :
  calculate_scorecard_run libm_pow i l s = Ok run ->
  is_whole (W_CHARACTER l) -> is_whole (W_CAPACITY l) -> is_whole (W_CAPITAL l) ->
  is_whole (W_COLLATERAL l) -> is_whole (W_CONDITION l) ->
  let r := run_result run in
  is_whole (total_score r)
  /\ (result_risk_band r = "High Risk" \/ result_risk_band r = "Very High Risk" ->
      recommendation r = "REJECT")
  /\ (recommendation r = "APPROVE" ->
      result_risk_band r = "Low Risk" \/ result_risk_band r = "Very Low Risk").
Proof.
  intros H W1 W2 W3 W4 W5. apply run_has_shape in H. cbv zeta.
  assert (Hwhole : is_whole (total_score (run_result run))).
  { rewrite (shape_total _ _ _ _ _ H). unfold total_score_of. cbv zeta.
    apply whole_py_max; [whole_sum|]. apply whole_py_min; [whole_sum|].
    repeat apply whole_plus.
    - rewrite (shape_character _ _ _ _ _ H). apply score_character_whole, W1.
    - rewrite (shape_capacity _ _ _ _ _ H). unfold score_capacity_of. cbv zeta.
      apply whole_py_min; [exact W2|]. split_branches; whole_sum.
    - rewrite (shape_capital _ _ _ _ _ H). unfold score_capital_of. cbv zeta.
      apply whole_py_min; [exact W3|]. split_branches; whole_sum.
    - rewrite (shape_collateral _ _ _ _ _ H). unfold score_collateral_of. cbv zeta.
      apply whole_py_min; [exact W4|]. split_branches; whole_sum.
    - rewrite (shape_conditions _ _ _ _ _ H). apply score_conditions_whole, W5. }
  split; [exact Hwhole|].
  rewrite (shape_band _ _ _ _ _ H), (shape_recommendation _ _ _ _ _ H).
  destruct (recommendation_table i (run_flags run) (total_score (run_result run)))
    as (Hrej & _ & _ & Happ).
  split.
  - intros Hband. apply risk_band_low in Hband.
    apply Hrej. right. apply (whole_below _ 55 Hwhole Hband).
  - intros Hrec. apply Happ in Hrec. destruct Hrec as (_ & _ & Hgt & _).
    apply risk_band_high. apply (whole_above _ 69 Hwhole Hgt).
Qed.

Lemma whole_caps_band_agrees_witness :
  exists run,
    calculate_scorecard_run libm_unused scenario_A DEFAULT_LOOKUP_VALUES
      DEFAULT_SECTOR_STRESS = Ok run
    /\ result_risk_band (run_result run) = "High Risk"
    /\ recommendation (run_result run) = "REJECT".
Proof.
  eexists. split; [vm_compute; reflexivity|]. split; [reflexivity|].
  apply (whole_caps_band_agrees libm_unused scenario_A DEFAULT_LOOKUP_VALUES
           DEFAULT_SECTOR_STRESS);
    [vm_compute; reflexivity | apply (whole_const 30) | apply (whole_const 39)
     | apply (whole_const 10) | apply (whole_const 10) | apply (whole_const 10)
     | left; reflexivity].
Defined.

(** ** [pmt] in binary64 *)

(** X23. At a monthly rate of at least 2^-52, the installment [pmt]
    returns for a positive principal over whole months is never below one
    month's interest on the principal (the float product rate *
    principal): the balance of the loan never grows. *)
Theorem pmt_covers_interest (libm_pow : Q -> Q -> Q) (rate principal : Q)
    (n : nat) (v : Q) :
  1 # 4503599627370496 <= rate -> 0 < principal ->
  pmt libm_pow rate (inject_Z (Z.of_nat n)) principal = Ok (Some v) ->
  float_mul rate principal <= v.
Proof.
  intros Hrate Hp H.
  destruct n as [|n].
  { unfold pmt in H. destruct (py_eq rate 0); discriminate H. }
  destruct (pmt_regular_value libm_pow rate (inject_Z (Z.of_nat (S n))) principal
              (Z.of_nat (S n)) ltac:(reflexivity) ltac:(lia) Hrate)
    as (d & Hd0 & Hd1 & E).
  rewrite E in H. injection H as <-.
  unfold float_mul.
  assert (Hprod : 0 < rate * principal) by nra.
  pose proof (round64_nonneg (rate * principal) ltac:(lra)) as Hx.
  apply round64_ge_rounded; [exact Hprod|].
  apply Qle_shift_div_l; [lra|].
  set (x := round64 (rate * principal)) in *. nra.
Qed.

Lemma pmt_covers_interest_witness :
  exists v,
    pmt libm_unused (3 # 200) 12 50000 = Ok (Some v)
    /\ float_mul (3 # 200) 50000 <= v.
Proof.
  eexists. split; [vm_compute; reflexivity|].
  apply (pmt_covers_interest libm_unused (3 # 200) 50000 12);
    [vm_compute; discriminate | reflexivity | vm_compute; reflexivity].
Defined.

(** X31. Where the formula cannot be evaluated: at a non-zero monthly rate
    between -2^-54 and 2^-53, [1 + rate] is 1.0 in binary64, so for every
    whole non-zero number of periods the power is 1.0, the divisor 0.0 and
    [pmt] raises [ZeroDivisionError]. *)
Theorem pmt_near_zero_rate_raises (libm_pow : Q -> Q -> Q)
    (rate periods present_value : Q) (k : Z) :
  ~ rate == 0 ->
  - (1 # 18014398509481984) <= rate -> rate <= 1 # 9007199254740992 ->
  periods == inject_Z k -> k <> 0%Z ->
  pmt libm_pow rate periods present_value = Raise ZeroDivisionError.
Proof.
  intros Hr Hlo Hhi Hk Hk0. unfold pmt.
  apply py_eq_false in Hr. rewrite Hr.
  assert (Hp : py_eq periods 0 = false).
  { apply py_eq_false. rewrite Hk. intros E.
    apply (inject_Z_injective k 0) in E. contradiction. }
  rewrite Hp. unfold float_add, float_sub, float_div.
  assert (Hbase : round64 (1 + rate) == 1) by (apply round64_near_one; lra).
  set (base := round64 (1 + rate)) in *.
  rewrite (math_pow_integral libm_pow base (- periods) (- k));
    [|rewrite Hk, inject_Z_opp; reflexivity | rewrite Hbase; discriminate].
  assert (Hpow : base ^ (- k) == 1) by (rewrite Hbase; apply Qpower_1).
  unfold math_range.
  assert (Hrange : overflows64 (base ^ (- k)) = false).
  { unfold overflows64. destruct (Qle_bool _ _) eqn:E; [|reflexivity].
    apply Qle_bool_iff in E. rewrite Qabs_pos in E by lra.
    assert (1 < 2 ^ 1024 - 2 ^ 970) by (vm_compute; reflexivity). lra. }
  rewrite Hrange. cbn [py_bind].
  assert (Hw : round64 (base ^ (- k)) == 1) by (apply round64_near_one; lra).
  assert (Hd : round64 (1 - round64 (base ^ (- k))) = 0).
  { unfold round64 at 1.
    assert (E : Qeq_bool (1 - round64 (base ^ (- k))) 0 = true).
    { apply Qeq_bool_iff. rewrite Hw. reflexivity. }
    rewrite E. reflexivity. }
  rewrite Hd. reflexivity.
Qed.

Lemma pmt_near_zero_rate_raises_witness :
  pmt libm_unused (1 # 1152921504606846976) 12 50000 = Raise ZeroDivisionError.
Proof.
  apply (pmt_near_zero_rate_raises libm_unused (1 # 1152921504606846976) 12 50000 12);
    [discriminate | vm_compute; discriminate | vm_compute; discriminate
    | reflexivity | discriminate].
Defined.

(** ** Exceptions *)

Lemma returns_on_regular_terms_witness :
  exists r,
    calculate_scorecard libm_unused scenario_amortized DEFAULT_LOOKUP_VALUES
      DEFAULT_SECTOR_STRESS = Ok r.
Proof.
  apply (returns_on_regular_terms libm_unused scenario_amortized
           DEFAULT_LOOKUP_VALUES DEFAULT_SECTOR_STRESS).
  right. right. split; [vm_compute; discriminate|].
  exists 12%Z. split; reflexivity.
Defined.

Lemma raises_only_in_pmt_witness :
  exists principal term annual,
    requested_loan_amount scenario_negative_rate = Some principal
    /\ term_months scenario_negative_rate = Some term
    /\ annual_interest_rate scenario_negative_rate = Some annual
    /\ pmt libm_unused (annual / 100 / 12) term principal = Raise ZeroDivisionError.
Proof.
  apply (raises_only_in_pmt libm_unused scenario_negative_rate
           DEFAULT_LOOKUP_VALUES DEFAULT_SECTOR_STRESS ZeroDivisionError).
  vm_compute. reflexivity.
Defined.

(** ** Risk band on any score *)

(** X26. On every score, in or out of [1, 99], [risk_band] answers by the
    four cuts 85, 70, 55 and 40: "Very Low Risk" from 85, "Low Risk" from
    70 to below 85, "Moderate Risk" from 55 to below 70, "High Risk" from
    40 to below 55, and "Very High Risk" below 40, scores below 1
    included. *)
Theorem risk_band_cuts (score : Q) :
  (risk_band score = "Very Low Risk" <-> 85 <= score)
  /\ (risk_band score = "Low Risk" <-> 70 <= score < 85)
  /\ (risk_band score = "Moderate Risk" <-> 55 <= score < 70)
  /\ (risk_band score = "High Risk" <-> 40 <= score < 55)
  /\ (risk_band score = "Very High Risk" <-> score < 40).
Proof.
  unfold risk_band, RISK_BANDS. cbn [risk_band_scan]. unfold py_ge.
  repeat py_case; py_props;
    repeat split; intros; try discriminate; try reflexivity; lra.
Qed.

(** * The data-entry form *)

(** ** Parsing *)

Lemma remove_commas_app (a b : string) :
  remove_commas (a ++ b) = (remove_commas a ++ remove_commas b)%string.
Proof.
  induction a as [|c a IH]; simpl; [reflexivity|].
  destruct (Ascii.eqb c ","); simpl; rewrite IH; reflexivity.
Qed.

(** X27. [parse_optional_float] ignores commas wherever they stand: a text
    and the same text with a comma inserted anywhere parse alike (to the
    same value, the same error or the same absence). *)
Theorem commas_are_ignored (py_strip : string -> string)
    (py_float : string -> option Q) (a b : string) :
  parse_optional_float py_strip py_float (a ++ "," ++ b)
  = parse_optional_float py_strip py_float (a ++ b).
Proof.
  unfold parse_optional_float. rewrite !remove_commas_app. reflexivity.
Qed.

(** ** The step checks *)

Lemma check_numbers_nil (py_strip : string -> string) (py_float : string -> option Q)
    (state : gmap string PyVal) (checks : list (string * string))
    (missing : list string) :
  check_numbers py_strip py_float state checks missing = [] <->
  missing = []
  /\ Forall (fun c => is_number_filled py_strip py_float state (fst c) = true) checks.
Proof.
  unfold check_numbers. revert missing.
  induction checks as [|c checks IH]; intros missing; simpl.
  - split; [intros ->; split; [reflexivity|constructor] | intros [-> _]; reflexivity].
  - rewrite IH. destruct (is_number_filled py_strip py_float state (fst c)) eqn:E.
    + split; intros [Hm Hf]; (split; [exact Hm|]).
      * constructor; assumption.
      * inversion Hf; assumption.
    + split.
      * intros [Hm _]. destruct missing; discriminate Hm.
      * intros [_ Hf]. inversion Hf; congruence.
Qed.

Lemma check_text_nil (py_strip : string -> string)
    (state : gmap string PyVal) (checks : list (string * string))
    (missing : list string) :
  check_text py_strip state checks missing = [] <->
  missing = []
  /\ Forall (fun c => is_non_empty py_strip state (fst c) = true) checks.
Proof.
  unfold check_text. revert missing.
  induction checks as [|c checks IH]; intros missing; simpl.
  - split; [intros ->; split; [reflexivity|constructor] | intros [-> _]; reflexivity].
  - rewrite IH. destruct (is_non_empty py_strip state (fst c)) eqn:E.
    + split; intros [Hm Hf]; (split; [exact Hm|]).
      * constructor; assumption.
      * inversion Hf; assumption.
    + split.
      * intros [Hm _]. destruct missing; discriminate Hm.
      * intros [_ Hf]. inversion Hf; congruence.
Qed.

Lemma filled_number (py_strip : string -> string) (py_float : string -> option Q)
    (state : gmap string PyVal) (key : string) :
  is_number_filled py_strip py_float state key = true ->
  exists v, parse_number_from_state py_strip py_float state key = Some v.
Proof.
  unfold is_number_filled.
  destruct (parse_number_from_state py_strip py_float state key); [eauto|discriminate].
Qed.

Lemma build_inputs_numbers (py_strip : string -> string) (py_float : string -> option Q)
    (py_int : string -> option Z) (today : PyDate) (state : gmap string PyVal)
    (i : ApplicationInput) :
  build_inputs_from_state py_strip py_float py_int today state = Built_ok i ->
  let number := parse_number_from_state py_strip py_float state in
  (requested_loan_amount i = number "requested_loan_amount"
   /\ monthly_installment_override i = number "monthly_installment_override"
   /\ term_months i = number "term_months"
   /\ annual_interest_rate i = number "annual_interest_rate")
  /\ (stated_revenue i = number "stated_revenue"
      /\ verified_revenue i = number "verified_revenue"
      /\ cogs_inventory i = number "cogs_inventory"
      /\ other_monthly_income i = number "other_monthly_income"
      /\ household_expenses i = number "household_expenses"
      /\ owner_withdrawals i = number "owner_withdrawals")
  /\ (rent i = number "rent"
      /\ utilities i = number "utilities"
      /\ wages i = number "wages"
      /\ transport i = number "transport"
      /\ other_operating_costs i = number "other_operating_costs")
  /\ (total_capital i = number "total_capital"
      /\ additional_savings_equity i = number "additional_savings_equity").
Proof.
  unfold build_inputs_from_state. intros H.
  repeat match type of H with
         | built_bind ?c _ = Built_ok _ =>
             destruct c; cbn [built_bind] in H; [|discriminate H|discriminate H]
         end.
  injection H as <-. cbn. repeat split.
Qed.

Lemma pmt_none (libm_pow : Q -> Q -> Q) (rate periods present_value : Q) :
  pmt libm_pow rate periods present_value = Ok None -> periods == 0.
Proof.
  unfold pmt. intros H. apply py_eq_true.
  destruct (py_eq periods 0); [reflexivity|].
  destruct (py_eq rate 0).
  - destruct (float_div present_value periods); simpl in H; discriminate H.
  - destruct (math_pow libm_pow (float_add 1 rate) (- periods)) as [w|];
      cbn [py_bind] in H; [|discriminate H].
    destruct (float_div (float_mul rate present_value) (float_sub 1 w));
      simpl in H; discriminate H.
Qed.

Ltac filled_in H v E :=
  let F := fresh in
  pose proof H as F; apply filled_number in F as [v E].

(** X28. What the step checks buy the engine. When the checks of steps 1,
    3 and 4 report nothing missing and the inputs built from the form are
    evaluated, the operating expenses and both unstressed surpluses are
    numbers; the installment is missing only for a term of 0 months, the
    repayment share only with the installment, the equity ratio only for
    a requested amount of 0 and the income variance only for a verified
    revenue of 0. *)
Theorem completed_steps_fill_metrics (py_strip : string -> string)
    (py_float : string -> option Q) (py_int : string -> option Z)
    (libm_pow : Q -> Q -> Q) (today : PyDate) (state : gmap string PyVal)
    (i : ApplicationInput) (l : PolicyConfig) (s : gmap string Q) (run : Run) :
  step_missing_fields py_strip py_float state 1 = [] ->
  step_missing_fields py_strip py_float state 3 = [] ->
  step_missing_fields py_strip py_float state 4 = [] ->
  build_inputs_from_state py_strip py_float py_int today state = Built_ok i ->
  calculate_scorecard_run libm_pow i l s = Ok run ->
  let r := run_result run in
  (exists opex surplus total,
      total_operating_expenses r = Some opex
      /\ business_surplus_unstressed r = Some surplus
      /\ total_monthly_surplus_unstressed r = Some total)
  /\ (monthly_installment_used r = None ->
      monthly_installment_override i = None
      /\ exists n, term_months i = Some n /\ n == 0)
  /\ (repayment_share r = None -> monthly_installment_used r = None)
  /\ (equity_ratio r = None ->
      exists amount, requested_loan_amount i = Some amount /\ amount == 0)
  /\ (income_variance r = None ->
      exists revenue, verified_revenue i = Some revenue /\ revenue == 0).
Proof.
  intros H1 H3 H4 Hb Hr. cbv zeta.
  apply build_inputs_numbers in Hb. cbv zeta in Hb.
  destruct Hb as ((Ea & Eo & Et & Er) & (Esr & Evr & Ec & Eoi & Eh & Eow)
                  & (Ere & Eu & Ew & Etr & Eoc) & (Etc & Es)).
  (* step 1 *)
  unfold step_missing_fields in H1. cbn [Z.eqb Pos.eqb] in H1.
  destruct (negb (is_number_filled py_strip py_float state "monthly_installment_override")
            && negb (is_number_filled py_strip py_float state "term_months"
                     && is_number_filled py_strip py_float state "annual_interest_rate"))
    eqn:Hterms in H1.
  { apply app_eq_nil in H1 as [_ H1]. discriminate H1. }
  apply check_numbers_nil in H1 as [_ H1].
  apply Forall_cons_iff in H1 as [_ H1]. apply Forall_cons_iff in H1 as [Fa _].
  cbn [fst] in Fa. filled_in Fa amount Pa. rewrite Pa in Ea.
  (* step 3 *)
  unfold step_missing_fields in H3. cbn [Z.eqb Pos.eqb] in H3.
  apply check_numbers_nil in H3 as [_ H3].
  repeat (let F := fresh "F" in apply Forall_cons_iff in H3 as [F H3]; cbn [fst] in F;
          apply filled_number in F as [? F]).
  (* step 4 *)
  unfold step_missing_fields in H4. cbn [Z.eqb Pos.eqb] in H4.
  apply check_numbers_nil in H4 as [_ H4].
  repeat (let F := fresh "G" in apply Forall_cons_iff in H4 as [F H4]; cbn [fst] in F;
          apply filled_number in F as [? F]).
  repeat match goal with
         | F : parse_number_from_state _ _ _ ?k = Some _,
           E : _ = parse_number_from_state _ _ _ ?k |- _ => rewrite F in E; clear F
         end.
  apply run_has_shape in Hr.
  pose proof (shape_opex _ _ _ _ _ Hr) as Hopex.
  pose proof (shape_surplus_u _ _ _ _ _ Hr) as Hsu.
  pose proof (shape_total_u _ _ _ _ _ Hr) as Htu.
  unfold total_operating_expenses_of in Hopex. rewrite Ere, Eu, Ew, Etr, Eoc in Hopex.
  rewrite Hopex in Hsu. unfold business_surplus_unstressed_of in Hsu.
  rewrite Evr, Ec in Hsu.
  rewrite Hsu in Htu. unfold total_monthly_surplus_of in Htu.
  rewrite Eoi, Eh, Eow in Htu.
  split; [do 3 eexists; split; [exact Hopex|split; [exact Hsu|exact Htu]]|].
  split; [|split; [|split]].
  - intros Hm. pose proof (shape_installment _ _ _ _ _ Hr) as Hi.
    rewrite Hm in Hi. unfold monthly_installment_of in Hi.
    destruct (monthly_installment_override i) eqn:Eov; [discriminate Hi|].
    split; [reflexivity|].
    unfold is_number_filled in Hterms at 1.
    rewrite <- Eo in Hterms. cbn [negb andb] in Hterms.
    apply negb_false_iff, andb_true_iff in Hterms as [Ft Fr].
    apply filled_number in Ft as [n Ft]. apply filled_number in Fr as [a Fr].
    rewrite Ft in Et. rewrite Fr in Er. rewrite Ea, Et, Er in Hi.
    exists n. split; [exact Et|].
    destruct (py_div a 100) as [p|]; cbn [py_bind] in Hi; [|discriminate Hi].
    destruct (py_div p 12) as [m|]; cbn [py_bind] in Hi; [|discriminate Hi].
    exact (pmt_none _ _ _ _ Hi).
  - intros Hs. pose proof (repayment_share_value _ _ _ (shape_share _ _ _ _ _ Hr)) as E.
    rewrite Hs, Htu in E.
    destruct (monthly_installment_used (run_result run)); [|reflexivity].
    destruct (py_le _ 0); discriminate E.
  - intros He. pose proof (equity_ratio_value _ _ (shape_equity _ _ _ _ _ Hr)) as E.
    rewrite He, Ea, Etc, Es in E. exists amount. split; [exact Ea|].
    apply py_eq_true. destruct (py_eq amount 0); [reflexivity|discriminate E].
  - intros Hv. pose proof (income_variance_value _ _ (shape_variance _ _ _ _ _ Hr)) as E.
    rewrite Hv, Esr, Evr in E. eexists. split; [exact Evr|].
    apply py_eq_true. destruct (py_eq _ 0); [reflexivity|discriminate E].
Qed.

Lemma completed_steps_fill_metrics_witness :
  exists run,
    calculate_scorecard_run libm_unused (filed_on scenario_A SAMPLE_DAY)
      DEFAULT_LOOKUP_VALUES DEFAULT_SECTOR_STRESS = Ok run
    /\ exists opex surplus total,
         total_operating_expenses (run_result run) = Some opex
         /\ business_surplus_unstressed (run_result run) = Some surplus
         /\ total_monthly_surplus_unstressed (run_result run) = Some total.
Proof.
  eexists. split; [vm_compute; reflexivity|].
  refine (proj1 (completed_steps_fill_metrics plain_strip plain_float plain_int
                   libm_unused SAMPLE_DAY
                   (reset_customer_defaults SAMPLE_DAY EMPTY_SESSION)
                   (filed_on scenario_A SAMPLE_DAY)
                   DEFAULT_LOOKUP_VALUES DEFAULT_SECTOR_STRESS _ _ _ _ _ _));
    vm_compute; reflexivity.
Defined.

(** X29. The check of step 5 passes exactly when the collateral type and
    the insurance answer are filled in and, for the types "Movable" and
    "Immovable" only, the market value is a number: no market value is
    asked of any other type. *)
Theorem collateral_step_rule (py_strip : string -> string)
    (py_float : string -> option Q) (state : gmap string PyVal) :
  step_missing_fields py_strip py_float state 5 = [] <->
  is_non_empty py_strip state "collateral_type" = true
  /\ is_non_empty py_strip state "collateral_insured" = true
  /\ (state !! "collateral_type" = Some (VStr "Movable")
      \/ state !! "collateral_type" = Some (VStr "Immovable") ->
      is_number_filled py_strip py_float state "market_value" = true).
Proof.
  unfold step_missing_fields. cbn [Z.eqb Pos.eqb].
  destruct (is_non_empty py_strip state "collateral_type");
    destruct (is_non_empty py_strip state "collateral_insured");
    cbn [negb app];
    try (split; [|intros (? & ? & _); discriminate]).
  - destruct (state !! "collateral_type") as [[|kind| |]|] eqn:Ek;
      cbn [andb];
      try (split; [intros _; repeat split; intros [?|?]; discriminate
                  |reflexivity]).
    destruct (String.eqb_spec kind "Movable") as [->|Hm];
      [|destruct (String.eqb_spec kind "Immovable") as [->|Hi]]; cbn [orb andb].
    + destruct (is_number_filled py_strip py_float state "market_value");
        cbn [negb]; split; try discriminate; try (intros _; repeat split; reflexivity).
      intros (_ & _ & H). discriminate H. left. reflexivity.
    + destruct (is_number_filled py_strip py_float state "market_value");
        cbn [negb]; split; try discriminate; try (intros _; repeat split; reflexivity).
      intros (_ & _ & H). discriminate H. right. reflexivity.
    + split; [|reflexivity]. intros _. repeat split. intros [E|E]; congruence.
  - destruct (_ && _); discriminate.
  - destruct (_ && _); discriminate.
  - destruct (_ && _); discriminate.
Qed.

(** ** Resetting the form *)

Lemma fold_assignments_lookup (items : list (string * PyVal))
    (state : gmap string PyVal) (key : string) :
  fold_left (fun st item => <[fst item := snd item]> st) items state !! key
  = match last_assignment key items with
    | Some v => Some v
    | None => state !! key
    end.
Proof.
  revert state. induction items as [|[k v] items IH]; intros state; simpl.
  - reflexivity.
  - rewrite IH. destruct (last_assignment key items); [reflexivity|].
    destruct (String.eqb_spec k key) as [->|Hk].
    + apply lookup_insert_eq.
    + rewrite lookup_insert_ne by exact Hk. reflexivity.
Qed.

Lemma reset_lookup (today : PyDate) (state : gmap string PyVal) (key : string)
    (v : PyVal) :
  last_assignment key (RESET_ASSIGNMENTS today) = Some v ->
  reset_customer_defaults today state !! key = Some v.
Proof.
  intros H.
  change (reset_customer_defaults today state)
    with (fold_left (fun st item => <[fst item := snd item]> st)
            [("application_date", VDate today); ("scorecard_step", VInt 1)]
            (fold_left (fun st item => <[fst item := snd item]> st)
               CUSTOMER_INPUT_DEFAULTS state)).
  rewrite <- fold_left_app. fold (RESET_ASSIGNMENTS today).
  rewrite fold_assignments_lookup, H. reflexivity.
Qed.

Lemma reset_get (today : PyDate) (state : gmap string PyVal) (key : string)
    (v : PyVal) :
  last_assignment key (RESET_ASSIGNMENTS today) = Some v ->
  state_get (reset_customer_defaults today state) key = v.
Proof. intros H. unfold state_get. rewrite (reset_lookup _ _ _ _ H). reflexivity. Qed.

(** ** Numerals *)

Lemma numeral_no_commas (d : Decimal.uint) :
  remove_commas (NilEmpty.string_of_uint d) = NilEmpty.string_of_uint d.
Proof. induction d; simpl; congruence. Qed.

Lemma decimal_no_commas (z : Z) : remove_commas (decimal z) = decimal z.
Proof.
  unfold decimal. destruct (Z.to_int z) as [d|d]; simpl.
  - destruct d; try reflexivity; apply (numeral_no_commas (_ _)).
  - f_equal. destruct d; try reflexivity; apply (numeral_no_commas (_ _)).
Qed.

Lemma decimal_nonempty (z : Z) : (decimal z =? "") = false.
Proof. unfold decimal. destruct (Z.to_int z) as [d|d]; destruct d; reflexivity. Qed.

Lemma parse_numeral (py_strip : string -> string) (py_float : string -> option Q)
    (z : Z) :
  reads_numerals py_strip py_float -> (Z.abs z <= 2 ^ 53)%Z ->
  parse_optional_float py_strip py_float (decimal z) = (Some (inject_Z z), None).
Proof.
  intros Hr Hz. unfold parse_optional_float. rewrite decimal_no_commas.
  destruct (Hr z Hz) as [-> ->]. rewrite decimal_nonempty. reflexivity.
Qed.

Lemma plain_reads_numerals : reads_numerals plain_strip plain_float.
Proof.
  intros z _. split; [reflexivity|].
  unfold plain_float, plain_int, decimal. rewrite NilZero.isi.
  - simpl. rewrite DecimalZ.of_to. reflexivity.
  - intros E. pose proof (DecimalZ.of_to z) as H. rewrite E in H. simpl in H.
    subst z. discriminate E.
  - intros E. pose proof (DecimalZ.of_to z) as H. rewrite E in H. simpl in H.
    subst z. discriminate E.
Qed.

Ltac after_reset today :=
  repeat match goal with
         | |- context [state_get (reset_customer_defaults today ?st) ?k] =>
             rewrite (reset_get today st k _ eq_refl)
         | |- context [reset_customer_defaults today ?st !! ?k] =>
             rewrite (reset_lookup today st k _ eq_refl)
         end.

Ltac read_numerals Hr :=
  repeat match goal with
         | |- context [parse_optional_float ?ps ?pf ?s] =>
             match eval vm_compute in (plain_int s) with
             | Some ?n =>
                 change (parse_optional_float ps pf s)
                   with (parse_optional_float ps pf (decimal n));
                 rewrite (parse_numeral ps pf n Hr ltac:(apply Z.leb_le; reflexivity))
             end
         end.

(** X30. "Reset" forgets the form: whatever the session held, the inputs
    built after [reset_customer_defaults] are those built after a reset of
    an empty session, the wizard is back at step 1, and when [float] reads
    decimal numerals the inputs are the sample application (scenario A)
    filed today. *)
Theorem reset_restores_the_sample (py_strip : string -> string)
    (py_float : string -> option Q) (py_int : string -> option Z)
    (today : PyDate) (state : gmap string PyVal) :
  build_inputs_from_state py_strip py_float py_int today
    (reset_customer_defaults today state)
  = build_inputs_from_state py_strip py_float py_int today
      (reset_customer_defaults today EMPTY_SESSION)
  /\ reset_customer_defaults today state !! "scorecard_step" = Some (VInt 1)
  /\ (reads_numerals py_strip py_float ->
      build_inputs_from_state py_strip py_float py_int today
        (reset_customer_defaults today state)
      = Built_ok (filed_on scenario_A today)).
Proof.
  split; [|split].
  - unfold build_inputs_from_state, loan_series_of, site_visit_of,
      application_date_of, text_of, parse_number_from_state.
    after_reset today. reflexivity.
  - apply reset_lookup. reflexivity.
  - intros Hr.
    unfold build_inputs_from_state, loan_series_of, site_visit_of,
      application_date_of, text_of, parse_number_from_state.
    after_reset today. cbn [py_str]. read_numerals Hr.
    change "2" with (decimal 2). rewrite (proj2 (Hr 2%Z ltac:(apply Z.leb_le; reflexivity))).
    reflexivity.
Qed.

Lemma reset_restores_the_sample_witness :
  build_inputs_from_state plain_strip plain_float plain_int SAMPLE_DAY
    (reset_customer_defaults SAMPLE_DAY EMPTY_SESSION)
  = Built_ok (filed_on scenario_A SAMPLE_DAY).
Proof.
  exact (proj2 (proj2 (reset_restores_the_sample plain_strip plain_float plain_int
                         SAMPLE_DAY EMPTY_SESSION))
           plain_reads_numerals).
Defined.
